(** * swarmpy: a shallow embedding of the swarm API client

    The development follows the layout of the Python package:
    - [Py]       the fragment of Python's data model the client relies on
                 (JSON values, dictionaries, truthiness, exceptions);
    - [Codec]    [struct.pack(">Q", _)], [str.encode('ascii')], base64,
                 SHA-256 and HMAC, as used by [swarm/auth.py];
    - [Cachetools] the [LRUCache] of the cachetools package;
    - [Swarm]    [swarm/auth.py], [swarm/utils.py], [swarm/objects.py] and
                 [swarm/client.py], written in a state-and-exception monad
                 over one store that holds the client, its objects and the
                 network traffic;
    - [Props]    the vocabulary of the statements and the scenarios;
    - the properties of the client, stated over these definitions. *)

From Stdlib Require Import ZArith Lia String Ascii Strings.Byte Bool List Sorted.
From Stdlib Require Import Floats.SpecFloat.
From stdpp Require Import base option list gmap strings pretty.

Set Warnings "-register-all,-clear-no-such-hyp".
Import ListNotations.

Local Open Scope string_scope.
Local Open Scope list_scope.
Local Open Scope Z_scope.

(* ===================================================================== *)
(** * Python values and exceptions                                        *)
(* ===================================================================== *)

Module Py.

(** The values that travel between the client and the service are those of
    [json.loads]: [None], booleans, integers, floats, strings, lists and
    dictionaries with string keys.  Dictionaries keep insertion order, so
    they are association lists; every dictionary built here has distinct
    keys, and a lookup takes the first binding. *)
Inductive pyval : Type :=
| PNone
| PBool (b : bool)
| PInt (z : Z)
| PFloat (f : spec_float)
| PStr (s : string)
| PList (l : list pyval)
| PDict (d : list (string * pyval)).

Definition dict := list (string * pyval).

(** The exceptions the modelled code can raise.  [Exception_ v] is
    [Exception(v)]; [ExceptionStr v] is [Exception(str(v))], kept symbolic
    because the text of [str(dict)] plays no role. *)
Inductive exn : Type :=
| KeyError (k : pyval)
| TypeError (msg : string)
| AttributeError (name : string)
| ValueError (msg : string)
| ZeroDivisionError
| OverflowError
| StructError
| UnicodeEncodeError
| JSONDecodeError
| ConnectionError
| Exception_ (v : pyval)
| ExceptionStr (v : pyval)
| MachAuthError (code : Z) (text : string)
| APIException (code : Z) (msg : string)
| NameError (name : string).

Inductive result (A : Type) : Type :=
| Ok (a : A)
| Raise (e : exn).
Arguments Ok {A} a.
Arguments Raise {A} e.

(** binary64, the format of a Python float *)
Definition prec : Z := 53.
Definition emax : Z := 1024.

Definition float_of_Z (z : Z) : spec_float := binary_normalize prec emax z 0 false.
Definition fdiv : spec_float -> spec_float -> spec_float := SFdiv prec emax.
Definition fmul : spec_float -> spec_float -> spec_float := SFmul prec emax.

Definition float_is_zero (f : spec_float) : bool :=
  match f with S754_zero _ => true | _ => false end.

(** [f == z] for a float and an integer: Python compares the exact values. *)
Definition float_eq_Z (f : spec_float) (z : Z) : bool :=
  match f with
  | S754_zero _ => z =? 0
  | S754_finite s m e =>
      let v := if s then Z.neg m else Z.pos m in
      if 0 <=? e then z =? v * 2 ^ e
      else (v mod 2 ^ (- e) =? 0) && (z =? v / 2 ^ (- e))
  | _ => false
  end.

(** [bool(v)] *)
Definition truthy (v : pyval) : bool :=
  match v with
  | PNone => false
  | PBool b => b
  | PInt z => negb (z =? 0)
  | PFloat f => negb (float_is_zero f)
  | PStr s => negb (String.eqb s "")
  | PList l => match l with [] => false | _ => true end
  | PDict d => match d with [] => false | _ => true end
  end.

(** [v == z] for an integer [z]; [True == 1] and [1.0 == 1] hold in Python. *)
Definition eq_int (v : pyval) (z : Z) : bool :=
  match v with
  | PInt z' => z' =? z
  | PBool b => (if b then 1 else 0) =? z
  | PFloat f => float_eq_Z f z
  | _ => false
  end.

(** [v == True] *)
Definition eq_True (v : pyval) : bool := eq_int v 1.

(** [v == s] for a string literal [s] *)
Definition eq_str (v : pyval) (s : string) : bool :=
  match v with
  | PStr s' => String.eqb s' s
  | _ => false
  end.

(** [k in d] and [d[k]] on a dictionary *)
Fixpoint dict_get (d : dict) (k : string) : option pyval :=
  match d with
  | [] => None
  | (k', v) :: d' => if String.eqb k' k then Some v else dict_get d' k
  end.

Definition dict_mem (d : dict) (k : string) : bool :=
  match dict_get d k with Some _ => true | None => false end.

(** [d[k] = v]: replace in place, or append a new key *)
Fixpoint dict_set (d : dict) (k : string) (v : pyval) : dict :=
  match d with
  | [] => [(k, v)]
  | (k', v') :: d' =>
      if String.eqb k' k then (k', v) :: d' else (k', v') :: dict_set d' k v
  end.

(** [v[k]] for a string key: only dictionaries can be subscripted by one *)
Definition getitem (v : pyval) (k : string) : result pyval :=
  match v with
  | PDict d =>
      match dict_get d k with
      | Some x => Ok x
      | None => Raise (KeyError (PStr k))
      end
  | _ => Raise (TypeError "indices must be integers or object is not subscriptable")
  end.

(** [k in v] for a string key *)
Definition contains (v : pyval) (k : string) : result bool :=
  match v with
  | PDict d => Ok (dict_mem d k)
  | PStr s => Ok (match index 0 k s with Some _ => true | None => false end)
  | PList l => Ok (existsb (fun x => eq_str x k) l)
  | _ => Raise (TypeError "argument is not iterable")
  end.

(** Numbers as operands of [*] and [/]: [bool] is a subclass of [int]. *)
Inductive num : Type := NInt (z : Z) | NFloat (f : spec_float).

Definition as_num (v : pyval) : option num :=
  match v with
  | PInt z => Some (NInt z)
  | PBool b => Some (NInt (if b then 1 else 0))
  | PFloat f => Some (NFloat f)
  | _ => None
  end.

Definition is_infinite (f : spec_float) : bool :=
  match f with S754_infinity _ => true | _ => false end.

(** The conversion of an operand to a float: an integer is rounded to
    the nearest binary64, and one too large for the format is an
    [OverflowError]. *)
Definition to_float (n : num) : result spec_float :=
  match n with
  | NInt z =>
      let f := float_of_Z z in
      if is_infinite f then Raise OverflowError else Ok f
  | NFloat f => Ok f
  end.

(** an integer as it is, not rounded to the format *)
Definition exact_Z (z : Z) : spec_float :=
  match z with
  | Z0 => S754_zero false
  | Zpos m => S754_finite false m 0
  | Zneg m => S754_finite true m 0
  end.

(** [x / y] for two integers: the exact quotient is rounded once to the
    nearest binary64; a quotient beyond the format is an
    [OverflowError]. *)
Definition int_truediv (x y : Z) : result spec_float :=
  if y =? 0 then Raise ZeroDivisionError
  else
    let q := fdiv (exact_Z x) (exact_Z y) in
    if is_infinite q then Raise OverflowError else Ok q.

(** [s * n] for a sequence: [n] copies, none for [n <= 0] *)
Fixpoint repeat_string (n : nat) (s : string) : string :=
  match n with
  | O => EmptyString
  | S n' => String.append s (repeat_string n' s)
  end.

Fixpoint repeat_list {A} (n : nat) (l : list A) : list A :=
  match n with
  | O => []
  | S n' => l ++ repeat_list n' l
  end.

(** [a * b]: the product of two numbers, exact for integers, or the
    repetition of a string or a list by an integer. *)
Definition mul (a b : pyval) : result pyval :=
  match as_num a, as_num b with
  | Some (NInt x), Some (NInt y) => Ok (PInt (x * y))
  | Some x, Some y =>
      match to_float x, to_float y with
      | Ok fx, Ok fy => Ok (PFloat (fmul fx fy))
      | Raise e, _ => Raise e
      | _, Raise e => Raise e
      end
  | Some (NInt n), None =>
      match b with
      | PStr t => Ok (PStr (repeat_string (Z.to_nat n) t))
      | PList l => Ok (PList (repeat_list (Z.to_nat n) l))
      | _ => Raise (TypeError "unsupported operand type(s) for *")
      end
  | None, Some (NInt n) =>
      match a with
      | PStr t => Ok (PStr (repeat_string (Z.to_nat n) t))
      | PList l => Ok (PList (repeat_list (Z.to_nat n) l))
      | _ => Raise (TypeError "unsupported operand type(s) for *")
      end
  | Some (NFloat _), None | None, Some (NFloat _) =>
      match a, b with
      | PStr _, _ | PList _, _ | _, PStr _ | _, PList _ =>
          Raise (TypeError "can't multiply sequence by non-int of type 'float'")
      | _, _ => Raise (TypeError "unsupported operand type(s) for *")
      end
  | None, None => Raise (TypeError "unsupported operand type(s) for *")
  end.

(** [a / b], Python 3's true division: the result is always a float, also
    for two integers, whose exact quotient is rounded once.  With a float
    among the operands the other one is converted first and the floats
    are divided, the result possibly infinite. *)
Definition truediv (a b : pyval) : result pyval :=
  match as_num a, as_num b with
  | Some (NInt x), Some (NInt y) =>
      match int_truediv x y with
      | Ok q => Ok (PFloat q)
      | Raise e => Raise e
      end
  | Some x, Some y =>
      match to_float x, to_float y with
      | Ok fx, Ok fy =>
          if float_is_zero fy then Raise ZeroDivisionError
          else Ok (PFloat (fdiv fx fy))
      | Raise e, _ => Raise e
      | _, Raise e => Raise e
      end
  | _, _ => Raise (TypeError "unsupported operand type(s) for /")
  end.

End Py.

(* ===================================================================== *)
(** * Byte-level codecs and the keyed hash of the handshake              *)
(* ===================================================================== *)

(** [struct], [base64], [hashlib] and [hmac] belong to Python's standard
    library.  They are written out here from their specifications
    (FIPS 180-4, RFC 2104, RFC 4648) so that a handshake can be computed,
    and are checked on published test vectors below. *)
Module Codec.
Import Py.

Definition bytes := list byte.

Definition Z_of_byte (b : byte) : Z := Z.of_N (Byte.to_N b).

Definition byte_of_Z (z : Z) : byte :=
  match Byte.of_N (Z.to_N (z mod 256)) with
  | Some b => b
  | None => x00
  end.

(** The [n] low-order bytes of [v], most significant first. *)
Fixpoint be_bytes (n : nat) (v : Z) : list Z :=
  match n with
  | O => []
  | S n' => (Z.shiftr v (8 * Z.of_nat n')) mod 256 :: be_bytes n' v
  end.

(** The integer a big-endian byte string denotes. *)
Definition be_value (l : list Z) : Z :=
  fold_left (fun acc b => acc * 256 + b) l 0.

(** [struct.pack(">Q", t)]: eight bytes, big-endian, for an unsigned
    64-bit [t]; anything else is a [struct.error]. *)
Definition struct_pack_Q (t : Z) : result bytes :=
  if (0 <=? t) && (t <? 2 ^ 64)
  then Ok (map byte_of_Z (be_bytes 8 t))
  else Raise StructError.

(** [s.encode('ascii')] *)
Fixpoint encode_ascii (s : string) : result bytes :=
  match s with
  | EmptyString => Ok []
  | String a s' =>
      if (N_of_ascii a <? 128)%N
      then match encode_ascii s' with
           | Ok bs => Ok (byte_of_ascii a :: bs)
           | Raise e => Raise e
           end
      else Raise UnicodeEncodeError
  end.

(** ** base64 *)

Definition b64_alphabet : string :=
  "ABCDEFGHIJKLMNOPQRSTUVWXYZabcdefghijklmnopqrstuvwxyz0123456789+/".

Definition b64_char (i : Z) : ascii :=
  match get (Z.to_nat i) b64_alphabet with
  | Some a => a
  | None => "="%char
  end.

Fixpoint b64_groups (fuel : nat) (l : list Z) : string :=
  match fuel with
  | O => ""
  | S fuel' =>
      match l with
      | [] => ""
      | [a] =>
          String (b64_char (a / 4))
            (String (b64_char ((a mod 4) * 16)) "==")
      | [a; b] =>
          String (b64_char (a / 4))
            (String (b64_char ((a mod 4) * 16 + b / 16))
               (String (b64_char ((b mod 16) * 4)) "="))
      | a :: b :: c :: l' =>
          String (b64_char (a / 4))
            (String (b64_char ((a mod 4) * 16 + b / 16))
               (String (b64_char ((b mod 16) * 4 + c / 64))
                  (String (b64_char (c mod 64)) (b64_groups fuel' l'))))
      end
  end.

(** [base64.b64encode(b).decode('ascii')]; the alphabet is ASCII, so the
    decoding step cannot fail. *)
Definition b64encode_str (b : bytes) : string :=
  b64_groups (S (length b)) (map Z_of_byte b).

(** ** SHA-256 (FIPS 180-4) on 32-bit words held in [Z] *)

Definition w32 (x : Z) : Z := x mod 2 ^ 32.
Definition add32 (x y : Z) : Z := w32 (x + y).
Definition rotr (n x : Z) : Z :=
  Z.lor (Z.shiftr x n) (w32 (Z.shiftl x (32 - n))).
Definition not32 (x : Z) : Z := Z.lxor x (2 ^ 32 - 1).

Definition Ch (x y z : Z) : Z := Z.lxor (Z.land x y) (Z.land (not32 x) z).
Definition Maj (x y z : Z) : Z :=
  Z.lxor (Z.lxor (Z.land x y) (Z.land x z)) (Z.land y z).
Definition bsig0 (x : Z) : Z := Z.lxor (Z.lxor (rotr 2 x) (rotr 13 x)) (rotr 22 x).
Definition bsig1 (x : Z) : Z := Z.lxor (Z.lxor (rotr 6 x) (rotr 11 x)) (rotr 25 x).
Definition ssig0 (x : Z) : Z := Z.lxor (Z.lxor (rotr 7 x) (rotr 18 x)) (Z.shiftr x 3).
Definition ssig1 (x : Z) : Z := Z.lxor (Z.lxor (rotr 17 x) (rotr 19 x)) (Z.shiftr x 10).

(** The constants are the leading fractional bits of the square and cube
    roots of the first primes; they are computed rather than tabulated. *)
Definition is_prime (n : Z) : bool :=
  (1 <? n) &&
  forallb (fun d => negb (n mod Z.of_nat d =? 0)) (seq 2 (Z.to_nat n - 2)).

Definition primes_below (n : nat) : list Z :=
  filter (fun p => is_prime p) (map Z.of_nat (seq 2 (n - 2))).

(** the integer cube root, one bit at a time from bit [b] down *)
Fixpoint icbrt_bits (b : nat) (n r : Z) : Z :=
  let try_bit (k : Z) := if (r + 2 ^ k) ^ 3 <=? n then r + 2 ^ k else r in
  match b with
  | O => try_bit 0
  | S b' => icbrt_bits b' n (try_bit (Z.of_nat b))
  end.

Definition icbrt (n : Z) : Z := icbrt_bits 40 n 0.

Definition sha_H0 : list Z :=
  Eval vm_compute in
    map (fun p => w32 (Z.sqrt (p * 2 ^ 64))) (firstn 8 (primes_below 312)).

Definition sha_K : list Z :=
  Eval vm_compute in
    map (fun p => w32 (icbrt (p * 2 ^ 96))) (primes_below 312).

Definition sha_pad (msg : list Z) : list Z :=
  let l := Z.of_nat (length msg) in
  msg ++ [128] ++ repeat 0 (Z.to_nat ((55 - l) mod 64)) ++ be_bytes 8 (8 * l).

(** the message schedule: sixteen words of the block, extended to 64 *)
Fixpoint sha_extend (n : nat) (w : list Z) : list Z :=
  match n with
  | O => w
  | S n' =>
      let t := length w in
      let at_ (i : nat) := nth (t - i) w 0 in
      sha_extend n'
        (w ++ [add32 (add32 (ssig1 (at_ 2%nat)) (at_ 7%nat))
                     (add32 (ssig0 (at_ 15%nat)) (at_ 16%nat))])
  end.

Fixpoint words_of (fuel : nat) (l : list Z) : list Z :=
  match fuel with
  | O => []
  | S fuel' =>
      match l with
      | a :: b :: c :: d :: l' => be_value [a; b; c; d] :: words_of fuel' l'
      | _ => []
      end
  end.

Definition sha_round (st : list Z) (kw : Z * Z) : list Z :=
  match st with
  | [a; b; c; d; e; f; g; h] =>
      let t1 := add32 (add32 (add32 h (bsig1 e)) (add32 (Ch e f g) (fst kw))) (snd kw) in
      let t2 := add32 (bsig0 a) (Maj a b c) in
      [add32 t1 t2; a; b; c; add32 d t1; e; f; g]
  | _ => st
  end.

Definition zip_with {A B C} (f : A -> B -> C) : list A -> list B -> list C :=
  fix go l1 l2 :=
    match l1, l2 with
    | x :: l1', y :: l2' => f x y :: go l1' l2'
    | _, _ => []
    end.

Definition sha_block (h : list Z) (block : list Z) : list Z :=
  let w := sha_extend 48 (words_of 16 block) in
  zip_with add32 h (fold_left sha_round (zip_with pair sha_K w) h).

Fixpoint sha_blocks (fuel : nat) (h : list Z) (l : list Z) : list Z :=
  match fuel with
  | O => h
  | S fuel' =>
      match l with
      | [] => h
      | _ => sha_blocks fuel' (sha_block h (firstn 64 l)) (skipn 64 l)
      end
  end.

Definition sha256_Z (msg : list Z) : list Z :=
  let p := sha_pad msg in
  flat_map (be_bytes 4) (sha_blocks (length p) sha_H0 p).

(** [hashlib.sha256(msg).digest()] *)
Definition sha256 (msg : bytes) : bytes :=
  map byte_of_Z (sha256_Z (map Z_of_byte msg)).

(** [hmac.new(key, msg, hashlib.sha256).digest()] (RFC 2104, block size
    64): a key longer than a block is hashed first, then zero-padded. *)
Definition hmac_sha256_Z (key msg : list Z) : list Z :=
  let k0 := if (64 <? length key)%nat then sha256_Z key else key in
  let k := k0 ++ repeat 0 (64 - length k0)%nat in
  sha256_Z (map (Z.lxor 92) k ++ sha256_Z (map (Z.lxor 54) k ++ msg)).

Definition hmac_sha256 (key msg : bytes) : bytes :=
  map byte_of_Z (hmac_sha256_Z (map Z_of_byte key) (map Z_of_byte msg)).

(** bytes of a text, for test vectors *)
Definition bytes_of_string (s : string) : bytes := map byte_of_ascii (list_ascii_of_string s).

Definition hex_digit (n : Z) : ascii :=
  match get (Z.to_nat n) "0123456789abcdef" with Some a => a | None => "?"%char end.

Definition hex (b : bytes) : string :=
  string_of_list_ascii
    (flat_map (fun x => [hex_digit (Z_of_byte x / 16); hex_digit (Z_of_byte x mod 16)]) b).

End Codec.

(* ===================================================================== *)
(** * cachetools.LRUCache                                                 *)
(* ===================================================================== *)

Module Cachetools.
Import Py.

(** Modelled from the spec: [cachetools.LRUCache], the class that
    swarm/client.py imports for its three caches and that is not among the
    sources; the spec describes each cache as bounded, with
    least-recently-used eviction.  The shape is the one of the package:
    [LRUCache(maxsize)] with the default [getsizeof] (every item has size
    1) is a dictionary [data] and the keys in order of use, least recently
    used first; [currsize] is the number of items. *)
Section LRU.
Context {K : Type} `{Countable K} {V : Type}.
Variable key_repr : K -> pyval.

Record LRUCache : Type := mkLRU {
  maxsize : nat;
  data : gmap K V;
  order : list K
}.

Definition lru_new (n : nat) : LRUCache :=
  {| maxsize := n; data := ∅; order := [] |}.

Definition currsize (c : LRUCache) : nat := size (data c).

(** [key in cache]: a plain dictionary test, the order is untouched *)
Definition lru_contains (k : K) (c : LRUCache) : bool :=
  bool_decide (is_Some (data c !! k)).

(** [OrderedDict.move_to_end(key)], adding the key when it is absent *)
Definition move_to_end (k : K) (o : list K) : list K :=
  filter (λ k', k' ≠ k) o ++ [k].

(** [cache[key]]: the value, and the key becomes the most recently used *)
Definition lru_getitem (k : K) (c : LRUCache) : result (V * LRUCache) :=
  match data c !! k with
  | Some v =>
      Ok (v, {| maxsize := maxsize c; data := data c;
                order := move_to_end k (order c) |})
  | None => Raise (KeyError (key_repr k))
  end.

(** [while currsize + 1 > maxsize: popitem()], where [popitem] removes
    the first key of [order]; on an empty order it raises [KeyError] *)
Fixpoint lru_make_room (n : nat) (d : gmap K V) (o : list K)
  : result (gmap K V * list K) :=
  if bool_decide (size d + 1 ≤ n)%nat then Ok (d, o)
  else match o with
       | [] => Raise (KeyError (PStr "cache is empty"))
       | k :: o' => lru_make_room n (delete k d) o'
       end.

(** [cache[key] = value] *)
Definition lru_setitem (k : K) (v : V) (c : LRUCache) : result LRUCache :=
  if bool_decide (maxsize c < 1)%nat then Raise (ValueError "value too large")
  else
    match (if lru_contains k c then Ok (data c, order c)
           else lru_make_room (maxsize c) (data c) (order c)) with
    | Ok (d, o) =>
        Ok {| maxsize := maxsize c; data := <[k := v]> d;
              order := move_to_end k o |}
    | Raise e => Raise e
    end.
End LRU.

Arguments LRUCache K {_ _} V.

End Cachetools.

(* ===================================================================== *)
(** * The swarm package                                                   *)
(* ===================================================================== *)

Module Swarm.
Import Py Codec Cachetools.

(** ** The store *)

(** Objects live in a heap and are named by references: two names denote
    the identical object exactly when the references are equal. *)
Definition ref := nat.

(** [swarm.objects.Interface], [Switch] and [Container]: the instance
    attributes their constructors set.  A blob is [None] until fetched. *)
Record Interface : Type := mkInterface {
  if_path : string;
  if_index : Z;
  if_blob : pyval
}.

Record Switch : Type := mkSwitch {
  sw_path : string;
  sw_intfs : dict;
  sw_blob : pyval;
  sw_new : bool;
  sw_changes : dict
}.

Record Container : Type := mkContainer {
  ct_path : string;
  ct_blob : pyval;
  ct_changes : dict;
  ct_new : bool
}.

Inductive pyobj : Type :=
| OInterface (i : Interface)
| OSwitch (s : Switch)
| OContainer (c : Container).

(** [swarm.auth.MachAuthToken]; [tok_key] is the key after
    [base64.b64decode]. *)
Record MachAuthToken : Type := mkToken {
  tok_uid : string;
  tok_key : bytes;
  tok_endpoint : string;
  tok_cookie : pyval
}.

(** HTTP traffic.  A request body is either the text [json.dumps(v)], kept
    as the value [v], or a dictionary handed to [requests] as form data. *)
Inductive http_method : Type := GET | POST | DELETE.

Inductive http_body : Type :=
| NoBody
| JsonText (v : pyval)
| FormData (d : dict).

Record http_request : Type := mkRequest {
  rq_method : http_method;
  rq_url : string;
  rq_cookie : option pyval;
  rq_body : http_body;
  rq_ctype : option string
}.

(** A response: [r.status_code], [r.text], and what [r.json()] returns
    ([None] here when the text is not JSON, so that [r.json()] raises). *)
Record http_response : Type := mkResponse {
  status_code : Z;
  text : string;
  json : option pyval
}.

(** What [ws.recv()] returns: nothing or the empty string, or a text that
    [json.loads] turns into a value, or a text it rejects. *)
Inductive ws_data : Type :=
| WsEmpty
| WsJson (v : pyval)
| WsGarbage.

(** The store: the outside world (clock, the responses and frames the
    network is going to deliver, everything sent so far), the token, the
    attributes of the one [Client], and the heap of its objects. *)
Record state : Type := mkState {
  clock : Z;
  http_in : list http_response;
  http_log : list http_request;
  ws_in : list ws_data;
  ws_out : list pyval;
  auth : MachAuthToken;
  endpoint : string;
  ws_cookie : Z;
  writespecs : list pyval;
  cont_cache : LRUCache string ref;
  sw_cache : LRUCache string ref;
  intf_cache : LRUCache (string * Z) ref;
  heap : gmap ref pyobj;
  next_ref : ref
}.

Definition set_http (i : list http_response) (l : list http_request) (s : state) : state :=
  mkState (clock s) i l (ws_in s) (ws_out s) (auth s) (endpoint s)
    (ws_cookie s) (writespecs s) (cont_cache s) (sw_cache s) (intf_cache s)
    (heap s) (next_ref s).

Definition set_ws_in (i : list ws_data) (s : state) : state :=
  mkState (clock s) (http_in s) (http_log s) i (ws_out s) (auth s) (endpoint s)
    (ws_cookie s) (writespecs s) (cont_cache s) (sw_cache s) (intf_cache s)
    (heap s) (next_ref s).

Definition set_ws_out (o : list pyval) (s : state) : state :=
  mkState (clock s) (http_in s) (http_log s) (ws_in s) o (auth s) (endpoint s)
    (ws_cookie s) (writespecs s) (cont_cache s) (sw_cache s) (intf_cache s)
    (heap s) (next_ref s).

Definition set_auth (a : MachAuthToken) (s : state) : state :=
  mkState (clock s) (http_in s) (http_log s) (ws_in s) (ws_out s) a (endpoint s)
    (ws_cookie s) (writespecs s) (cont_cache s) (sw_cache s) (intf_cache s)
    (heap s) (next_ref s).

Definition set_ws_cookie (n : Z) (s : state) : state :=
  mkState (clock s) (http_in s) (http_log s) (ws_in s) (ws_out s) (auth s)
    (endpoint s) n (writespecs s) (cont_cache s) (sw_cache s) (intf_cache s)
    (heap s) (next_ref s).

Definition set_writespecs (w : list pyval) (s : state) : state :=
  mkState (clock s) (http_in s) (http_log s) (ws_in s) (ws_out s) (auth s)
    (endpoint s) (ws_cookie s) w (cont_cache s) (sw_cache s) (intf_cache s)
    (heap s) (next_ref s).

Definition set_cont_cache (c : LRUCache string ref) (s : state) : state :=
  mkState (clock s) (http_in s) (http_log s) (ws_in s) (ws_out s) (auth s)
    (endpoint s) (ws_cookie s) (writespecs s) c (sw_cache s) (intf_cache s)
    (heap s) (next_ref s).

Definition set_sw_cache (c : LRUCache string ref) (s : state) : state :=
  mkState (clock s) (http_in s) (http_log s) (ws_in s) (ws_out s) (auth s)
    (endpoint s) (ws_cookie s) (writespecs s) (cont_cache s) c (intf_cache s)
    (heap s) (next_ref s).

Definition set_intf_cache (c : LRUCache (string * Z) ref) (s : state) : state :=
  mkState (clock s) (http_in s) (http_log s) (ws_in s) (ws_out s) (auth s)
    (endpoint s) (ws_cookie s) (writespecs s) (cont_cache s) (sw_cache s) c
    (heap s) (next_ref s).

Definition set_heap (h : gmap ref pyobj) (n : ref) (s : state) : state :=
  mkState (clock s) (http_in s) (http_log s) (ws_in s) (ws_out s) (auth s)
    (endpoint s) (ws_cookie s) (writespecs s) (cont_cache s) (sw_cache s)
    (intf_cache s) h n.

(** ** Computations: state and exceptions

    A method is a function from the store to an outcome and the store it
    leaves behind; what was written before an exception stays written. *)
Definition M (A : Type) : Type := state -> result A * state.

Definition ret {A} (a : A) : M A := fun s => (Ok a, s).
Definition raise {A} (e : exn) : M A := fun s => (Raise e, s).
Definition bind {A B} (m : M A) (k : A -> M B) : M B :=
  fun s =>
    match m s with
    | (Ok a, s') => k a s'
    | (Raise e, s') => (Raise e, s')
    end.
Definition lift {A} (r : result A) : M A := fun s => (r, s).
Definition gets {A} (f : state -> A) : M A := fun s => (Ok (f s), s).
Definition modify (f : state -> state) : M unit := fun s => (Ok tt, f s).

Notation "x <- m ;; k" := (bind m (fun x => k))
  (at level 100, m at next level, right associativity).
Notation "m ;;; k" := (bind m (fun _ => k))
  (at level 100, right associativity).

Definition alloc (o : pyobj) : M ref :=
  fun s => (Ok (next_ref s), set_heap (<[next_ref s := o]> (heap s)) (S (next_ref s)) s).

Definition store (r : ref) (o : pyobj) : M unit :=
  modify (fun s => set_heap (<[r := o]> (heap s)) (next_ref s) s).

(** Reading an object through a reference of the wrong class is the
    [AttributeError] Python gives for a missing attribute. *)
Definition load_interface (r : ref) : M Interface :=
  fun s => match heap s !! r with
           | Some (OInterface i) => (Ok i, s)
           | _ => (Raise (AttributeError "_Interface__path"), s)
           end.

Definition load_switch (r : ref) : M Switch :=
  fun s => match heap s !! r with
           | Some (OSwitch x) => (Ok x, s)
           | _ => (Raise (AttributeError "_Switch__path"), s)
           end.

Definition load_container (r : ref) : M Container :=
  fun s => match heap s !! r with
           | Some (OContainer c) => (Ok c, s)
           | _ => (Raise (AttributeError "_Container__path"), s)
           end.


(** ** swarm/auth.py *)

Definition machauth_url : string := "https://api.uqcloud.net/machauth".

(** One HTTP exchange: the request is recorded and the next response the
    network holds is returned; with none left the transport fails.  For the
    client's [requests.Session] an exchange is the whole retried request,
    the response being the one the session hands back. *)
Definition http_exchange (rq : http_request) : M http_response :=
  fun s =>
    match http_in s with
    | r :: rest => (Ok r, set_http rest (http_log s ++ [rq]) s)
    | [] => (Raise ConnectionError, set_http [] (http_log s ++ [rq]) s)
    end.

(** [r.json()] *)
Definition response_json (r : http_response) : M pyval :=
  match json r with
  | Some v => ret v
  | None => raise JSONDecodeError
  end.

Definition set_cookie (c : pyval) (s : state) : state :=
  set_auth (mkToken (tok_uid (auth s)) (tok_key (auth s))
              (tok_endpoint (auth s)) c) s.

(** the dictionary [get_cookie] serialises with [json.dumps] *)
Definition machauth_blob (tok : MachAuthToken) (t : Z) (sig : bytes) : pyval :=
  PDict [("time", PInt t);
         ("target", PStr (tok_endpoint tok));
         ("user", PStr (tok_uid tok));
         ("signature", PStr (b64encode_str sig));
         ("algorithm", PInt 2)].

(** [MachAuthToken.get_cookie], also the [cookie] property *)
Definition get_cookie : M pyval :=
  tok <- gets auth ;;
  if truthy (tok_cookie tok) then ret (tok_cookie tok)
  else
    t <- gets clock ;;
    packed <- lift (struct_pack_Q t) ;;
    ep <- lift (encode_ascii (tok_endpoint tok)) ;;
    let sigblob := packed ++ ep in
    let sig := hmac_sha256 (tok_key tok) sigblob in
    r <- http_exchange
           (mkRequest POST machauth_url None
              (JsonText (machauth_blob tok t sig)) (Some "application/json")) ;;
    if status_code r =? 200 then
      reply <- response_json r ;;
      c <- lift (getitem reply "cookie") ;;
      modify (set_cookie c) ;;;
      gets (fun s => tok_cookie (auth s))
    else raise (MachAuthError (status_code r) (text r)).

(** ** swarm/utils.py *)

Record TimedValue : Type := mkTimed {
  tv_value : pyval;
  tv_time : Z
}.

(** [int(f)] truncates a finite float towards zero *)
Definition float_trunc (f : spec_float) : result Z :=
  match f with
  | S754_zero _ => Ok 0
  | S754_finite s m e =>
      let a := if 0 <=? e then Z.pos m * 2 ^ e else Z.pos m / 2 ^ (- e) in
      Ok (if s then - a else a)
  | S754_infinity _ => Raise OverflowError
  | S754_nan => Raise (ValueError "cannot convert float NaN to integer")
  end.

(** The text [int(s)] accepts in base 10: white space around an optional
    sign and digits, with single underscores between digits.  Strings
    are the UTF-8 bytes of the text; the digits and spaces that Unicode
    has outside ASCII, which [int] accepts as well, are not recognised
    here, nor is the limit that recent interpreters put on the number of
    digits. *)
Definition int_space (c : ascii) : bool :=
  let n := nat_of_ascii c in (((9 <=? n) && (n <=? 13)) || (n =? 32))%nat.

Definition int_digit (c : ascii) : option Z :=
  let n := nat_of_ascii c in
  if ((48 <=? n) && (n <=? 57))%nat then Some (Z.of_nat (n - 48)) else None.

Fixpoint drop_space (l : list ascii) : list ascii :=
  match l with
  | c :: l' => if int_space c then drop_space l' else l
  | [] => []
  end.

Fixpoint digits_value (acc : Z) (l : list ascii) : option Z :=
  match l with
  | [] => Some acc
  | c :: l' =>
      match int_digit c with
      | Some d => digits_value (10 * acc + d) l'
      | None =>
          if Ascii.eqb c "_"%char then
            match l' with
            | c' :: _ =>
                match int_digit c' with
                | Some _ => digits_value acc l'
                | None => None
                end
            | [] => None
            end
          else None
      end
  end.

Definition parse_int (s : string) : option Z :=
  let l := rev (drop_space (rev (drop_space (list_ascii_of_string s)))) in
  let signed :=
    match l with
    | c :: l' =>
        if Ascii.eqb c "-"%char then (true, l')
        else if Ascii.eqb c "+"%char then (false, l')
        else (false, l)
    | [] => (false, [])
    end in
  match snd signed with
  | c :: _ =>
      match int_digit c, digits_value 0 (snd signed) with
      | Some _, Some z => Some (if fst signed then - z else z)
      | _, _ => None
      end
  | [] => None
  end.

(** [int(v)] *)
Definition py_int (v : pyval) : result Z :=
  match v with
  | PInt z => Ok z
  | PBool b => Ok (if b then 1 else 0)
  | PFloat f => float_trunc f
  | PStr t =>
      match parse_int t with
      | Some z => Ok z
      | None => Raise (ValueError "invalid literal for int() with base 10")
      end
  | _ => Raise (TypeError "int() argument must be a string or a number")
  end.

(** [TimedValue(value, time, src)]; no [datetime] reaches it here. *)
Definition TimedValue_init (value time src : pyval) : result TimedValue :=
  if truthy src then
    match getitem src "value" with
    | Ok v =>
        match getitem src "time" with
        | Ok t => match py_int t with
                  | Ok z => Ok (mkTimed v z)
                  | Raise e => Raise e
                  end
        | Raise e => Raise e
        end
    | Raise e => Raise e
    end
  else
    match py_int time with
    | Ok z => Ok (mkTimed value z)
    | Raise e => Raise e
    end.

(** ** swarm/client.py: the HTTP helpers *)

Definition api_url (path : string) : M string :=
  ep <- gets endpoint ;;
  ret ("https://" +:+ ep +:+ "/api" +:+ path).

(** [Client._get] *)
Definition Client_get (path : string) : M http_response :=
  c <- get_cookie ;;
  url <- api_url path ;;
  http_exchange (mkRequest GET url (Some c) NoBody None).

(** [Client._post]; the header is set only for a non-empty [ctype] *)
Definition Client_post (path : string) (data : http_body) (ctype : option string)
  : M http_response :=
  c <- get_cookie ;;
  url <- api_url path ;;
  let hdr := match ctype with
             | Some t => if String.eqb t "" then None else Some t
             | None => None
             end in
  http_exchange (mkRequest POST url (Some c) data hdr).

(** [Client._delete] *)
Definition Client_delete (path : string) : M http_response :=
  c <- get_cookie ;;
  url <- api_url path ;;
  http_exchange (mkRequest DELETE url (Some c) NoBody None).

(** ** swarm/objects.py: constructors *)

(** [Interface(client, path, index, parent)] *)
Definition Interface_init (path : string) (index : Z) : Interface :=
  mkInterface path index PNone.

(** [Switch(client, path, new)] *)
Definition Switch_init (path : string) (new : bool) : Switch :=
  mkSwitch path [] PNone new [].

(** [Container(client, path, new)] *)
Definition Container_init (path : string) (new : bool) : Container :=
  mkContainer path PNone [] new.

(** ** swarm/client.py: the identity caches *)

Definition path_repr (p : string) : pyval := PStr p.
Definition intf_key_repr (k : string * Z) : pyval := PList [PStr (fst k); PInt (snd k)].

(** the caches [Client.__init__] creates *)
Definition new_cont_cache : LRUCache string ref := lru_new 50.
Definition new_sw_cache : LRUCache string ref := lru_new 20.
Definition new_intf_cache : LRUCache (string * Z) ref := lru_new 100.

(** [Client.switch] *)
Definition Client_switch (path : string) : M ref :=
  c <- gets sw_cache ;;
  (if lru_contains path c then ret tt
   else
     r <- alloc (OSwitch (Switch_init path false)) ;;
     c' <- lift (lru_setitem path r c) ;;
     modify (set_sw_cache c')) ;;;
  c <- gets sw_cache ;;
  vc <- lift (lru_getitem path_repr path c) ;;
  modify (set_sw_cache (snd vc)) ;;;
  ret (fst vc).

(** [Client.interface] *)
Definition Client_interface (path : string) (index : Z) : M ref :=
  sw <- Client_switch path ;;
  c <- gets intf_cache ;;
  (if lru_contains (path, index) c then ret tt
   else
     r <- alloc (OInterface (Interface_init path index)) ;;
     c' <- lift (lru_setitem (path, index) r c) ;;
     modify (set_intf_cache c')) ;;;
  c <- gets intf_cache ;;
  vc <- lift (lru_getitem intf_key_repr (path, index) c) ;;
  modify (set_intf_cache (snd vc)) ;;;
  ret (fst vc).

(** [Client.container] *)
Definition Client_container (path : string) : M ref :=
  c <- gets cont_cache ;;
  (if lru_contains path c then ret tt
   else
     r <- alloc (OContainer (Container_init path false)) ;;
     c' <- lift (lru_setitem path r c) ;;
     modify (set_cont_cache c')) ;;;
  c <- gets cont_cache ;;
  vc <- lift (lru_getitem path_repr path c) ;;
  modify (set_cont_cache (snd vc)) ;;;
  ret (fst vc).

(** [Client.root] *)
Definition Client_root : M ref := Client_container "".

(** [Client.__init__]: the cookie is fetched for the socket (it is
    concatenated to a string, so it has to be one), then the counters,
    the queue and the caches are set up.  The socket handshake and the
    ping leave no trace in the store. *)
Definition Client_init (tok : MachAuthToken) (ep : string) : M unit :=
  modify (set_auth tok) ;;;
  modify (fun s => mkState (clock s) (http_in s) (http_log s) (ws_in s) (ws_out s)
                     (auth s) ep (ws_cookie s) (writespecs s) (cont_cache s)
                     (sw_cache s) (intf_cache s) (heap s) (next_ref s)) ;;;
  c <- get_cookie ;;
  match c with
  | PStr _ =>
      modify (set_ws_cookie 1) ;;;
      modify (set_writespecs []) ;;;
      modify (set_cont_cache new_cont_cache) ;;;
      modify (set_sw_cache new_sw_cache) ;;;
      modify (set_intf_cache new_intf_cache)
  | _ => raise (TypeError "can only concatenate str to str")
  end.

(** ** swarm/objects.py: dynamic values and neighbours *)

(** What a name can denote at a call site: the client, an object of the
    heap, or a plain value. *)
Inductive dynval : Type :=
| DClient
| DObj (r : ref)
| DVal (v : pyval).

(** [x.path] and [x.index] for whatever [x] is *)
Definition dyn_path (x : dynval) : M pyval :=
  match x with
  | DObj r =>
      fun s => match heap s !! r with
               | Some (OInterface i) => (Ok (PStr (if_path i)), s)
               | Some (OSwitch w) => (Ok (PStr (sw_path w)), s)
               | Some (OContainer c) => (Ok (PStr (ct_path c)), s)
               | None => (Raise (AttributeError "path"), s)
               end
  | _ => raise (AttributeError "path")
  end.

Definition dyn_index (x : dynval) : M pyval :=
  match x with
  | DObj r =>
      fun s => match heap s !! r with
               | Some (OInterface i) => (Ok (PInt (if_index i)), s)
               | _ => (Raise (AttributeError "index"), s)
               end
  | _ => raise (AttributeError "index")
  end.

(** [Neighbour]: client, path, index, stamp *)
Record Neighbour : Type := mkNeighbour {
  nb_client : dynval;
  nb_path : pyval;
  nb_index : pyval;
  nb_stamp : dynval
}.

Record MACNeighbour : Type := mkMACNeighbour {
  mn_base : Neighbour;
  mn_mac : dynval
}.

Record CDPNeighbour : Type := mkCDPNeighbour {
  cn_base : Neighbour;
  cn_rname : dynval;
  cn_rintf : dynval
}.

(** [MACNeighbour(client, intf, stamp, mac)]: the constructor has four
    parameters besides [self]; a call with another number of positional
    arguments is a [TypeError] before the body runs. *)
Definition MACNeighbour_new (args : list dynval) : M MACNeighbour :=
  match args with
  | [client; intf; stamp; mac] =>
      p <- dyn_path intf ;;
      i <- dyn_index intf ;;
      ret (mkMACNeighbour (mkNeighbour client p i stamp) mac)
  | _ => raise (TypeError "__init__() missing or surplus positional arguments")
  end.

(** [CDPNeighbour(client, intf, stamp, rname, rintf)] *)
Definition CDPNeighbour_new (args : list dynval) : M CDPNeighbour :=
  match args with
  | [client; intf; stamp; rname; rintf] =>
      p <- dyn_path intf ;;
      i <- dyn_index intf ;;
      ret (mkCDPNeighbour (mkNeighbour client p i stamp) rname rintf)
  | _ => raise (TypeError "__init__() missing or surplus positional arguments")
  end.

(** ** swarm/objects.py: Interface *)

(** Where objects.py has [raise APIException(r.status_code, r.text)] the
    name is not bound: the module's one star import is of swarm.utils,
    and [APIException] is defined in swarm.auth.  Evaluating the name
    raises [NameError] before the arguments are looked at, and that is
    what these branches raise. *)

(** [str(n)] of an integer *)
Definition py_str_int (n : Z) : string := pretty n.

(** what iterating over a value yields *)
Definition py_iter (v : pyval) : result (list pyval) :=
  match v with
  | PList l => Ok l
  | PDict d => Ok (map (fun kv => PStr (fst kv)) d)
  | PStr s => Ok (map (fun a => PStr (String a "")) (list_ascii_of_string s))
  | _ => Raise (TypeError "object is not iterable")
  end.

(** An interface index and a path as cache keys.  The parameters are
    annotated [int] and [str], and the caches of the embedding are keyed
    by integers and strings.  The code itself does not check the
    annotations: it takes any hashable value as a key (and fails later,
    where the value is concatenated to a URL), and only an unhashable
    one, a list or a dictionary, is a [TypeError] at the lookup.  Lookups
    with other keys than an integer index ([True] and [False] are the
    keys 1 and 0) and a string path are outside the embedding, which
    reports them all as [TypeError]; the properties below are stated for
    integer indices and string paths. *)
Definition as_index (v : pyval) : result Z :=
  match v with
  | PInt z => Ok z
  | PBool b => Ok (if b then 1 else 0)
  | _ => Raise (TypeError "interface index is not an int")
  end.

Definition as_path (v : pyval) : result string :=
  match v with
  | PStr s => Ok s
  | _ => Raise (TypeError "path is not a str")
  end.

Definition intf_url (i : Interface) : string :=
  "/interfaces/" +:+ if_path i +:+ "/" +:+ py_str_int (if_index i).

(** [Interface._getblob] *)
Definition Interface_getblob (self : ref) : M pyval :=
  i <- load_interface self ;;
  match if_blob i with
  | PNone =>
      r <- Client_get (intf_url i) ;;
      if status_code r =? 200 then
        b <- response_json r ;;
        store self (OInterface (mkInterface (if_path i) (if_index i) b)) ;;;
        ret b
      else raise (NameError "APIException")
  | b => ret b
  end.

(** [Interface._getprop]: [None] or a [TimedValue] *)
Definition Interface_getprop (name : string) (self : ref) : M (option TimedValue) :=
  b <- Interface_getblob self ;;
  d <- lift (getitem b "data") ;;
  present <- lift (contains d name) ;;
  if (present : bool) then
    src <- lift (getitem d name) ;;
    tv <- lift (TimedValue_init PNone PNone src) ;;
    ret (Some tv)
  else ret None.

(** the dictionary [Interface._setprop] queues *)
Definition writespec (path : string) (name : string) (index : Z) (val : pyval) : pyval :=
  PDict [("path", PStr path); ("attribute", PStr name);
         ("index", PInt index); ("value", val)].

(** [Interface._setprop] *)
Definition Interface_setprop (name : string) (self : ref) (val : pyval) : M pyval :=
  i <- load_interface self ;;
  modify (fun s => set_writespecs
            (writespecs s ++ [writespec (if_path i) name (if_index i) val]) s) ;;;
  ret val.

(** The properties of [Interface]: the key each one reads, and whether
    [metaprop] gave it a setter. *)
Inductive intf_attr : Type :=
| admin_status | oper_status | alias | name | long_name
| speed | trunk | vlan | voice_vlan.

Definition intf_attr_key (a : intf_attr) : string :=
  match a with
  | admin_status => "admin_status"
  | oper_status => "oper_status"
  | alias => "alias"
  | name => "name"
  | long_name => "description"
  | speed => "speed"
  | trunk => "trunk"
  | vlan => "vlan"
  | voice_vlan => "voice_vlan"
  end.

Definition intf_attr_writable (a : intf_attr) : bool :=
  match a with
  | admin_status | alias | vlan | voice_vlan => true
  | _ => false
  end.

(** [intf.attr] *)
Definition Interface_get (a : intf_attr) (self : ref) : M (option TimedValue) :=
  Interface_getprop (intf_attr_key a) self.

(** [intf.attr = val]; a read-only property has no setter *)
Definition Interface_set (a : intf_attr) (self : ref) (val : pyval) : M pyval :=
  if intf_attr_writable a then Interface_setprop (intf_attr_key a) self val
  else raise (AttributeError "can't set attribute").

(** [Interface.switch] *)
Definition Interface_switch (self : ref) : M ref :=
  i <- load_interface self ;;
  Client_switch (if_path i).

(** a [for] loop that builds a list, stopping at the first exception *)
Fixpoint for_each {A B} (f : A -> M B) (l : list A) : M (list B) :=
  match l with
  | [] => ret []
  | x :: l' =>
      y <- f x ;;
      ys <- for_each f l' ;;
      ret (y :: ys)
  end.

Inductive neighbour : Type :=
| NMac (n : MACNeighbour)
| NCdp (n : CDPNeighbour).

(** [Interface.neighbours] *)
Definition Interface_neighbours (self : ref) : M (list neighbour) :=
  Interface_getblob self ;;;
  i <- load_interface self ;;
  r <- Client_get (intf_url i +:+ "/macs") ;;
  macs <-
    (if status_code r =? 200 then
       j <- response_json r ;;
       ms <- lift (getitem j "macs") ;;
       ms <- lift (py_iter ms) ;;
       for_each (fun m =>
                   t <- lift (getitem m "time") ;;
                   a <- lift (getitem m "mac") ;;
                   n <- MACNeighbour_new [DClient; DObj self; DVal t; DVal a] ;;
                   ret (NMac n)) ms
     else raise (NameError "APIException")) ;;
  i <- load_interface self ;;
  ns <- lift (getitem (if_blob i) "neighbours") ;;
  ns <- lift (py_iter ns) ;;
  cdps <- for_each (fun n =>
                      t <- lift (getitem n "time") ;;
                      rn <- lift (getitem n "remote_name") ;;
                      ri <- lift (getitem n "remote_intf") ;;
                      c <- CDPNeighbour_new [DClient; DObj self; DVal t; DVal rn; DVal ri] ;;
                      ret (NCdp c)) ns ;;
  ret (macs ++ cdps).

(** ** swarm/objects.py: path slugs *)

(** [s.split(".")[0]]: the text before the first dot *)
Fixpoint first_segment (s : string) : string :=
  match s with
  | EmptyString => EmptyString
  | String c s' =>
      if Ascii.eqb c "."%char then EmptyString else String c (first_segment s')
  end.

(** [s.lower()] on the UTF-8 bytes of [s].  The letters A to Z become a
    to z.  Two characters outside ASCII have lower-case forms with an
    ASCII letter in them and are mapped as [str.lower] maps them: the
    Kelvin sign U+212A (bytes E2 84 AA) becomes k, and the dotted capital
    I U+0130 (bytes C4 B0) becomes i followed by U+0307 (bytes CC 87).
    Every other character outside ASCII has a lower-case form outside
    ASCII again; it is kept as it is, which is not its lower-case form
    but is, like that form, outside every class of ASCII characters. *)
Definition lower_char (c : ascii) : ascii :=
  let n := nat_of_ascii c in
  if ((65 <=? n) && (n <=? 90))%nat then ascii_of_nat (n + 32) else c.

Definition is_byte (n : nat) (c : ascii) : bool := (nat_of_ascii c =? n)%nat.

Fixpoint lower (s : string) : string :=
  match s with
  | EmptyString => EmptyString
  | String c s' =>
      match s' with
      | String c1 s1 =>
          if is_byte 196 c && is_byte 176 c1 then
            String "i"%char (String (ascii_of_nat 204) (String (ascii_of_nat 135) (lower s1)))
          else
            match s1 with
            | String c2 s2 =>
                if is_byte 226 c && is_byte 132 c1 && is_byte 170 c2 then
                  String "k"%char (lower s2)
                else String (lower_char c) (lower s')
            | EmptyString => String (lower_char c) (lower s')
            end
      | EmptyString => String (lower_char c) EmptyString
      end
  end.

(** membership in the class [[a-z0-9-_]] *)
Definition slug_char (c : ascii) : bool :=
  let n := nat_of_ascii c in
  (((97 <=? n) && (n <=? 122)) || ((48 <=? n) && (n <=? 57))
   || (n =? 45) || (n =? 95))%nat.

(** [re.sub(r"[^a-z0-9-_]+", "-", s)]: every maximal run of characters
    outside the class becomes one hyphen; [in_run] tells that the hyphen
    of the current run is already written. *)
Fixpoint sub_runs (in_run : bool) (s : string) : string :=
  match s with
  | EmptyString => EmptyString
  | String c s' =>
      if slug_char c then String c (sub_runs false s')
      else if in_run then sub_runs true s'
      else String "-"%char (sub_runs true s')
  end.

(** the two [slug = ...] lines of [save] *)
Definition slugify (v : pyval) : result string :=
  match v with
  | PStr s => Ok (sub_runs false (lower (first_segment s)))
  | _ => Raise (AttributeError "split")
  end.

(** ** swarm/objects.py: Switch *)

Definition put_switch (self : ref) (w : Switch) : M unit := store self (OSwitch w).

(** [Switch._setprop] *)
Definition Switch_setprop (name : string) (self : ref) (val : pyval) : M pyval :=
  w <- load_switch self ;;
  put_switch self (mkSwitch (sw_path w) (sw_intfs w) (sw_blob w) (sw_new w)
                     (dict_set (sw_changes w) name val)) ;;;
  ret val.

(** [Switch.save] *)
Definition Switch_save (self : ref) : M bool :=
  w <- load_switch self ;;
  path <-
    (if sw_new w then
       if dict_mem (sw_changes w) "hostname" then
         h <- lift (getitem (PDict (sw_changes w)) "hostname") ;;
         slug <- lift (slugify h) ;;
         ret (sw_path w +:+ "." +:+ slug)
       else raise (Exception_ (PStr "New switches require at least a hostname"))
     else ret (sw_path w)) ;;
  r <- Client_post ("/switches/" +:+ path) (FormData (sw_changes w)) None ;;
  if (status_code r =? 201) || (status_code r =? 303) then
    put_switch self (mkSwitch path (sw_intfs w) PNone false []) ;;;
    ret true
  else if status_code r =? 200 then
    b <- response_json r ;;
    put_switch self (mkSwitch path (sw_intfs w) b false []) ;;;
    ret true
  else raise (NameError "APIException").

(** [Switch.status]: [None] for a new switch, else a [TimedValue] *)
Definition Switch_status (self : ref) : M (option TimedValue) :=
  w <- load_switch self ;;
  if sw_new w then ret None
  else
    r <- Client_get ("/switches/" +:+ sw_path w +:+ "/status") ;;
    if status_code r =? 200 then
      j <- response_json r ;;
      st <- lift (getitem j "status") ;;
      src <- lift (getitem st "status") ;;
      tv <- lift (TimedValue_init PNone PNone src) ;;
      ret (Some tv)
    else raise (NameError "APIException").

(** [Switch.progress]; the pair [(done, size)] is a two-element list *)
Definition Switch_progress (self : ref) : M (option TimedValue) :=
  w <- load_switch self ;;
  if sw_new w then ret None
  else
    r <- Client_get ("/switches/" +:+ sw_path w +:+ "/status") ;;
    if status_code r =? 200 then
      j <- response_json r ;;
      st <- lift (getitem j "status") ;;
      p <- lift (getitem st "progress") ;;
      v <- lift (getitem p "value") ;;
      d <- lift (getitem v "done") ;;
      p <- lift (getitem st "progress") ;;
      v <- lift (getitem p "value") ;;
      z <- lift (getitem v "size") ;;
      p <- lift (getitem st "progress") ;;
      t <- lift (getitem p "time") ;;
      tv <- lift (TimedValue_init (PList [d; z]) t PNone) ;;
      ret (Some tv)
    else raise (NameError "APIException").

(** [Switch.delete] *)
Definition Switch_delete (self : ref) : M bool :=
  w <- load_switch self ;;
  if sw_new w then
    raise (Exception_ (PStr "Cannot delete a switch that hasn't been created yet"))
  else
    r <- Client_delete ("/switches/" +:+ sw_path w) ;;
    if (status_code r =? 410) || (status_code r =? 204) then ret true
    else raise (NameError "APIException").

(** [Switch.interfaces] *)
Definition Switch_interfaces (self : ref) : M (list ref) :=
  w <- load_switch self ;;
  if sw_new w then ret []
  else
    r <- Client_get ("/switches/" +:+ sw_path w +:+ "/interfaces") ;;
    if status_code r =? 200 then
      j <- response_json r ;;
      intfs <- lift (getitem j "interfaces") ;;
      intfs <- lift (py_iter intfs) ;;
      for_each (fun intf =>
                  ix <- lift (getitem intf "index") ;;
                  ix <- lift (as_index ix) ;;
                  Client_interface (sw_path w) ix) intfs
    else raise (NameError "APIException").

(** [Switch.interface] *)
Definition Switch_interface (self : ref) (index : Z) : M ref :=
  w <- load_switch self ;;
  Client_interface (sw_path w) index.

(** ** swarm/objects.py: Container *)

(** Private name mangling: inside [class C], an identifier [__x] that
    does not end in two underscores is compiled to [_C__x]. *)
Definition ends_with_dunder (n : string) : bool :=
  let l := String.length n in
  String.eqb (substring (l - 2) 2 n) "__".

Definition mangle (cls name : string) : string :=
  if String.eqb (substring 0 2 name) "__" && negb (ends_with_dunder name)
  then "_" +:+ cls +:+ name
  else name.

(** The instance dictionary of a container: exactly the attributes that
    [Container.__init__] assigns. *)
Definition Container_dict (c : Container) : list (string * dynval) :=
  [(mangle "Container" "__path", DVal (PStr (ct_path c)));
   (mangle "Container" "__client", DClient);
   (mangle "Container" "__blob", DVal (ct_blob c));
   (mangle "Container" "__changes", DVal (PDict (ct_changes c)));
   (mangle "Container" "__new", DVal (PBool (ct_new c)))].

(** The names the class body of [Container] binds (methods and
    properties); none of them is a data attribute. *)
Definition Container_class_names : list string :=
  ["__init__"; "path"; "__repr__"; "_getprop"; "_setprop"; "save";
   "display_name"; "ro_community"; "rw_community"; "acl";
   "new_switch"; "new_container"; "children"; "delete"].

Fixpoint assoc_dyn (l : list (string * dynval)) (n : string) : option dynval :=
  match l with
  | [] => None
  | (k, v) :: l' => if String.eqb k n then Some v else assoc_dyn l' n
  end.

(** [self.<name>] for a data attribute, as written inside the class: the
    name is mangled, then looked up in the instance dictionary.  A name
    found nowhere is an [AttributeError]. *)
Definition Container_getattr (c : Container) (written : string) : M dynval :=
  let n := mangle "Container" written in
  match assoc_dyn (Container_dict c) n with
  | Some v => ret v
  | None => raise (AttributeError n)
  end.

(** [len(x)] *)
Definition py_len (x : dynval) : M Z :=
  match x with
  | DVal (PList l) => ret (Z.of_nat (length l))
  | DVal (PDict d) => ret (Z.of_nat (length d))
  | DVal (PStr s) => ret (Z.of_nat (String.length s))
  | _ => raise (TypeError "object has no len()")
  end.

Definition put_container (self : ref) (c : Container) : M unit :=
  store self (OContainer c).

(** [Container._setprop] *)
Definition Container_setprop (name : string) (self : ref) (val : pyval) : M pyval :=
  c <- load_container self ;;
  put_container self (mkContainer (ct_path c) (ct_blob c)
                        (dict_set (ct_changes c) name val) (ct_new c)) ;;;
  ret val.

(** [Container.save] *)
Definition Container_save (self : ref) : M bool :=
  c <- load_container self ;;
  path <-
    (if ct_new c then
       if dict_mem (ct_changes c) "display_name" then
         n <- lift (getitem (PDict (ct_changes c)) "display_name") ;;
         slug <- lift (slugify n) ;;
         ret (ct_path c +:+ "." +:+ slug)
       else raise (Exception_ (PStr "New containers require at least a display_name"))
     else ret (ct_path c)) ;;
  r <- Client_post ("/containers/" +:+ path) (FormData (ct_changes c)) None ;;
  if (status_code r =? 201) || (status_code r =? 303) then
    put_container self (mkContainer path PNone [] (ct_new c)) ;;;
    ret true
  else if status_code r =? 200 then
    b <- response_json r ;;
    put_container self (mkContainer path b [] (ct_new c)) ;;;
    ret true
  else raise (NameError "APIException").

(** [Container.new_switch] and [Container.new_container]: fresh objects,
    not entered in any cache *)
Definition Container_new_switch (self : ref) : M ref :=
  c <- load_container self ;;
  alloc (OSwitch (Switch_init (ct_path c) true)).

Definition Container_new_container (self : ref) : M ref :=
  c <- load_container self ;;
  alloc (OContainer (Container_init (ct_path c) true)).

(** [Container.children] *)
Definition Container_children (self : ref) : M (list ref) :=
  c <- load_container self ;;
  r <- Client_get ("/containers/" +:+ ct_path c +:+ "/children") ;;
  if status_code r =? 200 then
    j <- response_json r ;;
    ch <- lift (getitem j "children") ;;
    ch <- lift (py_iter ch) ;;
    objs <- for_each (fun jsobj =>
                        t <- lift (getitem jsobj "type") ;;
                        if eq_str t "container" then
                          p <- lift (getitem jsobj "path") ;;
                          p <- lift (as_path p) ;;
                          o <- Client_container p ;;
                          ret [o]
                        else
                          t <- lift (getitem jsobj "type") ;;
                          if eq_str t "switch" then
                            p <- lift (getitem jsobj "path") ;;
                            p <- lift (as_path p) ;;
                            o <- Client_switch p ;;
                            ret [o]
                          else ret []) ch ;;
    ret (concat objs)
  else raise (NameError "APIException").

(** [Container.delete] *)
Definition Container_delete (self : ref) : M bool :=
  c <- load_container self ;;
  ch <- Container_getattr c "__children" ;;
  n <- py_len ch ;;
  if 0 <? n then raise (Exception_ (PStr "Cannot delete a container with children"))
  else
    r <- Client_delete ("/containers/" +:+ ct_path c) ;;
    if status_code r =? 410 then ret true
    else raise (NameError "APIException").

(** ** swarm/client.py: WriteProgress *)

Record WriteProgress : Type := mkWriteProgress { wp_dic : pyval }.

(** [WriteProgress.finished] *)
Definition finished (w : WriteProgress) : result bool :=
  match getitem (wp_dic w) "empty" with
  | Raise e => Raise e
  | Ok e =>
      if eq_True e then Ok true
      else match getitem (wp_dic w) "type" with
           | Raise e => Raise e
           | Ok t => if eq_str t "reply" then Ok true else Ok false
           end
  end.

(** [WriteProgress.progress]: the pair [(done, total)] *)
Definition progress (w : WriteProgress) : result (pyval * pyval) :=
  match getitem (wp_dic w) "progress" with
  | Raise e => Raise e
  | Ok PNone => Raise (Exception_ (PStr "no progress information available"))
  | Ok p =>
      match getitem p "done" with
      | Raise e => Raise e
      | Ok d =>
          match getitem p "size" with
          | Raise e => Raise e
          | Ok z => Ok (d, z)
          end
      end
  end.

(** [WriteProgress.percent] *)
Definition percent (w : WriteProgress) : result pyval :=
  match finished w with
  | Raise e => Raise e
  | Ok true => Ok (PInt 100)
  | Ok false =>
      match progress w with
      | Raise e => Raise e
      | Ok (done, total) =>
          match mul (PInt 100) done with
          | Raise e => Raise e
          | Ok x => truediv x total
          end
      end
  end.

(** ** swarm/client.py: the streamed request protocol *)

(** What advancing a generator gives: a value, the end of the iteration,
    an exception, or, when [ws.recv()] has nothing to deliver within the
    frames of the store, a caller that stays blocked. *)
Inductive step (A : Type) : Type :=
| Yield (a : A)
| Stop
| Throw (e : exn)
| Blocked.
Arguments Yield {A} a.
Arguments Stop {A}.
Arguments Throw {A} e.
Arguments Blocked {A}.

(** The places where the generator of [_ws_request] can be suspended:
    before its first statement, inside the receive loop (after a
    [partial_reply] was yielded, or blocked in [recv]), at the [yield] of
    the final reply, and after its end. *)
Inductive ws_gen : Type :=
| WsFresh (method : string) (args : pyval)
| WsLoop (cookie : Z)
| WsAtOk
| WsDone.

(** one reading of the body of [while True]: what a received text does *)
Inductive frame_effect : Type :=
| FSkip
| FYieldMore (reply : pyval)
| FYieldLast (reply : pyval)
| FRaise (e : exn).

Definition on_frame (cookie : Z) (d : ws_data) : frame_effect :=
  match d with
  | WsEmpty => FSkip
  | WsGarbage => FRaise JSONDecodeError
  | WsJson reply =>
      match getitem reply "cookie" with
      | Raise e => FRaise e
      | Ok c =>
          if negb (eq_int c cookie) then FRaise (Exception_ (PStr "Cookie mismatch"))
          else
            match getitem reply "type" with
            | Raise e => FRaise e
            | Ok t =>
                let tail :=
                  if eq_str t "partial_reply" then FYieldMore reply else FSkip in
                if eq_str t "reply" then
                  match getitem reply "status" with
                  | Raise e => FRaise e
                  | Ok st =>
                      if eq_str st "error" then
                        match contains reply "reason" with
                        | Raise e => FRaise e
                        | Ok true =>
                            match getitem reply "reason" with
                            | Ok r => FRaise (Exception_ r)
                            | Raise e => FRaise e
                            end
                        | Ok false => FRaise (ExceptionStr reply)
                        end
                      else if eq_str st "ok" then FYieldLast reply
                      else tail
                  end
                else tail
            end
      end
  end.

(** the receive loop over the frames the socket is going to deliver,
    returning those left unread *)
Fixpoint recv_loop (cookie : Z) (inbox : list ws_data)
  : step pyval * ws_gen * list ws_data :=
  match inbox with
  | [] => (Blocked, WsLoop cookie, [])
  | d :: rest =>
      match on_frame cookie d with
      | FSkip => recv_loop cookie rest
      | FYieldMore r => (Yield r, WsLoop cookie, rest)
      | FYieldLast r => (Yield r, WsAtOk, rest)
      | FRaise e => (Throw e, WsDone, rest)
      end
  end.

(** [next(g)] for a generator [g] of [Client._ws_request] *)
Definition ws_next (g : ws_gen) (s : state) : step pyval * ws_gen * state :=
  let loop (cookie : Z) (s : state) :=
    match recv_loop cookie (ws_in s) with
    | (r, g', rest) => (r, g', set_ws_in rest s)
    end in
  match g with
  | WsFresh method args =>
      let cookie := ws_cookie s in
      let req := PDict [("cookie", PInt cookie); ("method", PStr method);
                        ("args", args)] in
      loop cookie (set_ws_out (ws_out s ++ [req]) (set_ws_cookie (cookie + 1) s))
  | WsLoop cookie => loop cookie s
  | WsAtOk => (Stop, WsDone, s)
  | WsDone => (Stop, WsDone, s)
  end.

(** [Client.dirty] *)
Definition dirty (s : state) : bool := (0 <? length (writespecs s))%nat.

(** [Client.stats]: [next(self._ws_request('get_stats'))['data']] *)
Definition Client_stats (s : state) : step pyval * state :=
  match ws_next (WsFresh "get_stats" (PList [])) s with
  | (Yield r, _, s') =>
      (match getitem r "data" with Ok d => Yield d | Raise e => Throw e end, s')
  | (Stop, _, s') => (Stop, s')
  | (Throw e, _, s') => (Throw e, s')
  | (Blocked, _, s') => (Blocked, s')
  end.

(** ** swarm/client.py: write *)

(** The generator of [Client.write]: not yet started, suspended at the
    [yield] of the empty case, suspended inside the [for] loop over the
    generator of [_ws_request], or finished. *)
Inductive write_gen : Type :=
| WrFresh (commit : pyval)
| WrAtEmpty
| WrLoop (g : ws_gen)
| WrDone.

(** the body of the [for] loop for one frame [x], up to its [yield] *)
Definition write_on_frame (x : pyval) : M WriteProgress :=
  t <- lift (getitem x "type") ;;
  isok <- (if eq_str t "reply" then
             st <- lift (getitem x "status") ;;
             ret (eq_str st "ok")
           else ret false) ;;
  (if (isok : bool) then modify (set_writespecs []) else ret tt) ;;;
  ret (mkWriteProgress x).

(** advancing the [for] loop: ask the inner generator for a frame *)
Definition write_loop (g : ws_gen) (s : state) : step WriteProgress * write_gen * state :=
  match ws_next g s with
  | (Yield x, g', s') =>
      match write_on_frame x s' with
      | (Ok w, s'') => (Yield w, WrLoop g', s'')
      | (Raise e, s'') => (Throw e, WrDone, s'')
      end
  | (Stop, _, s') => (Stop, WrDone, s')
  | (Throw e, _, s') => (Throw e, WrDone, s')
  | (Blocked, g', s') => (Blocked, WrLoop g', s')
  end.

(** [next(w)] for a generator [w] of [Client.write] *)
Definition write_next (w : write_gen) (s : state) : step WriteProgress * write_gen * state :=
  match w with
  | WrFresh commit =>
      if (length (writespecs s) =? 0)%nat
      then (Yield (mkWriteProgress (PDict [("empty", PBool true)])), WrAtEmpty, s)
      else write_loop (WsFresh "write" (PList [PList (writespecs s); commit])) s
  | WrAtEmpty => (Stop, WrDone, s)
  | WrLoop g => write_loop g s
  | WrDone => (Stop, WrDone, s)
  end.

(** [Client.write(commit)]: the call itself only creates the generator *)
Definition Client_write (commit : pyval) : write_gen := WrFresh commit.

(** ** swarm/client.py: mac_search *)

(** The sort key [(x['path'], x['index'])].  Paths are compared as
    strings and indices as integers; entries whose fields have other
    types are reported as a [TypeError] when the key is built. *)
Definition sort_key (x : pyval) : result (string * Z) :=
  match getitem x "path" with
  | Raise e => Raise e
  | Ok p =>
      match getitem x "index" with
      | Raise e => Raise e
      | Ok i =>
          match as_path p, as_index i with
          | Ok p', Ok i' => Ok (p', i')
          | Raise e, _ => Raise e
          | _, Raise e => Raise e
          end
      end
  end.

(** [a < b] on the key tuples: the first components decide unless they
    are equal *)
Definition key_lt (a b : string * Z) : bool :=
  match String.compare (fst a) (fst b) with
  | Lt => true
  | Eq => snd a <? snd b
  | Gt => false
  end.

(** [list.sort(key=...)] is stable: an element is placed before the first
    one whose key is not smaller than its own. *)
Fixpoint insert_keyed {A} (x : (string * Z) * A) (l : list ((string * Z) * A))
  : list ((string * Z) * A) :=
  match l with
  | [] => [x]
  | y :: l' =>
      if key_lt (fst y) (fst x) then y :: insert_keyed x l'
      else x :: y :: l'
  end.

Definition sort_keyed {A} (l : list ((string * Z) * A)) : list ((string * Z) * A) :=
  fold_right insert_keyed [] l.

(** the keys of all elements are computed before any comparison *)
Fixpoint with_keys (l : list pyval) : result (list ((string * Z) * pyval)) :=
  match l with
  | [] => Ok []
  | x :: l' =>
      match sort_key x with
      | Raise e => Raise e
      | Ok k =>
          match with_keys l' with
          | Raise e => Raise e
          | Ok ks => Ok ((k, x) :: ks)
          end
      end
  end.

(** [intfs.sort(key = lambda x: (x['path'], x['index']))]; only a list
    has the method *)
Definition sort_intfs (v : pyval) : result (list pyval) :=
  match v with
  | PList l =>
      match with_keys l with
      | Ok ks => Ok (map snd (sort_keyed ks))
      | Raise e => Raise e
      end
  | _ => Raise (AttributeError "sort")
  end.

(** [Client.mac_search] *)
Definition Client_mac_search (mac_fragment : string) : M (list MACNeighbour) :=
  r <- Client_get ("/macs/" +:+ mac_fragment) ;;
  if status_code r =? 200 then
    j <- response_json r ;;
    intfs <- lift (getitem j "interfaces") ;;
    intfs <- lift (sort_intfs intfs) ;;
    for_each (fun i =>
                p <- lift (getitem i "path") ;;
                p <- lift (as_path p) ;;
                ix <- lift (getitem i "index") ;;
                ix <- lift (as_index ix) ;;
                intf <- Client_interface p ix ;;
                t <- lift (getitem i "time") ;;
                m <- lift (getitem i "mac") ;;
                MACNeighbour_new [DObj intf; DVal t; DVal m]) intfs
  else raise (APIException (status_code r) (text r)).

(** ** swarm/objects.py: reading the properties of switches and containers *)

(** What a property getter of [Switch] or [Container] hands back: [None],
    a [TimedValue], or a value taken as it is from a dictionary. *)
Inductive propval : Type :=
| PNothing
| PTimed (t : TimedValue)
| PPlain (v : pyval).

(** [Switch._getprop] *)
Definition Switch_getprop (key : string) (self : ref) : M propval :=
  w <- load_switch self ;;
  if dict_mem (sw_changes w) key then
    v <- lift (getitem (PDict (sw_changes w)) key) ;;
    tv <- lift (TimedValue_init v (PInt 0) PNone) ;;
    ret (PTimed tv)
  else if sw_new w then ret PNothing
  else if truthy (sw_blob w) then
    cfg <- lift (getitem (sw_blob w) "config") ;;
    v <- lift (getitem cfg key) ;;
    ret (PPlain v)
  else
    r <- Client_get ("/switches/" +:+ sw_path w) ;;
    if status_code r =? 200 then
      b <- response_json r ;;
      put_switch self (mkSwitch (sw_path w) (sw_intfs w) b (sw_new w) (sw_changes w)) ;;;
      cfg <- lift (getitem b "config") ;;
      v <- lift (getitem cfg key) ;;
      ret (PPlain v)
    else raise (NameError "APIException").

(** [Switch._getdataprop] *)
Definition Switch_getdataprop (key : string) (self : ref) : M propval :=
  w <- load_switch self ;;
  if dict_mem (sw_changes w) key then
    v <- lift (getitem (PDict (sw_changes w)) key) ;;
    tv <- lift (TimedValue_init v (PInt 0) PNone) ;;
    ret (PTimed tv)
  else if sw_new w then ret PNothing
  else if truthy (sw_blob w) then
    d <- lift (getitem (sw_blob w) "data") ;;
    src <- lift (getitem d key) ;;
    tv <- lift (TimedValue_init PNone PNone src) ;;
    ret (PTimed tv)
  else
    r <- Client_get ("/switches/" +:+ sw_path w +:+ "/data") ;;
    if status_code r =? 200 then
      b <- response_json r ;;
      put_switch self (mkSwitch (sw_path w) (sw_intfs w) b (sw_new w) (sw_changes w)) ;;;
      d <- lift (getitem b "data") ;;
      src <- lift (getitem d key) ;;
      tv <- lift (TimedValue_init PNone PNone src) ;;
      ret (PTimed tv)
    else raise (NameError "APIException").

(** The properties of [Switch]: configuration properties are read with
    [_getprop] and written with [_setprop]; data properties are read with
    [_getdataprop] and have no setter. *)
Inductive switch_attr : Type :=
| sw_display_name | sw_ro_community | sw_rw_community | sw_hostname | sw_acl
| sw_description | sw_sysname | sw_stp_bridge_id | sw_vlans | sw_uptime.

Definition switch_attr_key (a : switch_attr) : string :=
  match a with
  | sw_display_name => "display_name"
  | sw_ro_community => "ro_community"
  | sw_rw_community => "rw_community"
  | sw_hostname => "hostname"
  | sw_acl => "acl"
  | sw_description => "description"
  | sw_sysname => "sysname"
  | sw_stp_bridge_id => "stp_bridge_id"
  | sw_vlans => "vlans"
  | sw_uptime => "uptime"
  end.

Definition switch_attr_config (a : switch_attr) : bool :=
  match a with
  | sw_display_name | sw_ro_community | sw_rw_community | sw_hostname | sw_acl => true
  | _ => false
  end.

(** [sw.attr] *)
Definition Switch_get (a : switch_attr) (self : ref) : M propval :=
  if switch_attr_config a then Switch_getprop (switch_attr_key a) self
  else Switch_getdataprop (switch_attr_key a) self.

(** [sw.attr = val] *)
Definition Switch_set (a : switch_attr) (self : ref) (val : pyval) : M pyval :=
  if switch_attr_config a then Switch_setprop (switch_attr_key a) self val
  else raise (AttributeError "can't set attribute").

(** [Container._getprop].  Its [print] of the fetched blob goes to the
    standard output, which the store does not record. *)
Definition Container_getprop (key : string) (self : ref) : M propval :=
  c <- load_container self ;;
  if dict_mem (ct_changes c) key then
    v <- lift (getitem (PDict (ct_changes c)) key) ;;
    ret (PPlain v)
  else if truthy (ct_blob c) then
    cfg <- lift (getitem (ct_blob c) "config") ;;
    v <- lift (getitem cfg key) ;;
    ret (PPlain v)
  else
    r <- Client_get ("/containers/" +:+ ct_path c) ;;
    if status_code r =? 200 then
      b <- response_json r ;;
      put_container self (mkContainer (ct_path c) b (ct_changes c) (ct_new c)) ;;;
      cfg <- lift (getitem b "config") ;;
      v <- lift (getitem cfg key) ;;
      ret (PPlain v)
    else raise (NameError "APIException").

(** ** swarm/objects.py: changes and histories *)

(** What [Change.__init__] keeps: the time stamp, the kind, the changed
    attributes and the path of the switch. *)
Record ChangeBase : Type := mkChange {
  ch_stamp : pyval;
  ch_type : pyval;
  ch_changes : pyval;
  ch_path : string
}.

(** The four classes of changes, with what each adds to the base. *)
Inductive Change : Type :=
| InterfaceChange (b : ChangeBase) (index : pyval)
| InterfaceWriteChange (b : ChangeBase) (index : pyval) (user : pyval)
| SwitchChange (b : ChangeBase)
| SwitchWriteChange (b : ChangeBase) (user : pyval).

(** [Change.__init__(self, client, path, blob)] *)
Definition Change_init (path : string) (blob : pyval) : result ChangeBase :=
  match getitem blob "time" with
  | Raise e => Raise e
  | Ok t =>
      match getitem blob "type" with
      | Raise e => Raise e
      | Ok ty =>
          match getitem blob "changes" with
          | Raise e => Raise e
          | Ok ch => Ok (mkChange t ty ch path)
          end
      end
  end.

(** [a + b] where [a] is a string literal *)
Definition str_concat (a : string) (b : pyval) : result string :=
  match b with
  | PStr s => Ok (a +:+ s)
  | _ => Raise (TypeError "can only concatenate str to str")
  end.

(** [Change.from_blob]; every test reads [blob['type']] again *)
Definition Change_from_blob (path : string) (blob : pyval) : result Change :=
  match getitem blob "type" with
  | Raise e => Raise e
  | Ok ty =>
      if eq_str ty "interface" then
        match Change_init path blob with
        | Raise e => Raise e
        | Ok b =>
            match getitem blob "index" with
            | Raise e => Raise e
            | Ok i => Ok (InterfaceChange b i)
            end
        end
      else if eq_str ty "switch" then
        match Change_init path blob with
        | Raise e => Raise e
        | Ok b => Ok (SwitchChange b)
        end
      else if eq_str ty "interface_write" then
        match Change_init path blob with
        | Raise e => Raise e
        | Ok b =>
            match getitem blob "index" with
            | Raise e => Raise e
            | Ok i =>
                match getitem blob "user" with
                | Raise e => Raise e
                | Ok u => Ok (InterfaceWriteChange b i u)
                end
            end
        end
      else if eq_str ty "switch_write" then
        match Change_init path blob with
        | Raise e => Raise e
        | Ok b =>
            match getitem blob "user" with
            | Raise e => Raise e
            | Ok u => Ok (SwitchWriteChange b u)
            end
        end
      else
        match str_concat "Unsupported change type: " ty with
        | Ok msg => Raise (Exception_ (PStr msg))
        | Raise e => Raise e
        end
  end.

Definition change_base (c : Change) : ChangeBase :=
  match c with
  | InterfaceChange b _ | InterfaceWriteChange b _ _
  | SwitchChange b | SwitchWriteChange b _ => b
  end.

(** the loop shared by the three history methods: the response is
    checked, then every entry of [logs] becomes a [Change] *)
Definition changes_of (path : string) (r : http_response) : M (list Change) :=
  if status_code r =? 200 then
    j <- response_json r ;;
    logs <- lift (getitem j "logs") ;;
    logs <- lift (py_iter logs) ;;
    for_each (fun m => lift (Change_from_blob path m)) logs
  else raise (NameError "APIException").

(** [Interface.history] *)
Definition Interface_history (self : ref) : M (list Change) :=
  i <- load_interface self ;;
  r <- Client_get (intf_url i +:+ "/history?interface_only=true") ;;
  changes_of (if_path i) r.

(** [Interface.history_since(ts)], [since] being [int(ts.timestamp())];
    on success the body is decoded twice *)
Definition Interface_history_since (self : ref) (since : Z) : M (list Change) :=
  i <- load_interface self ;;
  r <- Client_get (intf_url i +:+ "/history?interface_only=true"
                     +:+ "&since=" +:+ py_str_int since) ;;
  if status_code r =? 200 then
    j <- response_json r ;;
    lift (getitem j "logs") ;;;
    changes_of (if_path i) r
  else raise (NameError "APIException").

(** [Switch.history] *)
Definition Switch_history (self : ref) : M (list Change) :=
  w <- load_switch self ;;
  r <- Client_get ("/switches/" +:+ sw_path w +:+ "/history") ;;
  changes_of (sw_path w) r.

(** ** swarm/objects.py: what a neighbour resolves to *)

(** [Neighbour.switch]: [self.__client.switch(self.__path)].  The
    constructor keeps whatever it is given as the client: on the client
    the path is looked up; an interface has a property [switch], whose
    value is then called and is not callable; anything else has no such
    attribute. *)
Definition Neighbour_switch (n : Neighbour) : M ref :=
  match nb_client n with
  | DClient =>
      p <- lift (as_path (nb_path n)) ;;
      Client_switch p
  | DObj r =>
      o <- gets (fun s => heap s !! r) ;;
      match o with
      | Some (OInterface _) =>
          Interface_switch r ;;;
          raise (TypeError "'Switch' object is not callable")
      | _ => raise (AttributeError "switch")
      end
  | DVal _ => raise (AttributeError "switch")
  end.

(** [Neighbour.interface]: [self.__client.interface(self.__path,
    self.__index)]; the method [interface] of a switch takes one
    argument, not two. *)
Definition Neighbour_interface (n : Neighbour) : M ref :=
  match nb_client n with
  | DClient =>
      p <- lift (as_path (nb_path n)) ;;
      i <- lift (as_index (nb_index n)) ;;
      Client_interface p i
  | DObj r =>
      o <- gets (fun s => heap s !! r) ;;
      match o with
      | Some (OSwitch _) =>
          raise (TypeError "interface() takes 2 positional arguments but 3 were given")
      | _ => raise (AttributeError "interface")
      end
  | DVal _ => raise (AttributeError "interface")
  end.

End Swarm.

(* ===================================================================== *)
(** * Vocabulary of the properties                                        *)
(* ===================================================================== *)

Module Props.
Import Py Codec Cachetools Swarm.

(** ** Sample stores *)

Definition sample_token : MachAuthToken :=
  mkToken "m1" (bytes_of_string "secret") "swarm.example.org" PNone.

(** a store before any traffic, at time 1700000000 *)
Definition blank : state :=
  mkState 1700000000 [] [] [] [] sample_token "swarm.example.org" 1 []
    new_cont_cache new_sw_cache new_intf_cache ∅ 0%nat.

(** the same after a successful handshake *)
Definition signed_in : state := set_auth
  (mkToken "m1" (bytes_of_string "secret") "swarm.example.org" (PStr "abc123")) blank.

Definition respond (rs : list http_response) (s : state) : state :=
  set_http rs (http_log s) s.

Definition deliver (fs : list ws_data) (s : state) : state := set_ws_in fs s.

Definition ok_json (v : pyval) : http_response := mkResponse 200 "" (Some v).

(** ** Lookups through the identity caches *)

Inductive lookup_key : Type :=
| KSwitch (path : string)
| KInterface (path : string) (index : Z)
| KContainer (path : string).

Definition lookup (k : lookup_key) : M ref :=
  match k with
  | KSwitch p => Client_switch p
  | KInterface p i => Client_interface p i
  | KContainer p => Client_container p
  end.

(** the entry a cache currently holds for a key *)
Definition cached (k : lookup_key) (s : state) : option ref :=
  match k with
  | KSwitch p => data (sw_cache s) !! p
  | KInterface p i => data (intf_cache s) !! (p, i)
  | KContainer p => data (cont_cache s) !! p
  end.

(** a sequence of lookups, whatever their outcomes *)
Fixpoint run_lookups (ops : list lookup_key) (s : state) : state :=
  match ops with
  | [] => s
  | k :: ops' => run_lookups ops' (snd (lookup k s))
  end.

(** A cache as [LRUCache(maxsize)] makes it and its methods keep it: room
    for an item, and every stored key listed in the order of use. *)
Definition lru_wf {K} `{Countable K} {V} (c : LRUCache K V) : Prop :=
  (1 ≤ maxsize c)%nat ∧ ∀ k, is_Some (data c !! k) → k ∈ order c.

Definition caches_wf (s : state) : Prop :=
  lru_wf (cont_cache s) ∧ lru_wf (sw_cache s) ∧ lru_wf (intf_cache s).

(** ** Frames of the streamed protocol *)

(** [x['cookie'] == cookie] *)
Definition frame_cookie (x : pyval) (cookie : Z) : Prop :=
  ∃ c, getitem x "cookie" = Ok c ∧ eq_int c cookie = true.

(** [x['type'] == t] and [x['status'] == st] *)
Definition frame_type (x : pyval) (t : string) : Prop :=
  ∃ v, getitem x "type" = Ok v ∧ eq_str v t = true.

Definition frame_status (x : pyval) (st : string) : Prop :=
  ∃ v, getitem x "status" = Ok v ∧ eq_str v st = true.

(** what an error reply makes [_ws_request] raise *)
Definition error_of (x : pyval) : exn :=
  match getitem x "reason" with
  | Ok r => Exception_ r
  | Raise _ => ExceptionStr x
  end.

(** a [write] generator that is waiting for the frames of request
    [cookie]: not started (the request will carry the next free cookie),
    or suspended inside its loop *)
Inductive awaiting (s : state) : write_gen → Z → Prop :=
| aw_fresh commit : awaiting s (WrFresh commit) (ws_cookie s)
| aw_loop cookie : awaiting s (WrLoop (WsLoop cookie)) cookie.

(** frames the receive loop passes over without a word *)
Definition ignored (cookie : Z) (d : ws_data) : Prop := on_frame cookie d = FSkip.

(** ** The caches, for the proofs *)

(** every stored key is listed in the order of use *)
Definition keys_listed {K} `{Countable K} {V} (d : gmap K V) (o : list K) : Prop :=
  ∀ k, is_Some (d !! k) → k ∈ o.

(** the common shape of [Client.switch], [Client.interface] (its second
    half) and [Client.container] *)
Definition cache_fetch {K} `{Countable K} (repr : K → pyval)
    (getc : state → LRUCache K ref) (setc : LRUCache K ref → state → state)
    (fresh : pyobj) (k : K) : M ref :=
  c <- gets getc ;;
  (if lru_contains k c then ret tt
   else
     r <- alloc fresh ;;
     c' <- lift (lru_setitem k r c) ;;
     modify (setc c')) ;;;
  c <- gets getc ;;
  vc <- lift (lru_getitem repr k c) ;;
  modify (setc (snd vc)) ;;;
  ret (fst vc).

(** how one lookup may change a cache: the capacity stays, a well-formed
    cache stays well-formed, and an entry that is there before and after
    is the same entry *)
Definition cache_step {K} `{Countable K} (c c' : LRUCache K ref) : Prop :=
  maxsize c' = maxsize c ∧
  (lru_wf c → lru_wf c') ∧
  ∀ k v v', data c !! k = Some v → data c' !! k = Some v' → v' = v.

(** some lookups that leave the interface ("a.sw1", 3) cached *)
Definition sample_ops : list lookup_key :=
  [KSwitch "b.sw2"; KInterface "a.sw1" 4; KContainer ""].

(** twenty-one switch paths, one more than the switch cache holds *)
Definition many_switches : list lookup_key :=
  map (λ n, KSwitch ("sw" +:+ pretty n)) (seq 0 21).

(** ** The capacity window of a cache *)

Section WindowDefs.
Context {K : Type} `{Countable K} {V : Type}.

(** the keys used more recently than [k]: those after it in the order *)
Fixpoint younger (k : K) (o : list K) : list K :=
  match o with
  | [] => []
  | x :: o' => if decide (x = k) then o' else younger k o'
  end.

(** what a lookup of [k] makes of a cache, [v] being the object it would
    create on a miss: a hit only moves [k] to the end; a miss stores [v]
    (after making room) and moves [k] to the end; a store that fails
    leaves the cache alone *)
Definition lru_touch (k : K) (v : V) (c : LRUCache K V) : LRUCache K V :=
  match data c !! k with
  | Some _ => mkLRU (maxsize c) (data c) (move_to_end k (order c))
  | None =>
      match lru_setitem k v c with
      | Ok c1 => mkLRU (maxsize c1) (data c1) (move_to_end k (order c1))
      | Raise _ => c
      end
  end.

(** the representation invariant of the cache: room for an item, and the
    order lists exactly the stored keys, each once *)
Definition lru_inv (c : LRUCache K V) : Prop :=
  (1 ≤ maxsize c)%nat ∧ NoDup (order c) ∧ ∀ x, x ∈ order c ↔ is_Some (data c !! x).

(** a cache after some of the lookups of the keys [ks], in order; a
    lookup may also have left the cache alone *)
Inductive touched_by : list K → LRUCache K V → LRUCache K V → Prop :=
| tb_nil c : touched_by [] c c
| tb_touch k v ks c c' :
    touched_by ks (lru_touch k v c) c' → touched_by (k :: ks) c c'
| tb_skip k ks c c' :
    touched_by ks c c' → touched_by (k :: ks) c c'.
End WindowDefs.

(** the key a lookup brings into each cache; an interface lookup also
    looks its switch up *)
Definition sw_key (op : lookup_key) : option string :=
  match op with
  | KSwitch p | KInterface p _ => Some p
  | KContainer _ => None
  end.

Definition intf_key (op : lookup_key) : option (string * Z) :=
  match op with
  | KInterface p i => Some (p, i)
  | _ => None
  end.

Definition cont_key (op : lookup_key) : option string :=
  match op with
  | KContainer p => Some p
  | _ => None
  end.

Definition caches_inv (s : state) : Prop :=
  lru_inv (cont_cache s) ∧ lru_inv (sw_cache s) ∧ lru_inv (intf_cache s).

(** fewer distinct other keys are looked up in the cache of [k] than the
    cache has room for *)
Definition within_window (k : lookup_key) (ops : list lookup_key) (s : state) : Prop :=
  match k with
  | KSwitch p =>
      (size (list_to_set (omap sw_key ops) ∖ {[p]} : gset string)
       < maxsize (sw_cache s))%nat
  | KInterface p i =>
      (size (list_to_set (omap intf_key ops) ∖ {[(p, i)]} : gset (string * Z))
       < maxsize (intf_cache s))%nat
  | KContainer p =>
      (size (list_to_set (omap cont_key ops) ∖ {[p]} : gset string)
       < maxsize (cont_cache s))%nat
  end.

(** ** What a memoized blob answers *)


(** ** Scenarios *)

(** an unfinished progress frame: one of three done *)
Definition third_done : WriteProgress :=
  mkWriteProgress
    (PDict [("empty", PBool false); ("type", PStr "partial_reply");
            ("progress", PDict [("done", PInt 1); ("size", PInt 3)])]).

(** a store in which the root container has handed out a new switch *)
Definition with_new_switch : state :=
  snd (Container_new_switch 0%nat (snd (Client_container "" signed_in))).

(** a cached container without children, the service ready to answer the
    DELETE with 410 *)
Definition childless : state :=
  respond [mkResponse 410 "Gone" None] (snd (Client_container "a.b" signed_in)).

(** an interface whose blob says VLAN 10, observed at time 1600000000 *)
Definition vlan10_blob : pyval :=
  PDict [("data", PDict [("vlan", PDict [("value", PInt 10); ("time", PInt 1600000000)])]);
         ("neighbours", PList [])].

Definition with_vlan10 : state :=
  set_heap (<[0%nat := OInterface (mkInterface "a.sw1" 3 vlan10_blob)]> ∅) 1%nat signed_in.

(** [container("a.b").new_container()], its display name set to
    "My Lab!!", the service about to answer 201 *)
Definition lab_named : state :=
  let s1 := snd (Client_container "a.b" signed_in) in
  let s2 := snd (Container_new_container 0%nat s1) in
  let s3 := snd (Container_setprop "display_name" 1%nat (PStr "My Lab!!") s2) in
  respond [mkResponse 201 "" None] s3.

(** the service answers the handshake with an empty cookie, twice *)
Definition empty_cookie_service : state :=
  respond [ok_json (PDict [("cookie", PStr "")]); ok_json (PDict [("cookie", PStr "")])]
    blank.

(** the service answers the handshake with the cookie "abc123" *)
Definition first_handshake : state :=
  respond [mkResponse 200 "{...}" (Some (PDict [("cookie", PStr "abc123")]))] blank.

Definition mac_entry (path : string) (index : Z) (mac : string) : pyval :=
  PDict [("path", PStr path); ("index", PInt index);
         ("time", PInt 1600000000); ("mac", PStr mac)].

(** the service finds the fragment on two interfaces, listed out of order *)
Definition two_found : state :=
  respond [ok_json (PDict [("interfaces",
                            PList [mac_entry "b.sw" 2 "00:11:22:33:44:55";
                                   mac_entry "a.sw" 10 "00:11:22:33:44:66"])])]
    signed_in.

(** frames of request 1 *)
Definition partial_frame : pyval :=
  PDict [("cookie", PInt 1); ("type", PStr "partial_reply");
         ("progress", PDict [("done", PInt 1); ("size", PInt 2)])].

Definition ok_frame : pyval :=
  PDict [("cookie", PInt 1); ("type", PStr "reply"); ("status", PStr "ok")].

Definition error_frame : pyval :=
  PDict [("cookie", PInt 1); ("type", PStr "reply"); ("status", PStr "error");
         ("reason", PStr "switch unreachable")].

(** two WriteSpecs for different interfaces are queued; the service
    streams a keepalive, one partial_reply, then the ok reply *)
Definition two_queued : state :=
  deliver [WsEmpty; WsJson partial_frame; WsJson ok_frame]
    (set_writespecs [writespec "a.sw1" "vlan" 3 (PInt 20);
                     writespec "a.sw1" "alias" 4 (PStr "uplink")] signed_in).

(** ** The requests sent on the socket *)

(** the correlation id of a request frame *)
Definition sent_cookie (req : pyval) : option Z :=
  match getitem req "cookie" with
  | Ok (PInt c) => Some c
  | _ => None
  end.

(** the ids of all requests sent so far, oldest first *)
Definition sent_cookies (s : state) : list Z := omap sent_cookie (ws_out s).

(** every frame sent is a request with an id; the ids are increasing and
    all below the counter of the client *)
Definition cookies_fresh (s : state) : Prop :=
  length (sent_cookies s) = length (ws_out s) ∧
  StronglySorted Z.lt (sent_cookies s) ∧
  Forall (λ c, c < ws_cookie s) (sent_cookies s).

(** the frame [_ws_request(method, args)] sends under the id [cookie] *)
Definition request_frame (cookie : Z) (method : string) (args : pyval) : pyval :=
  PDict [("cookie", PInt cookie); ("method", PStr method); ("args", args)].

(** ** Assignments to interface attributes *)


(** the WriteSpec an assignment queues, given the heap *)
Definition spec_of (s : state) (x : intf_attr * ref * pyval) : option pyval :=
  match heap s !! x.1.2 with
  | Some (OInterface i) =>
      Some (writespec (if_path i) (intf_attr_key x.1.1) (if_index i) x.2)
  | _ => None
  end.


(** a reply that carries statistics *)
Definition stats_frame : pyval :=
  PDict [("cookie", PInt 1); ("type", PStr "reply"); ("status", PStr "ok");
         ("data", PDict [("uptime", PStr "3 days"); ("switches", PInt 12);
                         ("interfaces", PInt 480)])].

(** a frame that answers another request *)
Definition stray_frame : pyval :=
  PDict [("cookie", PInt 7); ("type", PStr "reply"); ("status", PStr "ok")].



(** ** Requests of a client that holds a session cookie *)

(** the token holds a cookie that [get_cookie] hands back as it is *)
Definition has_cookie (s : state) : Prop := truthy (tok_cookie (auth s)) = true.

(** the request the helpers [_get], [_post] and [_delete] send *)
Definition api_request (m : http_method) (path : string) (body : http_body)
    (ctype : option string) (s : state) : http_request :=
  mkRequest m ("https://" +:+ endpoint s +:+ "/api" +:+ path)
    (Some (tok_cookie (auth s))) body ctype.

(** the header [_post] sets for [ctype] *)
Definition ctype_header (ctype : option string) : option string :=
  match ctype with
  | Some t => if String.eqb t "" then None else Some t
  | None => None
  end.

(** what the transport hands back for the next request *)
Definition next_response (s : state) : result http_response :=
  match http_in s with
  | r :: _ => Ok r
  | [] => Raise ConnectionError
  end.

(** the store after one request [rq] *)
Definition after_request (rq : http_request) (s : state) : state :=
  set_http (tail (http_in s)) (http_log s ++ [rq]) s.

(** ** Neighbours of an interface *)

(** the base every neighbour of the interface [i] gets from
    [Interface.neighbours] *)
Definition base_of (i : Interface) (stamp : pyval) : Neighbour :=
  mkNeighbour DClient (PStr (if_path i)) (PInt (if_index i)) (DVal stamp).

(** the neighbour made of one entry of [macs] *)
Definition mac_of (i : Interface) (m : pyval) (n : neighbour) : Prop :=
  ∃ t a, getitem m "time" = Ok t ∧ getitem m "mac" = Ok a ∧
         n = NMac (mkMACNeighbour (base_of i t) (DVal a)).

(** the neighbour made of one entry of [neighbours] in the blob *)
Definition cdp_of (i : Interface) (m : pyval) (n : neighbour) : Prop :=
  ∃ t rn ri, getitem m "time" = Ok t ∧ getitem m "remote_name" = Ok rn ∧
             getitem m "remote_intf" = Ok ri ∧
             n = NCdp (mkCDPNeighbour (base_of i t) (DVal rn) (DVal ri)).

(** an interface with one CDP neighbour in its blob; the service lists
    two MAC addresses *)
Definition uplink_blob : pyval :=
  PDict [("data", PDict []);
         ("neighbours",
          PList [PDict [("time", PInt 1600000300); ("remote_name", PStr "core1");
                        ("remote_intf", PStr "Te1/1")]])].

Definition macs_reply : http_response :=
  ok_json (PDict [("macs",
    PList [PDict [("time", PInt 1600000100); ("mac", PStr "00:11:22:33:44:55")];
           PDict [("time", PInt 1600000200); ("mac", PStr "66:77:88:99:aa:bb")]])]).

Definition with_uplink : state :=
  respond [macs_reply]
    (set_heap (<[0%nat := OInterface (mkInterface "a.sw1" 3 uplink_blob)]> ∅) 1%nat
       signed_in).

(** the interface ("a.sw1", 3), fetched through the client, the service
    about to send its blob *)
Definition first_read : state :=
  respond [ok_json vlan10_blob] (snd (Client_interface "a.sw1" 3 signed_in)).

(** ** Histories *)

(** the kinds of changes [Change.from_blob] knows *)
Definition change_kinds : list string :=
  ["interface"; "switch"; "interface_write"; "switch_write"].

(** the class of the object and what it keeps besides the base *)
Definition change_kind (c : Change) : string :=
  match c with
  | InterfaceChange _ _ => "interface"
  | InterfaceWriteChange _ _ _ => "interface_write"
  | SwitchChange _ => "switch"
  | SwitchWriteChange _ _ => "switch_write"
  end.

Definition change_index (c : Change) : option pyval :=
  match c with
  | InterfaceChange _ i | InterfaceWriteChange _ i _ => Some i
  | _ => None
  end.

Definition change_user (c : Change) : option pyval :=
  match c with
  | InterfaceWriteChange _ _ u | SwitchWriteChange _ u => Some u
  | _ => None
  end.

(** [blob[k]] if the class reads it, nothing otherwise *)
Definition field_if (b : bool) (blob : pyval) (k : string) : result (option pyval) :=
  if b then
    match getitem blob k with
    | Ok v => Ok (Some v)
    | Raise e => Raise e
    end
  else Ok None.

(** a log with a poller entry and a write entry *)
Definition vlan_log : list pyval :=
  [PDict [("time", PInt 1600000000); ("type", PStr "interface");
          ("changes", PDict [("vlan", PInt 10)]); ("index", PInt 3)];
   PDict [("time", PInt 1600000500); ("type", PStr "interface_write");
          ("changes", PDict [("vlan", PInt 20)]); ("index", PInt 3);
          ("user", PStr "alice")]].

Definition vlan_changes : list Change :=
  [InterfaceChange
     (mkChange (PInt 1600000000) (PStr "interface") (PDict [("vlan", PInt 10)]) "a.sw1")
     (PInt 3);
   InterfaceWriteChange
     (mkChange (PInt 1600000500) (PStr "interface_write") (PDict [("vlan", PInt 20)])
        "a.sw1")
     (PInt 3) (PStr "alice")].

Definition with_history : state :=
  respond [ok_json (PDict [("logs", PList vlan_log)])] with_vlan10.

(** a switch fetched through the client whose log has an entry of a kind
    the package does not know *)
Definition odd_log : state :=
  respond [ok_json (PDict [("logs",
             PList [PDict [("time", PInt 1600000000); ("type", PStr "switch");
                           ("changes", PDict [])];
                    PDict [("time", PInt 1600000001); ("type", PStr "reboot");
                           ("changes", PDict [])]])])]
    (snd (Client_switch "a.sw1" signed_in)).

(** ** Switches *)

(** a 200 answer to a status request that says [v], observed at [t] *)
Definition status_reply (r : http_response) (v : pyval) (t : Z) : Prop :=
  status_code r = 200 ∧
  ∃ j st src tm,
    json r = Some j ∧ getitem j "status" = Ok st ∧ getitem st "status" = Ok src ∧
    getitem src "value" = Ok v ∧ getitem src "time" = Ok tm ∧ py_int tm = Ok t.

(** a switch fetched through the client; the poller is in error at the
    first request and fine at the second *)
Definition poller_recovers : state :=
  respond
    [ok_json (PDict [("status", PDict [("status",
        PDict [("value", PStr "error"); ("time", PInt 1600000000)])])]);
     ok_json (PDict [("status", PDict [("status",
        PDict [("value", PStr "ok"); ("time", PInt 1600000060)])])])]
    (snd (Client_switch "a.sw1" signed_in)).

(** [container("a").new_switch()] with a host name set, the service
    about to answer 201 *)
Definition switch_named : state :=
  let s1 := snd (Client_container "a" signed_in) in
  let s2 := snd (Container_new_switch 0%nat s1) in
  let s3 := snd (Switch_setprop "hostname" 1%nat (PStr "Core-1.example.org") s2) in
  respond [mkResponse 201 "" None] s3.

(** a cached switch that the service reports as gone *)
Definition switch_gone : state :=
  respond [mkResponse 410 "" None] (snd (Client_switch "a.sw1" signed_in)).

(** what a configuration property reads in a blob *)
Definition read_config (key : string) (b : pyval) : result propval :=
  match getitem b "config" with
  | Raise e => Raise e
  | Ok cfg =>
      match getitem cfg key with
      | Raise e => Raise e
      | Ok v => Ok (PPlain v)
      end
  end.

(** what a data property reads in a blob *)
Definition read_data (key : string) (b : pyval) : result propval :=
  match getitem b "data" with
  | Raise e => Raise e
  | Ok d =>
      match getitem d key with
      | Raise e => Raise e
      | Ok src =>
          match TimedValue_init PNone PNone src with
          | Ok tv => Ok (PTimed tv)
          | Raise e => Raise e
          end
      end
  end.

Definition read_switch (a : switch_attr) (b : pyval) : result propval :=
  if switch_attr_config a then read_config (switch_attr_key a) b
  else read_data (switch_attr_key a) b.

(** the resource a property of a switch is fetched from *)
Definition switch_url (a : switch_attr) (w : Switch) : string :=
  if switch_attr_config a then "/switches/" +:+ sw_path w
  else "/switches/" +:+ sw_path w +:+ "/data".

(** a cached switch; the service is about to answer the data request *)
Definition data_first : state :=
  respond [ok_json (PDict [("data", PDict [("uptime",
             PDict [("value", PInt 86400); ("time", PInt 1600000000)])])])]
    (snd (Client_switch "a.sw1" signed_in)).

(** ** Containers *)

(** what one entry of [children] makes [Container.children] look up *)
Definition child_of (jsobj : pyval) (k : option lookup_key) : Prop :=
  ∃ t, getitem jsobj "type" = Ok t ∧
       ((eq_str t "container" = true ∧
         ∃ p, getitem jsobj "path" = Ok (PStr p) ∧ k = Some (KContainer p)) ∨
        (eq_str t "container" = false ∧ eq_str t "switch" = true ∧
         ∃ p, getitem jsobj "path" = Ok (PStr p) ∧ k = Some (KSwitch p)) ∨
        (eq_str t "container" = false ∧ eq_str t "switch" = false ∧ k = None)).

(** the lookups of the keys, in order, stopping at the first failure *)
Definition lookup_each (ks : list lookup_key) : M (list ref) := for_each lookup ks.

(** the root container with three children listed, one of a kind the
    package does not know *)
Definition root_listed : state :=
  respond [ok_json (PDict [("children",
             PList [PDict [("type", PStr "container"); ("path", PStr "a")];
                    PDict [("type", PStr "rack"); ("path", PStr "r1")];
                    PDict [("type", PStr "switch"); ("path", PStr "sw9")]])])]
    (snd (Client_container "" signed_in)).

(** ** Slugs *)

(** text within ASCII, on which [lower] is [str.lower] *)
Definition ascii_text (s : string) : Prop :=
  Forall (λ c, (nat_of_ascii c < 128)%nat) (list_ascii_of_string s).

(** all characters are of the class [[a-z0-9-_]] *)
Definition slug_text (s : string) : Prop :=
  Forall (λ c, slug_char c = true) (list_ascii_of_string s).

(** ** Handshakes that fail *)

(** a token whose endpoint is not ASCII (the bytes of "swärm") *)
Definition umlaut_token : state :=
  set_auth (mkToken "m1" (bytes_of_string "secret")
              (String "s" (String "w" (String (ascii_of_nat 195)
                 (String (ascii_of_nat 164) "rm")))) PNone)
    (respond [ok_json (PDict [("cookie", PStr "abc123")])] blank).

(** the service answers 200 with a body that has no cookie *)
Definition no_cookie_field : state :=
  respond [ok_json (PDict [("error", PStr "denied")])] blank.

(** the search finds nothing *)
Definition none_found : state :=
  respond [ok_json (PDict [("interfaces", PList [])])] signed_in.

(** a cached switch, the service about to list two of its interfaces *)
Definition two_listed : state :=
  respond [ok_json (PDict [("interfaces",
             PList [PDict [("index", PInt 3); ("name", PStr "Gi0/3")];
                    PDict [("index", PInt 4); ("name", PStr "Gi0/4")]])])]
    (snd (Client_switch "a.sw1" signed_in)).

(** the index an entry of [interfaces] names *)
Definition index_of (intf : pyval) (ix : Z) : Prop :=
  ∃ v, getitem intf "index" = Ok v ∧ as_index v = Ok ix.

(** ** The objects behind the caches *)

(** no reference at or above the next one to hand out is in use *)
Definition heap_bound (h : gmap ref pyobj) (n : ref) : Prop :=
  ∀ r, is_Some (h !! r) → (r < n)%nat.

(** every entry of a cache refers to an object that fits its key *)
Definition cache_ok {K} `{Countable K} (fits : K → pyobj → Prop)
    (c : LRUCache K ref) (h : gmap ref pyobj) : Prop :=
  ∀ k r, data c !! k = Some r → ∃ o, h !! r = Some o ∧ fits k o.

Definition is_switch_at (p : string) (o : pyobj) : Prop :=
  ∃ w, o = OSwitch w ∧ sw_path w = p.

Definition is_interface_at (k : string * Z) (o : pyobj) : Prop :=
  ∃ i, o = OInterface i ∧ if_path i = k.1 ∧ if_index i = k.2.

Definition is_container_at (p : string) (o : pyobj) : Prop :=
  ∃ c, o = OContainer c ∧ ct_path c = p.

(** the object a key stands for *)
Definition fits (k : lookup_key) (o : pyobj) : Prop :=
  match k with
  | KSwitch p => is_switch_at p o
  | KInterface p i => is_interface_at (p, i) o
  | KContainer p => is_container_at p o
  end.

Definition store_ok (s : state) : Prop :=
  heap_bound (heap s) (next_ref s) ∧
  cache_ok is_container_at (cont_cache s) (heap s) ∧
  cache_ok is_switch_at (sw_cache s) (heap s) ∧
  cache_ok is_interface_at (intf_cache s) (heap s).

End Props.

(* ===================================================================== *)
(** * Properties                                                          *)
(* ===================================================================== *)

Import Py Codec Cachetools Swarm Props.

(** Test vectors: FIPS 180-4 ("abc"), RFC 4231 (test case 2), RFC 4648. *)
Example sha256_abc :
  Codec.hex (Codec.sha256 (Codec.bytes_of_string "abc"))
  = "ba7816bf8f01cfea414140de5dae2223b00361a396177a9cb410ff61f20015ad".
Proof. vm_compute. reflexivity. Qed.

Example hmac_sha256_rfc4231_2 :
  Codec.hex (Codec.hmac_sha256 (Codec.bytes_of_string "Jefe")
               (Codec.bytes_of_string "what do ya want for nothing?"))
  = "5bdcc146bf60754e6a042426089575c75a003f089d2739839dec58b964ec3843".
Proof. vm_compute. reflexivity. Qed.

Example b64encode_foob :
  Codec.b64encode_str (Codec.bytes_of_string "foob") = "Zm9vYg==".
Proof. vm_compute. reflexivity. Qed.


Ltac mstep :=
  unfold bind, ret, raise, lift, gets, modify, store, alloc,
    load_interface, load_switch, load_container in *.

(** ** WriteProgress *)

(** A finished frame reports 100 whatever its progress fields are. *)
Lemma percent_finished (w : WriteProgress) :
  finished w = Ok true → percent w = Ok (PInt 100).
Proof. intros Hf. unfold percent. rewrite Hf. reflexivity. Qed.

(** An unfinished frame with integer progress fields reports the
    quotient of the integers rounded to binary64: a float, never an
    [int]. *)
Lemma percent_unfinished (w : WriteProgress) (p : pyval) (done total : Z) :
  finished w = Ok false →
  getitem (wp_dic w) "progress" = Ok p →
  getitem p "done" = Ok (PInt done) →
  getitem p "size" = Ok (PInt total) →
  percent w = match int_truediv (100 * done) total with
              | Ok q => Ok (PFloat q)
              | Raise e => Raise e
              end.
Proof.
  intros Hf Hp Hd Hs. unfold percent, progress. rewrite Hf, Hp.
  assert (Hn : p ≠ PNone) by (intros ->; discriminate Hd).
  destruct p; try congruence; rewrite Hd, Hs; reflexivity.
Qed.

(** A frame as the service streams it, without an 'empty' entry, cannot
    even be asked: [finished], and so [percent], raise [KeyError]. *)
Example percent_of_streamed_frame :
  finished (mkWriteProgress partial_frame) = Raise (KeyError (PStr "empty")) ∧
  percent (mkWriteProgress partial_frame) = Raise (KeyError (PStr "empty")).
Proof. split; reflexivity. Qed.

(** C5 (the code at the failing input): for an unfinished frame with
    progress (1, 3), [percent] is the float 33.333333333333336, that is
    4691249611844267 * 2^-47, and not the integer 33 of the truncating
    division (100 * 1) / 3. *)
Theorem percent_is_true_division :
  finished third_done = Ok false ∧
  progress third_done = Ok (PInt 1, PInt 3) ∧
  percent third_done = Ok (PFloat (S754_finite false 4691249611844267 (-47))) ∧
  percent third_done ≠ Ok (PInt ((100 * 1) / 3)).
Proof. repeat split; try (vm_compute; reflexivity). vm_compute. discriminate. Qed.

(** ** write() on an empty queue *)

(** C4: with an empty queue the generator of [write] yields one progress
    whose [finished] is true, and its next step is the end of the
    iteration; no HTTP request and no socket frame was sent meanwhile (the
    store is the one the call started from). *)
Theorem write_empty_queue (commit : pyval) (s : state) :
  writespecs s = [] →
  let '(r1, g1, s1) := write_next (Client_write commit) s in
  let '(r2, g2, s2) := write_next g1 s1 in
  (∃ w, r1 = Yield w ∧ finished w = Ok true) ∧
  r2 = Stop ∧
  http_log s2 = http_log s ∧ ws_out s2 = ws_out s ∧ s2 = s.
Proof.
  intros Hq. unfold Client_write, write_next. rewrite Hq. cbn.
  repeat split. eexists. split; reflexivity.
Qed.

Lemma write_empty_queue_witness :
  writespecs signed_in = [] ∧
  let '(r1, g1, s1) := write_next (Client_write (PBool true)) signed_in in
  let '(r2, g2, s2) := write_next g1 s1 in
  (∃ w, r1 = Yield w ∧ finished w = Ok true) ∧
  r2 = Stop ∧
  http_log s2 = http_log signed_in ∧ ws_out s2 = ws_out signed_in ∧ s2 = signed_in.
Proof.
  split; [reflexivity |].
  apply (write_empty_queue (PBool true) signed_in). reflexivity.
Defined.

(** ** New switches *)

(** [Container.new_switch] hands out a switch constructed with [new=True]
    under the path of its parent, and no cache learns of it. *)
Lemma new_switch_is_new (parent : ref) (c : Container) (s : state) :
  heap s !! parent = Some (OContainer c) →
  ∃ r s',
    Container_new_switch parent s = (Ok r, s') ∧
    heap s' !! r = Some (OSwitch (Switch_init (ct_path c) true)) ∧
    sw_cache s' = sw_cache s ∧ http_log s' = http_log s.
Proof.
  intros Hc. unfold Container_new_switch. mstep. rewrite Hc.
  eexists _, _. split; [reflexivity |]. cbn.
  rewrite lookup_insert_eq. auto.
Qed.

(** Setting a property keeps a switch new; only [save] clears the flag. *)
Lemma setprop_keeps_new (name : string) (self : ref) (w : Switch) (v : pyval) (s : state) :
  heap s !! self = Some (OSwitch w) →
  ∃ w', heap (snd (Switch_setprop name self v s)) !! self = Some (OSwitch w') ∧
        sw_new w' = sw_new w.
Proof.
  intros Hw. unfold Switch_setprop, put_switch. mstep. rewrite Hw. cbn.
  rewrite lookup_insert_eq. eexists. split; reflexivity.
Qed.

(** C10: on a switch whose [new] flag is set, [status] and [progress]
    return [None] and [interfaces] the empty list; the store is unchanged
    by each of them, so no HTTP request was issued. *)
Theorem new_switch_is_inert (self : ref) (w : Switch) (s : state) :
  heap s !! self = Some (OSwitch w) →
  sw_new w = true →
  Switch_status self s = (Ok None, s) ∧
  Switch_progress self s = (Ok None, s) ∧
  Switch_interfaces self s = (Ok [], s) ∧
  http_log (snd (Switch_status self s)) = http_log s ∧
  http_log (snd (Switch_progress self s)) = http_log s ∧
  http_log (snd (Switch_interfaces self s)) = http_log s.
Proof.
  intros Hw Hn.
  assert (H1 : Switch_status self s = (Ok None, s)).
  { unfold Switch_status. mstep. rewrite Hw, Hn. reflexivity. }
  assert (H2 : Switch_progress self s = (Ok None, s)).
  { unfold Switch_progress. mstep. rewrite Hw, Hn. reflexivity. }
  assert (H3 : Switch_interfaces self s = (Ok [], s)).
  { unfold Switch_interfaces. mstep. rewrite Hw, Hn. reflexivity. }
  rewrite H1, H2, H3. repeat split.
Qed.

Lemma new_switch_is_inert_witness :
  (heap with_new_switch !! 1%nat = Some (OSwitch (Switch_init "" true)) ∧
   sw_new (Switch_init "" true) = true) ∧
  Switch_status 1%nat with_new_switch = (Ok None, with_new_switch) ∧
  Switch_progress 1%nat with_new_switch = (Ok None, with_new_switch) ∧
  Switch_interfaces 1%nat with_new_switch = (Ok [], with_new_switch) ∧
  http_log (snd (Switch_status 1%nat with_new_switch)) = http_log with_new_switch ∧
  http_log (snd (Switch_progress 1%nat with_new_switch)) = http_log with_new_switch ∧
  http_log (snd (Switch_interfaces 1%nat with_new_switch)) = http_log with_new_switch.
Proof.
  split; [split; vm_compute; reflexivity |].
  apply (new_switch_is_inert 1%nat (Switch_init "" true) with_new_switch);
    vm_compute; reflexivity.
Defined.

(** ** Container.delete *)

(** The name [delete] reads is mangled to [_Container__children], which
    neither [__init__] assigns nor the class binds. *)
Lemma children_attribute_missing (c : Container) :
  mangle "Container" "__children" = "_Container__children" ∧
  assoc_dyn (Container_dict c) "_Container__children" = None ∧
  In "children" Container_class_names ∧
  ¬ In "_Container__children" Container_class_names.
Proof.
  repeat split; try reflexivity.
  - cbn. tauto.
  - cbn. intros H. repeat (destruct H as [H | H]; [discriminate H |]). exact H.
Qed.

(** [delete] raises [AttributeError] on every container, whatever the
    service would answer, and sends nothing. *)
Lemma container_delete_always_raises (self : ref) (c : Container) (s : state) :
  heap s !! self = Some (OContainer c) →
  Container_delete self s = (Raise (AttributeError "_Container__children"), s).
Proof.
  intros Hc. unfold Container_delete. mstep. rewrite Hc. reflexivity.
Qed.

(** C9 (the code at the failing input): the container "a.b" has no
    children and the service would answer 410, yet [delete] raises
    [AttributeError] and no DELETE request is sent. *)
Theorem container_delete_childless :
  heap childless !! 0%nat = Some (OContainer (Container_init "a.b" false)) ∧
  Container_delete 0%nat childless
    = (Raise (AttributeError "_Container__children"), childless) ∧
  http_log (snd (Container_delete 0%nat childless)) = [] ∧
  fst (Container_delete 0%nat childless) ≠ Ok true.
Proof.
  assert (H : heap childless !! 0%nat = Some (OContainer (Container_init "a.b" false)))
    by (vm_compute; reflexivity).
  rewrite (container_delete_always_raises _ _ _ H).
  repeat split; try assumption; try reflexivity. discriminate.
Qed.

(** ** Interface attributes *)


Lemma TimedValue_of_src (value time src v tm : pyval) (t : Z) :
  getitem src "value" = Ok v → getitem src "time" = Ok tm → py_int tm = Ok t →
  TimedValue_init value time src = Ok (mkTimed v t).
Proof.
  intros Hv Htm Ht. unfold TimedValue_init.
  assert (Hs : truthy src = true).
  { destruct src as [| | | | | | d]; try discriminate. destruct d; [discriminate | reflexivity]. }
  rewrite Hs, Hv, Htm, Ht. reflexivity.
Qed.



(** The scenario in values: the blob says 10, 20 is set, 10 is read. *)
Example stale_read_after_set :
  let s' := snd (Interface_set vlan 0%nat (PInt 20) with_vlan10) in
  fst (Interface_get vlan 0%nat s') = Ok (Some (mkTimed (PInt 10) 1600000000)) ∧
  writespecs s' = [writespec "a.sw1" "vlan" 3 (PInt 20)].
Proof. vm_compute. split; reflexivity. Qed.

(** ** The session cookie in the HTTP helpers *)

(** A memoized, truthy cookie is returned as it is. *)
Lemma get_cookie_memoized (s : state) :
  truthy (tok_cookie (auth s)) = true →
  get_cookie s = (Ok (tok_cookie (auth s)), s).
Proof. intros Ht. unfold get_cookie. mstep. rewrite Ht. reflexivity. Qed.

Lemma Client_post_signed (path : string) (data : http_body) (s : state) :
  truthy (tok_cookie (auth s)) = true →
  Client_post path data None s
  = http_exchange
      (mkRequest POST ("https://" +:+ endpoint s +:+ "/api" +:+ path)
         (Some (tok_cookie (auth s))) data None) s.
Proof.
  intros Ht. unfold Client_post, api_url, bind at 1.
  rewrite (get_cookie_memoized s Ht). reflexivity.
Qed.

Lemma http_exchange_log (rq : http_request) (s : state) :
  http_log (snd (http_exchange rq s)) = http_log s ++ [rq].
Proof. unfold http_exchange. destruct (http_in s); reflexivity. Qed.

(** ** Container.save *)

(** The slug has only characters of the class [[a-z0-9-_]]. *)
Lemma sub_runs_class (b : bool) (s : string) :
  Forall (λ c, slug_char c = true) (list_ascii_of_string (sub_runs b s)).
Proof.
  revert b. induction s as [| c s IH]; intros b; cbn; [constructor |].
  destruct (slug_char c) eqn:Ec; cbn.
  - constructor; auto.
  - destruct b; cbn; [apply IH |]. constructor; [reflexivity | apply IH].
Qed.

(** What [save] posts for a new container with a display name [n]: the
    path of the parent, a dot, and the slug of [n]. *)
Lemma container_save_new_posts (self : ref) (c : Container) (n : string) (s : state) :
  heap s !! self = Some (OContainer c) →
  ct_new c = true →
  truthy (tok_cookie (auth s)) = true →
  dict_get (ct_changes c) "display_name" = Some (PStr n) →
  http_log (snd (Container_save self s))
  = http_log s ++
    [mkRequest POST
       ("https://" +:+ endpoint s +:+ "/api" +:+ "/containers/" +:+ ct_path c
          +:+ "." +:+ sub_runs false (lower (first_segment n)))
       (Some (tok_cookie (auth s))) (FormData (ct_changes c)) None].
Proof.
  intros Hc Hn Ht Hd. unfold Container_save.
  unfold bind at 1, load_container. rewrite Hc.
  unfold bind at 1. rewrite Hn. unfold dict_mem. rewrite Hd.
  unfold bind at 1, lift, getitem. rewrite Hd.
  unfold bind at 1, slugify, ret.
  unfold bind at 1. rewrite (Client_post_signed _ _ _ Ht).
  pose proof (http_exchange_log
    (mkRequest POST
       ("https://" +:+ endpoint s +:+ "/api" +:+ "/containers/" +:+ ct_path c
          +:+ "." +:+ sub_runs false (lower (first_segment n)))
       (Some (tok_cookie (auth s))) (FormData (ct_changes c)) None) s) as Hlog.
  destruct (http_exchange _ s) as [[r | e] s1] eqn:Ex; cbn in Hlog; [| exact Hlog].
  assert (Hl1 : ∀ (o : pyobj) m, http_log (snd (store self o m)) = http_log m)
    by reflexivity.
  destruct ((status_code r =? 201) || (status_code r =? 303)); cbn; [exact Hlog |].
  destruct (status_code r =? 200); cbn; [| exact Hlog].
  unfold response_json. destruct (json r); cbn; exact Hlog.
Qed.

(** Without a display name a new container is not saved: [save] raises
    before anything is sent. *)
Lemma container_save_new_unnamed (self : ref) (c : Container) (s : state) :
  heap s !! self = Some (OContainer c) →
  ct_new c = true →
  dict_get (ct_changes c) "display_name" = None →
  Container_save self s
  = (Raise (Exception_ (PStr "New containers require at least a display_name")), s).
Proof.
  intros Hc Hn Hd. unfold Container_save. mstep. rewrite Hc, Hn.
  unfold dict_mem. rewrite Hd. reflexivity.
Qed.

(** C7 (as stated, refuted): the suffix derived from "My Lab!!" is
    "my-lab-", the trailing run "!!" giving a hyphen of its own, and the
    POST goes to /containers/a.b.my-lab-, not to /containers/a.b.my-lab. *)
Lemma save_my_lab_counterexample :
  slugify (PStr "My Lab!!") = Ok "my-lab-" ∧
  slugify (PStr "My Lab!!") ≠ Ok "my-lab" ∧
  map (λ rq, (rq_method rq, rq_url rq)) (http_log (snd (Container_save 1%nat lab_named)))
  = [(POST, "https://swarm.example.org/api/containers/a.b.my-lab-")] ∧
  map (λ rq, (rq_method rq, rq_url rq)) (http_log (snd (Container_save 1%nat lab_named)))
  ≠ [(POST, "https://swarm.example.org/api/containers/a.b.my-lab")].
Proof.
  split; [vm_compute; reflexivity |].
  split; [vm_compute; discriminate |].
  split; [vm_compute; reflexivity |].
  vm_compute. discriminate.
Qed.

(** C7 (amended): [save] on a new container under "a.b" whose pending
    display name is "My Lab!!" derives the suffix "my-lab-" (first
    dot-segment, lower-cased, every run of characters outside
    [[a-z0-9-_]] replaced by one hyphen, a trailing run included) and
    POSTs its changes to /containers/a.b.my-lab-; on a new container
    without a display name it raises and sends nothing. *)
Theorem container_save_new (self : ref) (c : Container) (s : state) :
  heap s !! self = Some (OContainer c) →
  ct_new c = true →
  ct_path c = "a.b" →
  truthy (tok_cookie (auth s)) = true →
  (dict_get (ct_changes c) "display_name" = Some (PStr "My Lab!!") →
   slugify (PStr "My Lab!!") = Ok "my-lab-" ∧
   http_log (snd (Container_save self s))
   = http_log s ++
     [mkRequest POST ("https://" +:+ endpoint s +:+ "/api/containers/a.b.my-lab-")
        (Some (tok_cookie (auth s))) (FormData (ct_changes c)) None]) ∧
  (dict_get (ct_changes c) "display_name" = None →
   Container_save self s
   = (Raise (Exception_ (PStr "New containers require at least a display_name")), s)).
Proof.
  intros Hc Hn Hp Ht. split.
  - intros Hd. split; [reflexivity |].
    rewrite (container_save_new_posts self c "My Lab!!" s Hc Hn Ht Hd), Hp.
    reflexivity.
  - intros Hd. exact (container_save_new_unnamed self c s Hc Hn Hd).
Qed.

Lemma container_save_new_witness :
  let c := mkContainer "a.b" PNone [("display_name", PStr "My Lab!!")] true in
  (heap lab_named !! 1%nat = Some (OContainer c) ∧ ct_new c = true ∧
   ct_path c = "a.b" ∧ truthy (tok_cookie (auth lab_named)) = true ∧
   dict_get (ct_changes c) "display_name" = Some (PStr "My Lab!!")) ∧
  slugify (PStr "My Lab!!") = Ok "my-lab-" ∧
  http_log (snd (Container_save 1%nat lab_named))
  = http_log lab_named ++
    [mkRequest POST ("https://" +:+ endpoint lab_named +:+ "/api/containers/a.b.my-lab-")
       (Some (tok_cookie (auth lab_named))) (FormData (ct_changes c)) None].
Proof.
  intros c.
  assert (Hc : heap lab_named !! 1%nat = Some (OContainer c)) by (vm_compute; reflexivity).
  split; [repeat split; exact Hc |].
  apply (container_save_new 1%nat c lab_named Hc); reflexivity.
Defined.

(** ** struct.pack(">Q", t) *)

Lemma Z_of_byte_of_Z (z : Z) : Z_of_byte (byte_of_Z z) = z mod 256.
Proof.
  unfold Z_of_byte, byte_of_Z.
  assert (Hb : 0 ≤ z mod 256 < 256) by (apply Z.mod_pos_bound; lia).
  destruct (Byte.of_N (Z.to_N (z mod 256))) as [b |] eqn:E.
  - apply Byte.to_of_N in E. rewrite E. apply Z2N.id. lia.
  - apply Byte.of_N_None_iff in E. lia.
Qed.

Lemma be_value_acc (l : list Z) (acc : Z) :
  fold_left (λ a b, a * 256 + b) l acc
  = acc * 256 ^ Z.of_nat (length l) + be_value l.
Proof.
  unfold be_value. revert acc. induction l as [| x l IH]; intros acc.
  - cbn. lia.
  - cbn [fold_left length]. rewrite IH, (IH (0 * 256 + x)).
    rewrite Nat2Z.inj_succ, Z.pow_succ_r by lia. ring.
Qed.

Lemma be_bytes_length (n : nat) (v : Z) : length (be_bytes n v) = n.
Proof. induction n; cbn; congruence. Qed.

Lemma be_bytes_range (n : nat) (v : Z) :
  Forall (λ b, 0 ≤ b < 256) (be_bytes n v).
Proof.
  induction n; cbn [be_bytes]; constructor; auto.
  apply Z.mod_pos_bound. lia.
Qed.

(** the bytes of [be_bytes] read back, most significant first *)
Lemma be_value_be_bytes (n : nat) (v : Z) :
  0 ≤ v → be_value (be_bytes n v) = v mod 256 ^ Z.of_nat n.
Proof.
  intros Hv. induction n as [| n IH].
  - cbn. rewrite Z.mod_1_r. reflexivity.
  - cbn [be_bytes]. unfold be_value. cbn [fold_left].
    rewrite be_value_acc, IH, be_bytes_length.
    rewrite Z.shiftr_div_pow2 by lia.
    replace (2 ^ (8 * Z.of_nat n)) with (256 ^ Z.of_nat n)
      by (rewrite Z.pow_mul_r by lia; reflexivity).
    rewrite Nat2Z.inj_succ, Z.pow_succ_r by lia.
    rewrite (Z.mul_comm 256), Z.rem_mul_r by lia. lia.
Qed.

(** [struct.pack(">Q", t)] succeeds exactly on unsigned 64-bit values and
    gives eight bytes that denote [t], big-endian. *)
Lemma struct_pack_Q_spec (t : Z) (b : bytes) :
  struct_pack_Q t = Ok b →
  length b = 8%nat ∧ be_value (map Z_of_byte b) = t ∧ 0 ≤ t < 2 ^ 64.
Proof.
  unfold struct_pack_Q. intros H.
  destruct (Z.leb_spec 0 t); cbn in H; [| discriminate].
  destruct (Z.ltb_spec t (2 ^ 64)); cbn in H; [| discriminate].
  injection H as <-. split; [reflexivity |]. split; [| lia].
  change (be_value (map Z_of_byte (map byte_of_Z (be_bytes 8 t))) = t).
  rewrite map_map.
  rewrite (map_ext_Forall _ (λ x, x)), map_id.
  - rewrite be_value_be_bytes by lia. apply Z.mod_small. lia.
  - eapply Forall_impl; [apply be_bytes_range |].
    intros z Hz. cbn. rewrite Z_of_byte_of_Z. apply Z.mod_small. exact Hz.
Qed.

(** ** The handshake *)

(** C2 (as stated, refuted): a 200 response whose cookie is the empty
    string is returned by the first call, but the second call does not
    find it memoized: it sends a second POST. *)
Lemma empty_cookie_counterexample :
  let s1 := snd (get_cookie empty_cookie_service) in
  let s2 := snd (get_cookie s1) in
  fst (get_cookie empty_cookie_service) = Ok (PStr "") ∧
  map rq_url (http_log s1) = [machauth_url] ∧
  map rq_url (http_log s2) = [machauth_url; machauth_url] ∧
  http_log s2 ≠ http_log s1.
Proof.
  repeat split; try (vm_compute; reflexivity).
  vm_compute. discriminate.
Qed.

(** C2 (amended): a first call without a memoized cookie POSTs to the
    authentication endpoint the JSON object (time, target, user,
    signature, algorithm 2) whose signature is the base64 text of
    HMAC-SHA256(key, 8-byte big-endian time ++ endpoint bytes).  On status
    200 the cookie field of the response is stored and returned, and when
    it is truthy (a non-empty string) a subsequent call returns it and
    leaves the store as it is, so no further POST is sent.  On any other
    status [MachAuthError] with the status and the body is raised and the
    token is unchanged. *)
Theorem get_cookie_handshake
  (s : state) (packed ep : bytes) (resp : http_response) (rest : list http_response) :
  truthy (tok_cookie (auth s)) = false →
  struct_pack_Q (clock s) = Ok packed →
  encode_ascii (tok_endpoint (auth s)) = Ok ep →
  http_in s = resp :: rest →
  let sig := hmac_sha256 (tok_key (auth s)) (packed ++ ep) in
  let body := PDict [("time", PInt (clock s));
                     ("target", PStr (tok_endpoint (auth s)));
                     ("user", PStr (tok_uid (auth s)));
                     ("signature", PStr (b64encode_str sig));
                     ("algorithm", PInt 2)] in
  let s' := snd (get_cookie s) in
  (length packed = 8%nat ∧ be_value (map Z_of_byte packed) = clock s) ∧
  http_log s'
  = http_log s ++
    [mkRequest POST machauth_url None (JsonText body) (Some "application/json")] ∧
  (∀ reply c,
     status_code resp = 200 → json resp = Some reply → getitem reply "cookie" = Ok c →
     fst (get_cookie s) = Ok c ∧
     tok_cookie (auth s') = c ∧
     (truthy c = true → get_cookie s' = (Ok c, s'))) ∧
  (status_code resp ≠ 200 →
   fst (get_cookie s) = Raise (MachAuthError (status_code resp) (text resp)) ∧
   auth s' = auth s).
Proof.
  intros Ht Hp He Hin sig body s'.
  destruct (struct_pack_Q_spec _ _ Hp) as (Hlen & Hval & _).
  split; [split; assumption |].
  assert (Hrun : get_cookie s
    = (if status_code resp =? 200 then
         reply <- response_json resp ;;
         c <- lift (getitem reply "cookie") ;;
         modify (set_cookie c) ;;;
         gets (λ st, tok_cookie (auth st))
       else raise (MachAuthError (status_code resp) (text resp)))
        (set_http rest
           (http_log s ++
            [mkRequest POST machauth_url None (JsonText body) (Some "application/json")])
           s)).
  { unfold get_cookie. mstep. rewrite Ht, Hp, He. unfold http_exchange.
    rewrite Hin. reflexivity. }
  split; [| split].
  - subst s'. rewrite Hrun.
    destruct (status_code resp =? 200); [| reflexivity].
    unfold response_json. mstep.
    destruct (json resp) as [reply |]; cbn; [| reflexivity].
    destruct (getitem reply "cookie"); reflexivity.
  - intros reply c H200 Hj Hc. subst s'. rewrite Hrun.
    rewrite H200. cbn [Z.eqb Pos.eqb]. unfold response_json. mstep.
    rewrite Hj, Hc. cbn. repeat split.
    intros Htc. rewrite Htc. reflexivity.
  - intros Hn. subst s'. rewrite Hrun.
    destruct (Z.eqb_spec (status_code resp) 200); [contradiction |].
    split; reflexivity.
Qed.

(** The scenario of the handshake in values: the time 1700000000, the key
    "secret" and the endpoint "swarm.example.org" give this signature. *)
Lemma get_cookie_handshake_witness :
  let s' := snd (get_cookie first_handshake) in
  (truthy (tok_cookie (auth first_handshake)) = false ∧
   truthy (PStr "abc123") = true) ∧
  map rq_body (http_log s')
  = [JsonText (PDict [("time", PInt 1700000000);
                      ("target", PStr "swarm.example.org");
                      ("user", PStr "m1");
                      ("signature", PStr "pDm+Tr6HJ5IEqedrF9gYUlHvrx4WdEvmtZ1CuPAUiXo=");
                      ("algorithm", PInt 2)])] ∧
  fst (get_cookie first_handshake) = Ok (PStr "abc123") ∧
  get_cookie s' = (Ok (PStr "abc123"), s').
Proof.
  intros s'.
  destruct (struct_pack_Q (clock first_handshake)) as [packed | e] eqn:Hp;
    [| vm_compute in Hp; discriminate Hp].
  destruct (encode_ascii (tok_endpoint (auth first_handshake))) as [ep | e] eqn:He;
    [| vm_compute in He; discriminate He].
  destruct (get_cookie_handshake first_handshake packed ep
              (mkResponse 200 "{...}" (Some (PDict [("cookie", PStr "abc123")]))) []
              eq_refl Hp He eq_refl) as (_ & Hlog & Hok & _).
  destruct (Hok (PDict [("cookie", PStr "abc123")]) (PStr "abc123")
              eq_refl eq_refl eq_refl) as (Hres & _ & Hagain).
  split; [split; reflexivity |].
  split; [vm_compute; reflexivity |].
  split; [exact Hres | exact (Hagain eq_refl)].
Defined.

(** ** mac_search *)

(** [mac_search] calls [MACNeighbour] with three arguments, the
    interface first; the constructor takes four, the client first, and a
    three-argument call raises whatever the arguments are. *)
Lemma MACNeighbour_three_arguments (a b c : dynval) (s : state) :
  MACNeighbour_new [a; b; c] s
  = (Raise (TypeError "__init__() missing or surplus positional arguments"), s).
Proof. reflexivity. Qed.

(** The call of the sibling [Interface.neighbours], with the client as
    first argument, does construct a [MACNeighbour]. *)
Example neighbours_constructs :
  let s := respond [ok_json (PDict [("macs", PList [mac_entry "a.sw1" 3 "00:11:22:33:44:55"])])]
             with_vlan10 in
  fst (Interface_neighbours 0%nat s)
  = Ok [NMac (mkMACNeighbour
                (mkNeighbour DClient (PStr "a.sw1") (PInt 3) (DVal (PInt 1600000000)))
                (DVal (PStr "00:11:22:33:44:55")))].
Proof. vm_compute. reflexivity. Qed.

(** C8 (the code at the failing input): the search succeeds with status
    200 and two entries; they are sorted by (path, index) and the first
    is resolved through the interface cache, but no [MACNeighbour] list is
    returned: constructing the first neighbour raises [TypeError]. *)
Theorem mac_search_raises :
  let out := Client_mac_search "00:11" two_found in
  sort_intfs (PList [mac_entry "b.sw" 2 "00:11:22:33:44:55";
                     mac_entry "a.sw" 10 "00:11:22:33:44:66"])
  = Ok [mac_entry "a.sw" 10 "00:11:22:33:44:66";
        mac_entry "b.sw" 2 "00:11:22:33:44:55"] ∧
  map rq_url (http_log (snd out)) = ["https://swarm.example.org/api/macs/00:11"] ∧
  cached (KInterface "a.sw" 10) (snd out) = Some 1%nat ∧
  cached (KInterface "b.sw" 2) (snd out) = None ∧
  fst out = Raise (TypeError "__init__() missing or surplus positional arguments").
Proof. vm_compute. repeat split; reflexivity. Qed.

(** ** write() and the streamed replies *)

Lemma eq_str_eq (v : pyval) (t : string) : eq_str v t = true → v = PStr t.
Proof.
  destruct v; cbn; try discriminate. intros H. apply String.eqb_eq in H.
  congruence.
Qed.

(** a keepalive is ignored *)
Lemma keepalive_ignored (cookie : Z) : ignored cookie WsEmpty.
Proof. reflexivity. Qed.

Lemma on_frame_partial (cookie : Z) (x : pyval) :
  frame_cookie x cookie → frame_type x "partial_reply" →
  on_frame cookie (WsJson x) = FYieldMore x.
Proof.
  intros (c & Hc & Hm) (t & Ht & Hp). unfold on_frame.
  rewrite Hc, Hm, Ht. apply eq_str_eq in Hp. subst t. reflexivity.
Qed.

Lemma on_frame_ok (cookie : Z) (x : pyval) :
  frame_cookie x cookie → frame_type x "reply" → frame_status x "ok" →
  on_frame cookie (WsJson x) = FYieldLast x.
Proof.
  intros (c & Hc & Hm) (t & Ht & Hp) (st & Hst & Ho). unfold on_frame.
  rewrite Hc, Hm, Ht. apply eq_str_eq in Hp, Ho. subst t st. cbn.
  rewrite Hst. reflexivity.
Qed.

Lemma on_frame_error (cookie : Z) (x : pyval) :
  frame_cookie x cookie → frame_type x "reply" → frame_status x "error" →
  on_frame cookie (WsJson x) = FRaise (error_of x).
Proof.
  intros (c & Hc & Hm) (t & Ht & Hp) (st & Hst & He). unfold on_frame, error_of.
  rewrite Hc, Hm, Ht. apply eq_str_eq in Hp, He. subst t st. cbn.
  rewrite Hst. cbn.
  destruct x; try discriminate Hc. cbn. unfold dict_mem.
  destruct (dict_get d "reason"); reflexivity.
Qed.

(** what a yielded frame can be *)
Lemma on_frame_more_inv (cookie : Z) (d : ws_data) (x : pyval) :
  on_frame cookie d = FYieldMore x → frame_type x "partial_reply".
Proof.
  unfold on_frame. destruct d as [| y |]; try discriminate.
  destruct (getitem y "cookie") as [c |]; [| discriminate].
  destruct (negb (eq_int c cookie)); [discriminate |].
  destruct (getitem y "type") as [t |] eqn:Ht; [| discriminate].
  destruct (eq_str t "reply") eqn:Er.
  - apply eq_str_eq in Er. subst t. cbn.
    destruct (getitem y "status") as [st |]; [| discriminate].
    destruct (eq_str st "error").
    + destruct (contains y "reason") as [[] |]; try discriminate.
      destruct (getitem y "reason"); discriminate.
    + destruct (eq_str st "ok"); discriminate.
  - destruct (eq_str t "partial_reply") eqn:Ep; [| discriminate].
    intros [= <-]. exists t. auto.
Qed.

Lemma on_frame_last_inv (cookie : Z) (d : ws_data) (x : pyval) :
  on_frame cookie d = FYieldLast x → frame_type x "reply" ∧ frame_status x "ok".
Proof.
  unfold on_frame. destruct d as [| y |]; try discriminate.
  destruct (getitem y "cookie") as [c |]; [| discriminate].
  destruct (negb (eq_int c cookie)); [discriminate |].
  destruct (getitem y "type") as [t |] eqn:Ht; [| discriminate].
  destruct (eq_str t "reply") eqn:Er.
  - destruct (getitem y "status") as [st |] eqn:Hs; [| discriminate].
    destruct (eq_str st "error").
    + destruct (contains y "reason") as [[] |]; try discriminate.
      destruct (getitem y "reason"); discriminate.
    + destruct (eq_str st "ok") eqn:Eo.
      * intros [= <-]. split; eexists; eauto.
      * destruct (eq_str t "partial_reply"); discriminate.
  - destruct (eq_str t "partial_reply"); discriminate.
Qed.

Lemma recv_loop_ignored (cookie : Z) (pre rest : list ws_data) :
  Forall (ignored cookie) pre →
  recv_loop cookie (pre ++ rest) = recv_loop cookie rest.
Proof.
  induction 1 as [| d pre Hd _ IH]; [reflexivity |].
  cbn. rewrite Hd. exact IH.
Qed.

Lemma recv_loop_yield (cookie : Z) (inbox rest : list ws_data) (x : pyval) (g : ws_gen) :
  recv_loop cookie inbox = (Yield x, g, rest) →
  (g = WsAtOk ∧ frame_type x "reply" ∧ frame_status x "ok") ∨
  (g = WsLoop cookie ∧ frame_type x "partial_reply").
Proof.
  induction inbox as [| d inbox IH]; cbn; [discriminate |].
  destruct (on_frame cookie d) eqn:Ef; auto.
  - intros [= <- <- <-]. right. split; [reflexivity |].
    eapply on_frame_more_inv; eauto.
  - intros [= <- <- <-]. left. split; [reflexivity |].
    eapply on_frame_last_inv; eauto.
  - discriminate.
Qed.

(** the loop body of [write] on the two kinds of frames it is given *)
Lemma write_on_partial (x : pyval) (s : state) :
  frame_type x "partial_reply" → write_on_frame x s = (Ok (mkWriteProgress x), s).
Proof.
  intros (t & Ht & Hp). unfold write_on_frame. mstep. rewrite Ht.
  apply eq_str_eq in Hp. subst t. reflexivity.
Qed.

Lemma write_on_ok (x : pyval) (s : state) :
  frame_type x "reply" → frame_status x "ok" →
  write_on_frame x s = (Ok (mkWriteProgress x), set_writespecs [] s).
Proof.
  intros (t & Ht & Hp) (st & Hs & Ho). unfold write_on_frame. mstep.
  rewrite Ht, Hp, Hs, Ho. reflexivity.
Qed.

Lemma ws_next_writespecs (g : ws_gen) (s : state) :
  writespecs (snd (ws_next g s)) = writespecs s.
Proof.
  destruct g; cbn; try reflexivity.
  - destruct (recv_loop _ _) as [[r g'] rest]. reflexivity.
  - destruct (recv_loop _ _) as [[r g'] rest]. reflexivity.
Qed.

Lemma ws_next_yield (g g' : ws_gen) (s s' : state) (x : pyval) :
  ws_next g s = (Yield x, g', s') →
  (g' = WsAtOk ∧ frame_type x "reply" ∧ frame_status x "ok") ∨
  ((∃ cookie, g' = WsLoop cookie) ∧ frame_type x "partial_reply").
Proof.
  destruct g; cbn; try discriminate.
  - destruct (recv_loop _ _) as [[r g0] rest] eqn:E. intros [= -> -> <-].
    apply recv_loop_yield in E. destruct E as [E | [-> E]]; eauto.
  - destruct (recv_loop _ _) as [[r g0] rest] eqn:E. intros [= -> -> <-].
    apply recv_loop_yield in E. destruct E as [E | [-> E]]; eauto.
Qed.

(** One step of [write] either leaves the queue as it is, or empties it
    while yielding a reply frame with status ok. *)
Lemma write_step_queue (w : write_gen) (s : state) :
  let '(r, w', s') := write_next w s in
  writespecs s' = writespecs s ∨
  (writespecs s' = [] ∧
   ∃ x, r = Yield (mkWriteProgress x) ∧ frame_type x "reply" ∧ frame_status x "ok").
Proof.
  assert (Hloop : ∀ g,
    let '(r, w', s') := write_loop g s in
    writespecs s' = writespecs s ∨
    (writespecs s' = [] ∧
     ∃ x, r = Yield (mkWriteProgress x) ∧ frame_type x "reply" ∧ frame_status x "ok")).
  { intros g. unfold write_loop.
    pose proof (ws_next_writespecs g s) as Hq.
    destruct (ws_next g s) as [[r g'] s0] eqn:E. cbn in Hq.
    destruct r as [x | | e |]; auto.
    apply ws_next_yield in E. destruct E as [(_ & Ht & Hs) | (_ & Ht)].
    - rewrite (write_on_ok x s0 Ht Hs). right. split; [reflexivity |]. eauto.
    - rewrite (write_on_partial x s0 Ht). auto. }
  destruct w as [commit | | g |]; cbn; auto.
  - destruct (length (writespecs s) =? 0)%nat; auto. apply Hloop.
  - apply Hloop.
Qed.

(** a generator that awaits frames reads them in the receive loop, after
    sending the request if it had not started *)
Lemma write_next_awaiting (w : write_gen) (s : state) (cookie : Z) :
  awaiting s w cookie →
  writespecs s ≠ [] →
  ∃ s0, writespecs s0 = writespecs s ∧ ws_in s0 = ws_in s ∧
        write_next w s = write_loop (WsLoop cookie) s0.
Proof.
  intros Ha Hq. destruct Ha as [commit | cookie].
  - cbn. destruct (writespecs s) eqn:Eq; [contradiction |]. cbn.
    eexists (set_ws_out _ (set_ws_cookie _ s)). repeat split.
    cbn. rewrite Eq. reflexivity.
  - exists s. repeat split.
Qed.

Section WriteStep.
Variables (w : write_gen) (s : state) (cookie : Z)
          (pre rest : list ws_data) (x : pyval).
Hypothesis Ha : awaiting s w cookie.
Hypothesis Hq : writespecs s ≠ [].
Hypothesis Hin : ws_in s = pre ++ WsJson x :: rest.
Hypothesis Hpre : Forall (ignored cookie) pre.
Hypothesis Hc : frame_cookie x cookie.

Lemma write_next_frame :
  ∃ s0, writespecs s0 = writespecs s ∧
    write_next w s
    = match on_frame cookie (WsJson x) with
      | FSkip => write_loop (WsLoop cookie) (set_ws_in rest s0)
      | FYieldMore r =>
          match write_on_frame r (set_ws_in rest s0) with
          | (Ok p, s1) => (Yield p, WrLoop (WsLoop cookie), s1)
          | (Raise e, s1) => (Throw e, WrDone, s1)
          end
      | FYieldLast r =>
          match write_on_frame r (set_ws_in rest s0) with
          | (Ok p, s1) => (Yield p, WrLoop WsAtOk, s1)
          | (Raise e, s1) => (Throw e, WrDone, s1)
          end
      | FRaise e => (Throw e, WrDone, set_ws_in rest s0)
      end.
Proof.
  destruct (write_next_awaiting w s cookie Ha Hq) as (s0 & Hq0 & Hin0 & Hrun).
  exists s0. split; [exact Hq0 |]. rewrite Hrun.
  unfold write_loop. cbn [ws_next].
  rewrite Hin0, Hin, (recv_loop_ignored cookie pre _ Hpre).
  cbn [recv_loop].
  destruct (on_frame cookie (WsJson x)); reflexivity.
Qed.

Lemma write_next_partial :
  frame_type x "partial_reply" →
  ∃ s0, writespecs s0 = writespecs s ∧
    write_next w s
    = (Yield (mkWriteProgress x), WrLoop (WsLoop cookie), set_ws_in rest s0).
Proof.
  intros Ht. destruct write_next_frame as (s0 & Hq0 & Hrun).
  exists s0. split; [exact Hq0 |].
  rewrite Hrun, (on_frame_partial _ _ Hc Ht), (write_on_partial _ _ Ht).
  reflexivity.
Qed.

Lemma write_next_ok :
  frame_type x "reply" → frame_status x "ok" →
  ∃ s0,
    write_next w s
    = (Yield (mkWriteProgress x), WrLoop WsAtOk,
       set_writespecs [] (set_ws_in rest s0)).
Proof.
  intros Ht Hs. destruct write_next_frame as (s0 & Hq0 & Hrun).
  exists s0.
  rewrite Hrun, (on_frame_ok _ _ Hc Ht Hs), (write_on_ok _ _ Ht Hs).
  reflexivity.
Qed.

Lemma write_next_error :
  frame_type x "reply" → frame_status x "error" →
  ∃ s0, writespecs s0 = writespecs s ∧
    write_next w s = (Throw (error_of x), WrDone, set_ws_in rest s0).
Proof.
  intros Ht Hs. destruct write_next_frame as (s0 & Hq0 & Hrun).
  exists s0. split; [exact Hq0 |].
  rewrite Hrun, (on_frame_error _ _ Hc Ht Hs). reflexivity.
Qed.
End WriteStep.

(** C3: a [write] generator on a non-empty queue, reading (after frames
    it ignores) a frame [x] of its request.  If [x] is a partial_reply it
    is yielded and the queue stays as it was; if [x] is the reply with
    status ok it is yielded, the queue is then empty, and the next step
    ends the iteration; if [x] is the reply with status error the
    generator raises the reason of [x], or [x] itself when it has none,
    and the queue stays as it was.  In every case, a queue that changed
    was emptied on the yield of a reply with status ok. *)
Theorem write_clears_queue_on_ok
  (w : write_gen) (s : state) (cookie : Z) (pre rest : list ws_data) (x : pyval) :
  awaiting s w cookie →
  writespecs s ≠ [] →
  ws_in s = pre ++ WsJson x :: rest →
  Forall (ignored cookie) pre →
  frame_cookie x cookie →
  let '(r, w', s') := write_next w s in
  (frame_type x "partial_reply" →
   r = Yield (mkWriteProgress x) ∧ writespecs s' = writespecs s ∧
   awaiting s' w' cookie ∧ ws_in s' = rest) ∧
  (frame_type x "reply" → frame_status x "ok" →
   r = Yield (mkWriteProgress x) ∧ writespecs s' = [] ∧
   write_next w' s' = (Stop, WrDone, s')) ∧
  (frame_type x "reply" → frame_status x "error" →
   r = Throw (error_of x) ∧ w' = WrDone ∧ writespecs s' = writespecs s) ∧
  (writespecs s' ≠ writespecs s →
   writespecs s' = [] ∧
   ∃ y, r = Yield (mkWriteProgress y) ∧ frame_type y "reply" ∧ frame_status y "ok").
Proof.
  intros Ha Hq Hin Hpre Hc.
  pose proof (write_step_queue w s) as Hstep.
  pose proof (write_next_partial w s cookie pre rest x Ha Hq Hin Hpre Hc) as Hp.
  pose proof (write_next_ok w s cookie pre rest x Ha Hq Hin Hpre Hc) as Ho.
  pose proof (write_next_error w s cookie pre rest x Ha Hq Hin Hpre Hc) as He.
  destruct (write_next w s) as [[r w'] s'].
  split; [| split; [| split]].
  - intros Ht. destruct (Hp Ht) as (s0 & Hq0 & [= -> -> ->]).
    repeat split; [exact Hq0 | constructor].
  - intros Ht Hs. destruct (Ho Ht Hs) as (s0 & [= -> -> ->]).
    repeat split.
  - intros Ht Hs. destruct (He Ht Hs) as (s0 & Hq0 & [= -> -> ->]).
    repeat split. exact Hq0.
  - intros Hne. destruct Hstep as [H | H]; [contradiction | exact H].
Qed.

Lemma write_clears_queue_on_ok_witness :
  (awaiting two_queued (Client_write (PBool false)) 1 ∧
   writespecs two_queued ≠ [] ∧
   ws_in two_queued = [WsEmpty] ++ WsJson partial_frame :: [WsJson ok_frame] ∧
   Forall (ignored 1) [WsEmpty] ∧
   frame_cookie partial_frame 1 ∧ frame_type partial_frame "partial_reply") ∧
  let '(r, w', s') := write_next (Client_write (PBool false)) two_queued in
  r = Yield (mkWriteProgress partial_frame) ∧
  writespecs s' = writespecs two_queued ∧
  awaiting s' w' 1 ∧ ws_in s' = [WsJson ok_frame].
Proof.
  assert (Ha : awaiting two_queued (Client_write (PBool false)) 1)
    by exact (aw_fresh two_queued (PBool false)).
  assert (Hq : writespecs two_queued ≠ []) by discriminate.
  assert (Hpre : Forall (ignored 1) [WsEmpty])
    by (constructor; [reflexivity | constructor]).
  assert (Hc : frame_cookie partial_frame 1)
    by (exists (PInt 1); split; reflexivity).
  assert (Ht : frame_type partial_frame "partial_reply")
    by (exists (PStr "partial_reply"); split; reflexivity).
  split; [repeat split; assumption |].
  pose proof (write_clears_queue_on_ok (Client_write (PBool false)) two_queued 1
                [WsEmpty] [WsJson ok_frame] partial_frame Ha Hq eq_refl Hpre Hc) as H.
  destruct (write_next (Client_write (PBool false)) two_queued) as [[r w'] s'].
  destruct H as (H & _). exact (H Ht).
Defined.

(** The scenario step by step: the queue survives the partial_reply and
    is empty once the ok reply has been yielded; then the iteration ends. *)
Example write_scenario :
  let '(r1, w1, s1) := write_next (Client_write (PBool false)) two_queued in
  let '(r2, w2, s2) := write_next w1 s1 in
  let '(r3, w3, s3) := write_next w2 s2 in
  r1 = Yield (mkWriteProgress partial_frame) ∧ length (writespecs s1) = 2%nat ∧
  r2 = Yield (mkWriteProgress ok_frame) ∧ writespecs s2 = [] ∧
  r3 = Stop ∧
  ws_out s3 = [PDict [("cookie", PInt 1); ("method", PStr "write");
                      ("args", PList [PList (writespecs two_queued); PBool false])]].
Proof. vm_compute. repeat split; reflexivity. Qed.

(** An error reply: the reason is raised and the queue is kept. *)
Example write_error_scenario :
  let s := deliver [WsJson partial_frame; WsJson error_frame] two_queued in
  let '(r1, w1, s1) := write_next (Client_write (PBool true)) s in
  let '(r2, w2, s2) := write_next w1 s1 in
  r2 = Throw (Exception_ (PStr "switch unreachable")) ∧
  writespecs s2 = writespecs two_queued.
Proof. vm_compute. split; reflexivity. Qed.

(** ** The LRU cache *)

Section LRUFacts.
Context {K : Type} `{Countable K} {V : Type}.
Implicit Types (d : gmap K V) (o : list K) (c : LRUCache K V).

Lemma move_to_end_elem (k k' : K) o :
  k' ∈ move_to_end k o ↔ k' = k ∨ k' ∈ o.
Proof.
  unfold move_to_end. rewrite elem_of_app, list_elem_of_filter, list_elem_of_singleton.
  destruct (decide (k' = k)); intuition congruence.
Qed.

(** eviction only removes entries *)
Lemma make_room_sub (n : nat) d o d' o' :
  lru_make_room n d o = Ok (d', o') →
  (∀ k v, d' !! k = Some v → d !! k = Some v) ∧
  (keys_listed d o → keys_listed d' o').
Proof.
  revert d. induction o as [| k0 o IH]; intros d; cbn.
  - case_bool_decide; [| discriminate]. intros [= <- <-]. auto.
  - case_bool_decide.
    + intros [= <- <-]. auto.
    + intros E. apply IH in E. destruct E as [Hs Hl]. split.
      * intros k v Hk. apply Hs in Hk. apply lookup_delete_Some in Hk. tauto.
      * intros Hd. apply Hl. intros k [v Hk].
        apply lookup_delete_Some in Hk. destruct Hk as [Hne Hk].
        specialize (Hd k (mk_is_Some _ _ Hk)).
        apply elem_of_cons in Hd. destruct Hd; congruence.
Qed.

(** a well-formed cache with room for one item can always make room *)
Lemma make_room_total (n : nat) d o :
  (1 ≤ n)%nat → keys_listed d o → ∃ d' o', lru_make_room n d o = Ok (d', o').
Proof.
  intros Hn. revert d. induction o as [| k0 o IH]; intros d Hl; cbn.
  - assert (d = ∅) as ->.
    { apply map_empty. intros k. destruct (d !! k) eqn:E; [| reflexivity].
      specialize (Hl k (mk_is_Some _ _ E)). inversion Hl. }
    rewrite map_size_empty. case_bool_decide; [eauto | lia].
  - case_bool_decide; [eauto |]. apply IH.
    intros k [v Hk]. apply lookup_delete_Some in Hk. destruct Hk as [Hne Hk].
    specialize (Hl k (mk_is_Some _ _ Hk)).
    apply elem_of_cons in Hl. destruct Hl; congruence.
Qed.

Lemma lru_contains_true k c : lru_contains k c = true ↔ is_Some (data c !! k).
Proof. unfold lru_contains. apply bool_decide_eq_true. Qed.

Lemma lru_contains_false k c : lru_contains k c = false ↔ data c !! k = None.
Proof.
  unfold lru_contains. rewrite bool_decide_eq_false, eq_None_not_Some. tauto.
Qed.

(** [cache[k] = v] for an absent key: [k] is added, the other entries
    are entries of the old cache *)
Lemma lru_setitem_fresh k v c c' :
  data c !! k = None →
  lru_setitem k v c = Ok c' →
  maxsize c' = maxsize c ∧
  data c' !! k = Some v ∧
  (∀ k' v', k' ≠ k → data c' !! k' = Some v' → data c !! k' = Some v') ∧
  (lru_wf c → lru_wf c').
Proof.
  intros Hk. unfold lru_setitem. case_bool_decide as Hm; [discriminate |].
  apply lru_contains_false in Hk. rewrite Hk.
  destruct (lru_make_room _ _ _) as [[d o] | e] eqn:E; [| discriminate].
  intros [= <-]. cbn. apply make_room_sub in E. destruct E as [Hs Hl].
  split; [reflexivity |]. split; [apply lookup_insert_eq |]. split.
  - intros k' v' Hne Hk'. rewrite lookup_insert_ne in Hk' by congruence. auto.
  - intros [Hn Hw]. split; [exact Hn |]. cbn. intros k' Hk'.
    apply move_to_end_elem. destruct (decide (k' = k)); [auto | right].
    rewrite lookup_insert_ne in Hk' by congruence. apply (Hl Hw). exact Hk'.
Qed.

Lemma lru_setitem_total k v c :
  lru_wf c → data c !! k = None → ∃ c', lru_setitem k v c = Ok c'.
Proof.
  intros [Hn Hw] Hk. unfold lru_setitem.
  case_bool_decide; [lia |]. apply lru_contains_false in Hk. rewrite Hk.
  destruct (make_room_total (maxsize c) (data c) (order c) Hn Hw) as (d & o & ->).
  eauto.
Qed.

(** [cache[k]] returns the entry and only reorders *)
Lemma lru_getitem_hit (repr : K → pyval) k v c :
  data c !! k = Some v →
  ∃ c', lru_getitem repr k c = Ok (v, c') ∧
        maxsize c' = maxsize c ∧ data c' = data c ∧ (lru_wf c → lru_wf c').
Proof.
  intros Hk. unfold lru_getitem. rewrite Hk. eexists. split; [reflexivity |].
  split; [reflexivity |]. split; [reflexivity |].
  intros [Hn Hw]. split; [exact Hn |]. cbn. intros k' Hk'.
  apply move_to_end_elem. right. auto.
Qed.
End LRUFacts.

(** ** The identity caches of the client *)

Section Fetch.
Context {K : Type} `{Countable K}.
Variables (repr : K → pyval)
          (getc : state → LRUCache K ref)
          (setc : LRUCache K ref → state → state).
Hypothesis get_set : ∀ c s, getc (setc c s) = c.
Hypothesis get_heap : ∀ h n s, getc (set_heap h n s) = getc s.

Lemma cache_fetch_spec (fresh : pyobj) (k : K) (s : state) :
  let c := getc s in
  let out := cache_fetch repr getc setc fresh k s in
  let c' := getc (snd out) in
  maxsize c' = maxsize c ∧
  (∀ k' v', data c' !! k' = Some v' →
            data c !! k' = Some v' ∨ (k' = k ∧ data c !! k = None)) ∧
  (∀ v, fst out = Ok v → data c' !! k = Some v) ∧
  (∀ v, data c !! k = Some v → fst out = Ok v) ∧
  (lru_wf c → lru_wf c' ∧ ∃ v, fst out = Ok v).
Proof.
  intros c out c'. subst out c'. unfold cache_fetch. mstep. fold c.
  destruct (lru_contains k c) eqn:Ec.
  - apply lru_contains_true in Ec. destruct Ec as [v Hv].
    destruct (lru_getitem_hit repr k v c Hv) as (c1 & Hg & Hm & Hd & Hw).
    fold c. rewrite Hg. cbn. rewrite get_set, Hm, Hd.
    split_and!; auto.
    + intros v' [= <-]. exact Hv.
    + intros v' Hv'. congruence.
    + intros Hwf. split; [auto | eauto].
  - apply lru_contains_false in Ec. cbn.
    destruct (lru_setitem k (next_ref s) c) as [c1 | e] eqn:Es; cbn.
    + destruct (lru_setitem_fresh k _ c c1 Ec Es) as (Hm1 & Hk1 & Hold & Hw1).
      rewrite get_set.
      destruct (lru_getitem_hit repr k _ c1 Hk1) as (c2 & Hg & Hm & Hd & Hw).
      rewrite Hg. cbn. rewrite get_set, Hm, Hd, Hm1.
      split_and!; auto.
      * intros k' v' Hk'. destruct (decide (k' = k)) as [-> | Hne]; eauto.
      * intros v' [= <-]. exact Hk1.
      * intros v' Hv'. congruence.
      * intros Hwf. split; [auto | eauto].
    + rewrite get_heap. fold c. split_and!; auto.
      * discriminate.
      * intros v' Hv'. congruence.
      * intros Hwf.
        destruct (lru_setitem_total k (next_ref s) c Hwf Ec) as [c1 Hc1]. congruence.
Qed.

(** what a fetch does not touch *)
Lemma cache_fetch_frame {A} (g : state → A) (fresh : pyobj) (k : K) (s : state) :
  (∀ c s, g (setc c s) = g s) →
  (∀ h n s, g (set_heap h n s) = g s) →
  g (snd (cache_fetch repr getc setc fresh k s)) = g s.
Proof.
  intros Hs Hh. unfold cache_fetch. mstep.
  destruct (lru_contains k (getc s)); cbn.
  - destruct (lru_getitem repr k (getc s)); cbn; rewrite ?Hs; reflexivity.
  - destruct (lru_setitem k (next_ref s) (getc s)); cbn; [| apply Hh].
    destruct (lru_getitem repr k _); cbn; rewrite ?Hs, ?Hh; reflexivity.
Qed.
End Fetch.

Lemma Client_switch_fetch (p : string) :
  Client_switch p
  = cache_fetch path_repr sw_cache set_sw_cache (OSwitch (Switch_init p false)) p.
Proof. reflexivity. Qed.

Lemma Client_container_fetch (p : string) :
  Client_container p
  = cache_fetch path_repr cont_cache set_cont_cache (OContainer (Container_init p false)) p.
Proof. reflexivity. Qed.

Lemma Client_interface_fetch (p : string) (i : Z) :
  Client_interface p i
  = (sw <- Client_switch p ;;
     cache_fetch intf_key_repr intf_cache set_intf_cache
       (OInterface (Interface_init p i)) (p, i)).
Proof. reflexivity. Qed.

Lemma cache_step_refl {K} `{Countable K} (c : LRUCache K ref) : cache_step c c.
Proof. split_and!; auto. intros k v v' Hv Hv'. congruence. Qed.

Lemma fetch_step {K} `{Countable K} (repr : K → pyval)
    (getc : state → LRUCache K ref) (setc : LRUCache K ref → state → state)
    (fresh : pyobj) (k : K) (s : state) :
  (∀ c s, getc (setc c s) = c) →
  (∀ h n s, getc (set_heap h n s) = getc s) →
  cache_step (getc s) (getc (snd (cache_fetch repr getc setc fresh k s))).
Proof.
  intros Hgs Hgh.
  destruct (cache_fetch_spec repr getc setc Hgs Hgh fresh k s)
    as (Hm & Hold & _ & _ & Hw).
  split_and!; auto.
  - intros Hwf. apply Hw. exact Hwf.
  - intros k' v v' Hv Hv'. apply Hold in Hv'. destruct Hv' as [Hv' | [-> Hv']]; congruence.
Qed.

Lemma lookup_step (k : lookup_key) (s : state) :
  let s' := snd (lookup k s) in
  cache_step (cont_cache s) (cont_cache s') ∧
  cache_step (sw_cache s) (sw_cache s') ∧
  cache_step (intf_cache s) (intf_cache s').
Proof.
  destruct k as [p | p i | p]; cbn [lookup].
  - rewrite Client_switch_fetch. split_and!.
    + rewrite (cache_fetch_frame path_repr sw_cache set_sw_cache cont_cache) by reflexivity.
      apply cache_step_refl.
    + apply fetch_step; reflexivity.
    + rewrite (cache_fetch_frame path_repr sw_cache set_sw_cache intf_cache) by reflexivity.
      apply cache_step_refl.
  - rewrite Client_interface_fetch, Client_switch_fetch. unfold bind.
    set (f := cache_fetch path_repr sw_cache set_sw_cache (OSwitch (Switch_init p false)) p).
    pose proof (cache_fetch_frame path_repr sw_cache set_sw_cache cont_cache
                  (OSwitch (Switch_init p false)) p s ltac:(reflexivity) ltac:(reflexivity)) as Hc.
    pose proof (cache_fetch_frame path_repr sw_cache set_sw_cache intf_cache
                  (OSwitch (Switch_init p false)) p s ltac:(reflexivity) ltac:(reflexivity)) as Hi.
    pose proof (fetch_step path_repr sw_cache set_sw_cache
                  (OSwitch (Switch_init p false)) p s ltac:(reflexivity) ltac:(reflexivity)) as Hs.
    fold f in Hc, Hi, Hs. destruct (f s) as [[r | e] s1];
      cbv beta iota; cbn [fst snd] in *.
    + split_and!.
      * rewrite (cache_fetch_frame intf_key_repr intf_cache set_intf_cache cont_cache)
          by reflexivity.
        rewrite Hc. apply cache_step_refl.
      * rewrite (cache_fetch_frame intf_key_repr intf_cache set_intf_cache sw_cache)
          by reflexivity.
        exact Hs.
      * rewrite <- Hi. apply fetch_step; reflexivity.
    + rewrite Hc, Hi. split_and!; auto using cache_step_refl.
  - rewrite Client_container_fetch. split_and!.
    + apply fetch_step; reflexivity.
    + rewrite (cache_fetch_frame path_repr cont_cache set_cont_cache sw_cache) by reflexivity.
      apply cache_step_refl.
    + rewrite (cache_fetch_frame path_repr cont_cache set_cont_cache intf_cache) by reflexivity.
      apply cache_step_refl.
Qed.

(** lookups keep the caches well-formed *)
Lemma lookup_wf (k : lookup_key) (s : state) :
  caches_wf s → caches_wf (snd (lookup k s)).
Proof.
  intros (Hc & Hs & Hi).
  destruct (lookup_step k s) as ((_ & Hc' & _) & (_ & Hs' & _) & (_ & Hi' & _)).
  split_and!; auto.
Qed.

(** an entry that a lookup leaves in its cache is the entry it was *)
Lemma lookup_keeps (k op : lookup_key) (s : state) (r r' : ref) :
  cached k s = Some r → cached k (snd (lookup op s)) = Some r' → r' = r.
Proof.
  destruct (lookup_step op s) as ((_ & _ & Hc) & (_ & _ & Hs) & (_ & _ & Hi)).
  destruct k; cbn [cached]; eauto.
Qed.

(** a successful lookup leaves its result in the cache *)
Lemma lookup_ok_cached (k : lookup_key) (s : state) (r : ref) :
  fst (lookup k s) = Ok r → cached k (snd (lookup k s)) = Some r.
Proof.
  destruct k as [p | p i | p]; cbn [lookup cached].
  - rewrite Client_switch_fetch.
    destruct (cache_fetch_spec path_repr sw_cache set_sw_cache
                ltac:(reflexivity) ltac:(reflexivity)
                (OSwitch (Switch_init p false)) p s) as (_ & _ & H & _).
    apply H.
  - rewrite Client_interface_fetch. unfold bind at 1 2.
    destruct (Client_switch p s) as [[r0 | e] s1]; cbn; [| discriminate].
    destruct (cache_fetch_spec intf_key_repr intf_cache set_intf_cache
                ltac:(reflexivity) ltac:(reflexivity)
                (OInterface (Interface_init p i)) (p, i) s1) as (_ & _ & H & _).
    apply H.
  - rewrite Client_container_fetch.
    destruct (cache_fetch_spec path_repr cont_cache set_cont_cache
                ltac:(reflexivity) ltac:(reflexivity)
                (OContainer (Container_init p false)) p s) as (_ & _ & H & _).
    apply H.
Qed.

(** with well-formed caches a lookup of a cached key returns the entry *)
Lemma lookup_hit (k : lookup_key) (s : state) (r : ref) :
  caches_wf s → cached k s = Some r → fst (lookup k s) = Ok r.
Proof.
  intros (Hc & Hs & Hi). destruct k as [p | p i | p]; cbn [lookup cached].
  - rewrite Client_switch_fetch.
    destruct (cache_fetch_spec path_repr sw_cache set_sw_cache
                ltac:(reflexivity) ltac:(reflexivity)
                (OSwitch (Switch_init p false)) p s) as (_ & _ & _ & H & _).
    apply H.
  - intros Hk. rewrite Client_interface_fetch, Client_switch_fetch. unfold bind at 1.
    destruct (cache_fetch_spec path_repr sw_cache set_sw_cache
                ltac:(reflexivity) ltac:(reflexivity)
                (OSwitch (Switch_init p false)) p s) as (_ & _ & _ & _ & H).
    destruct (H Hs) as (_ & r0 & Hr0).
    pose proof (cache_fetch_frame path_repr sw_cache set_sw_cache intf_cache
                  (OSwitch (Switch_init p false)) p s ltac:(reflexivity) ltac:(reflexivity)) as Hfr.
    destruct (cache_fetch _ _ _ _ p s) as [[r1 | e] s1]; cbn in *; [| discriminate].
    destruct (cache_fetch_spec intf_key_repr intf_cache set_intf_cache
                ltac:(reflexivity) ltac:(reflexivity)
                (OInterface (Interface_init p i)) (p, i) s1) as (_ & _ & _ & H' & _).
    apply H'. rewrite Hfr. exact Hk.
  - rewrite Client_container_fetch.
    destruct (cache_fetch_spec path_repr cont_cache set_cont_cache
                ltac:(reflexivity) ltac:(reflexivity)
                (OContainer (Container_init p false)) p s) as (_ & _ & _ & H & _).
    apply H.
Qed.

Lemma lookup_total (k : lookup_key) (s : state) :
  caches_wf s → ∃ r, fst (lookup k s) = Ok r.
Proof.
  intros (Hc & Hs & Hi). destruct k as [p | p i | p]; cbn [lookup].
  - rewrite Client_switch_fetch.
    destruct (cache_fetch_spec path_repr sw_cache set_sw_cache
                ltac:(reflexivity) ltac:(reflexivity)
                (OSwitch (Switch_init p false)) p s) as (_ & _ & _ & _ & H).
    apply H. exact Hs.
  - pose proof (lookup_wf (KSwitch p) s (conj Hc (conj Hs Hi))) as (_ & _ & Hi1).
    cbn [lookup] in Hi1.
    rewrite Client_interface_fetch. unfold bind.
    destruct (cache_fetch_spec path_repr sw_cache set_sw_cache
                ltac:(reflexivity) ltac:(reflexivity)
                (OSwitch (Switch_init p false)) p s) as (_ & _ & _ & _ & H).
    destruct (H Hs) as (_ & r0 & Hr0). rewrite Client_switch_fetch in *.
    destruct (cache_fetch _ _ _ _ p s) as [[r1 | e] s1]; cbn [fst snd] in *;
      [| discriminate].
    destruct (cache_fetch_spec intf_key_repr intf_cache set_intf_cache
                ltac:(reflexivity) ltac:(reflexivity)
                (OInterface (Interface_init p i)) (p, i) s1) as (_ & _ & _ & _ & H').
    apply H'. exact Hi1.
  - rewrite Client_container_fetch.
    destruct (cache_fetch_spec path_repr cont_cache set_cont_cache
                ltac:(reflexivity) ltac:(reflexivity)
                (OContainer (Container_init p false)) p s) as (_ & _ & _ & _ & H).
    apply H. exact Hc.
Qed.

Lemma lru_new_wf {K} `{Countable K} {V} (n : nat) :
  (1 ≤ n)%nat → lru_wf (lru_new n : LRUCache K V).
Proof.
  intros Hn. split; [exact Hn |]. cbn. intros k [v Hv].
  rewrite lookup_empty in Hv. discriminate.
Qed.

(** [Client.__init__] sets up caches for 50 containers, 20 switches and
    100 interfaces, all well-formed. *)
Lemma Client_init_caches (tok : MachAuthToken) (ep : string) (s : state) :
  let s' := snd (Client_init tok ep s) in
  fst (Client_init tok ep s) = Ok tt →
  maxsize (cont_cache s') = 50%nat ∧ maxsize (sw_cache s') = 20%nat ∧
  maxsize (intf_cache s') = 100%nat ∧ caches_wf s' ∧ writespecs s' = [].
Proof.
  unfold Client_init. mstep.
  destruct (get_cookie _) as [[c | e] s1]; [| discriminate].
  destruct c; try discriminate.
  intros _. split_and!; try reflexivity.
  split_and!; apply lru_new_wf; lia.
Qed.

Lemma run_lookups_wf (ops : list lookup_key) (s : state) :
  caches_wf s → caches_wf (run_lookups ops s).
Proof.
  revert s. induction ops as [| op ops IH]; intros s Hwf; cbn; [exact Hwf |].
  apply IH, lookup_wf, Hwf.
Qed.

(** an entry that stays cached through a sequence of lookups stays the
    same entry *)
Lemma run_lookups_keeps (k : lookup_key) (ops : list lookup_key) (s : state) (r : ref) :
  cached k s = Some r →
  (∀ n, (n ≤ length ops)%nat → is_Some (cached k (run_lookups (take n ops) s))) →
  cached k (run_lookups ops s) = Some r.
Proof.
  revert s. induction ops as [| op ops IH]; intros s Hk Hstay; cbn; [exact Hk |].
  apply IH.
  - destruct (Hstay 1%nat ltac:(cbn; lia)) as [r' Hr'].
    change (cached k (snd (lookup op s)) = Some r') in Hr'.
    rewrite Hr'. f_equal. eapply lookup_keeps; eauto.
  - intros n Hn. apply (Hstay (S n)). cbn. lia.
Qed.

Lemma caches_wf_signed_in : caches_wf signed_in.
Proof. split_and!; apply lru_new_wf; cbn; lia. Qed.

(** Without the proviso the guarantee fails: after twenty other switches
    the first entry has been evicted, and the lookup makes a new object. *)
Example evicted_is_another_object :
  let s1 := snd (lookup (KSwitch "sw0") signed_in) in
  let s2 := run_lookups (tail many_switches) s1 in
  fst (lookup (KSwitch "sw0") signed_in) = Ok 0%nat ∧
  cached (KSwitch "sw0") s2 = None ∧
  fst (lookup (KSwitch "sw0") s2) = Ok 21%nat.
Proof. vm_compute. repeat split; reflexivity. Qed.

(** ** The sort of mac_search *)

Lemma string_compare_refl (a : string) : String.compare a a = Eq.
Proof.
  induction a as [| x a IH]; cbn; [reflexivity |].
  unfold Ascii.compare. rewrite N.compare_refl. exact IH.
Qed.

Lemma string_lt_trans (a b c : string) :
  String.compare a b = Lt → String.compare b c = Lt → String.compare a c = Lt.
Proof.
  revert b c. induction a as [| x a IH]; intros [| y b] [| z c]; cbn;
    try discriminate; try reflexivity.
  destruct (Ascii.compare x y) eqn:Exy; try discriminate;
    destruct (Ascii.compare y z) eqn:Eyz; try discriminate; intros Hab Hbc.
  - apply Ascii.compare_eq_iff in Exy, Eyz. subst.
    unfold Ascii.compare. rewrite N.compare_refl. eauto.
  - apply Ascii.compare_eq_iff in Exy. subst. rewrite Eyz. reflexivity.
  - apply Ascii.compare_eq_iff in Eyz. subst. rewrite Exy. reflexivity.
  - unfold Ascii.compare in *. rewrite N.compare_lt_iff in *.
    assert (Hxz : (N_of_ascii x < N_of_ascii z)%N) by lia.
    apply N.compare_lt_iff in Hxz. rewrite Hxz. reflexivity.
Qed.

Lemma key_lt_trans (a b c : string * Z) :
  key_lt a b = true → key_lt b c = true → key_lt a c = true.
Proof.
  unfold key_lt.
  destruct (String.compare a.1 b.1) eqn:Eab; try discriminate;
    destruct (String.compare b.1 c.1) eqn:Ebc; try discriminate; intros Hab Hbc.
  - apply String.compare_eq_iff in Eab, Ebc. rewrite Eab, Ebc, string_compare_refl. lia.
  - apply String.compare_eq_iff in Eab. rewrite Eab, Ebc. reflexivity.
  - apply String.compare_eq_iff in Ebc. rewrite <- Ebc, Eab. reflexivity.
  - rewrite (string_lt_trans _ _ _ Eab Ebc). reflexivity.
Qed.

Lemma key_lt_asym (a b : string * Z) : key_lt a b = true → key_lt b a = false.
Proof.
  unfold key_lt. rewrite (String.compare_antisym a.1 b.1).
  destruct (String.compare b.1 a.1); cbn; try discriminate; try reflexivity.
  lia.
Qed.

Lemma key_lt_total (a b : string * Z) :
  key_lt a b = false → key_lt b a = false → a = b.
Proof.
  unfold key_lt. rewrite (String.compare_antisym b.1 a.1).
  destruct (String.compare a.1 b.1) eqn:E; cbn; try discriminate.
  apply String.compare_eq_iff in E. intros H1 H2.
  destruct a, b; cbn in *. f_equal; [exact E | lia].
Qed.

(** "not greater": the order the sorted list is in *)
Lemma key_le_trans (a b c : string * Z) :
  key_lt b a = false → key_lt c b = false → key_lt c a = false.
Proof.
  intros Hab Hbc. destruct (key_lt c a) eqn:Hca; [| reflexivity].
  destruct (key_lt a b) eqn:Hlt.
  - rewrite (key_lt_trans c a b Hca Hlt) in Hbc. discriminate.
  - rewrite (key_lt_total a b Hlt Hab) in Hca. congruence.
Qed.

Lemma insert_keyed_perm {A} (x : (string * Z) * A) (l : list ((string * Z) * A)) :
  insert_keyed x l ≡ₚ x :: l.
Proof.
  induction l as [| y l IH]; cbn; [reflexivity |].
  destruct (key_lt y.1 x.1); [| reflexivity].
  rewrite IH. apply Permutation_swap.
Qed.

Lemma sort_keyed_perm {A} (l : list ((string * Z) * A)) : sort_keyed l ≡ₚ l.
Proof.
  induction l as [| x l IH]; cbn; [reflexivity |].
  rewrite insert_keyed_perm, IH. reflexivity.
Qed.

Lemma insert_keyed_sorted {A} (x : (string * Z) * A) (l : list ((string * Z) * A)) :
  StronglySorted (λ a b, key_lt b.1 a.1 = false) l →
  StronglySorted (λ a b, key_lt b.1 a.1 = false) (insert_keyed x l).
Proof.
  induction 1 as [| y l Hs IH Hy]; cbn.
  - repeat constructor.
  - destruct (key_lt y.1 x.1) eqn:E.
    + constructor; [exact IH |].
      rewrite insert_keyed_perm. constructor; [| exact Hy].
      apply key_lt_asym, E.
    + constructor; [constructor; assumption |].
      constructor; [exact E |].
      eapply Forall_impl; [exact Hy |]. cbn. intros z Hz.
      eapply key_le_trans; eauto.
Qed.

(** The list [mac_search] iterates over is a rearrangement of the entries
    in ascending order of (path, index). *)
Lemma sort_keyed_sorted {A} (l : list ((string * Z) * A)) :
  StronglySorted (λ a b, key_lt b.1 a.1 = false) (sort_keyed l) ∧ sort_keyed l ≡ₚ l.
Proof.
  split; [| apply sort_keyed_perm].
  induction l as [| x l IH]; cbn; [constructor |].
  apply insert_keyed_sorted, IH.
Qed.

(** ** The capacity window *)

Section Window.
Context {K : Type} `{Countable K} {V : Type}.
Implicit Types (d : gmap K V) (o : list K) (c : LRUCache K V).

Lemma inv_size d o :
  NoDup o → (∀ x, x ∈ o ↔ is_Some (d !! x)) → size d = length o.
Proof.
  intros Hnd Hk. rewrite <- (size_dom (D := gset K)).
  rewrite <- (size_list_to_set (C := gset K) o Hnd). f_equal.
  apply set_eq. intros x. rewrite elem_of_dom, elem_of_list_to_set. symmetry. apply Hk.
Qed.

Lemma make_room_prefix (n : nat) d o d' o' :
  NoDup o → (∀ x, x ∈ o ↔ is_Some (d !! x)) →
  lru_make_room n d o = Ok (d', o') →
  ∃ pre, o = pre ++ o' ∧
         length pre = (length o + 1 - n)%nat ∧
         (∀ x, d' !! x = if decide (x ∈ pre) then None else d !! x) ∧
         NoDup o' ∧ (∀ x, x ∈ o' ↔ is_Some (d' !! x)).
Proof.
  revert d. induction o as [| k0 o IH]; intros d Hnd Hk; cbn.
  - case_bool_decide as Hs; [| discriminate]. intros [= <- <-].
    exists []. cbn. split_and!; auto. lia.
  - pose proof (inv_size d (k0 :: o) Hnd Hk) as Hsz. cbn in Hsz.
    case_bool_decide as Hs.
    + intros [= <- <-]. exists []. cbn. split_and!; auto. lia.
    + apply NoDup_cons in Hnd. destruct Hnd as [Hk0 Hnd].
      assert (Hk' : ∀ x, x ∈ o ↔ is_Some (delete k0 d !! x)).
      { intros x. rewrite lookup_delete_is_Some, <- Hk, elem_of_cons.
        split; [intros Hx; split; [congruence | auto] | intros [Hne [? | ?]]; congruence]. }
      intros E. destruct (IH _ Hnd Hk' E) as (pre & -> & Hlen & Hd & Hnd' & Hk'').
      exists (k0 :: pre). split_and!; auto.
      * cbn. rewrite Hlen. rewrite length_app in *. lia.
      * intros x. rewrite Hd. repeat case_decide; auto.
        -- rewrite elem_of_cons in *. tauto.
        -- rewrite elem_of_cons in *.
           destruct (decide (x = k0)) as [-> | Hne];
             [apply lookup_delete_eq | tauto].
        -- rewrite elem_of_cons in *. apply lookup_delete_ne. intros ->. tauto.
Qed.

Lemma filter_ne_id (k : K) o : k ∉ o → filter (λ x, x ≠ k) o = o.
Proof.
  induction o as [| x o IH]; intros Hk; [reflexivity |].
  apply not_elem_of_cons in Hk. destruct Hk as [Hne Hk].
  rewrite filter_cons_True by congruence. f_equal. auto.
Qed.

Lemma move_to_end_twice (k : K) o : k ∉ o → move_to_end k (move_to_end k o) = o ++ [k].
Proof.
  intros Hk. unfold move_to_end. rewrite filter_app, !(filter_ne_id k o Hk).
  rewrite filter_cons_False by (intros Hne; congruence).
  rewrite filter_nil, app_nil_r. reflexivity.
Qed.

Lemma younger_elem (k x : K) o : x ∈ younger k o → x ∈ o.
Proof.
  induction o as [| y o IH]; cbn; [auto |].
  case_decide; intros Hx; apply elem_of_cons; auto.
Qed.

Lemma younger_NoDup (k : K) o : NoDup o → NoDup (younger k o).
Proof.
  induction 1 as [| y o Hy Hnd IH]; cbn; [constructor |].
  case_decide; auto.
Qed.

Lemma younger_notin (k : K) o : NoDup o → k ∉ younger k o.
Proof.
  induction 1 as [| y o Hy Hnd IH]; cbn; [apply not_elem_of_nil |].
  case_decide; [congruence | auto].
Qed.

Lemma younger_app_notin (k : K) pre o : k ∉ pre → younger k (pre ++ o) = younger k o.
Proof.
  induction pre as [| y pre IH]; intros Hk; [reflexivity |].
  apply not_elem_of_cons in Hk. destruct Hk as [Hne Hk]. cbn.
  case_decide; [congruence | auto].
Qed.

Lemma younger_app_in (k : K) o l : k ∈ o → younger k (o ++ l) = younger k o ++ l.
Proof.
  induction o as [| y o IH]; intros Hk; [inversion Hk |]. cbn.
  case_decide; [reflexivity |].
  apply elem_of_cons in Hk. destruct Hk; [congruence | auto].
Qed.

Lemma younger_filter (k k' : K) o :
  k ≠ k' → younger k (filter (λ x, x ≠ k') o) = filter (λ x, x ≠ k') (younger k o).
Proof.
  intros Hne. induction o as [| y o IH]; [reflexivity |].
  destruct (decide (y = k')) as [-> | Hy].
  - rewrite filter_cons_False by (intros Hn; congruence).
    cbn [younger]. case_decide; [congruence | exact IH].
  - rewrite filter_cons_True by exact Hy.
    cbn [younger]. case_decide; [reflexivity | exact IH].
Qed.

(** the position of [k]: as many keys before it as the list has besides
    [k] and the younger ones *)
Lemma younger_split (k : K) o :
  k ∈ o → ∃ pre, o = pre ++ k :: younger k o ∧ k ∉ pre.
Proof.
  induction o as [| y o IH]; intros Hk; [inversion Hk |]. cbn.
  case_decide as Hy.
  - subst. exists []. split; [reflexivity | apply not_elem_of_nil].
  - apply elem_of_cons in Hk. destruct Hk as [-> | Hk]; [congruence |].
    destruct (IH Hk) as (pre & Ho & Hpre). exists (y :: pre). split.
    + cbn. f_equal. exact Ho.
    + apply not_elem_of_cons. split; [congruence | exact Hpre].
Qed.

Lemma touch_hit (k : K) (v : V) c :
  is_Some (data c !! k) →
  lru_touch k v c = mkLRU (maxsize c) (data c) (move_to_end k (order c)).
Proof. intros [x Hx]. unfold lru_touch. rewrite Hx. reflexivity. Qed.

Lemma touch_miss (k : K) (v : V) c :
  lru_inv c → data c !! k = None →
  ∃ pre o1 d1,
    order c = pre ++ o1 ∧
    length pre = (length (order c) + 1 - maxsize c)%nat ∧
    (∀ x, d1 !! x = if decide (x ∈ pre) then None else data c !! x) ∧
    lru_touch k v c = mkLRU (maxsize c) (<[k := v]> d1) (o1 ++ [k]) ∧
    NoDup o1 ∧ (∀ x, x ∈ o1 ↔ is_Some (d1 !! x)) ∧ k ∉ o1.
Proof.
  intros (Hn & Hnd & Hk) Hmiss. unfold lru_touch, lru_setitem. rewrite Hmiss.
  case_bool_decide; [lia |].
  apply lru_contains_false in Hmiss as Hc. rewrite Hc.
  destruct (make_room_total (maxsize c) (data c) (order c) Hn) as (d1 & o1 & E).
  { intros x Hx. apply Hk, Hx. }
  rewrite E. cbn [maxsize data order].
  destruct (make_room_prefix _ _ _ _ _ Hnd Hk E) as (pre & Ho & Hlen & Hd & Hnd1 & Hk1).
  assert (Hko : k ∉ o1).
  { intros Hin. apply Hk1 in Hin. rewrite Hd in Hin. case_decide.
    - destruct Hin; discriminate.
    - rewrite Hmiss in Hin. destruct Hin; discriminate. }
  exists pre, o1, d1. split_and!; auto.
  rewrite move_to_end_twice by exact Hko. reflexivity.
Qed.

Lemma touch_step (k k' : K) (v v' : V) c :
  lru_inv c → data c !! k = Some v →
  (k' = k ∨ is_Some (data c !! k') ∨ (length (younger k (order c)) + 2 ≤ maxsize c)%nat) →
  let c' := lru_touch k' v' c in
  lru_inv c' ∧ maxsize c' = maxsize c ∧ data c' !! k = Some v ∧
  (k' = k → younger k (order c') = []) ∧
  (∀ x, x ∈ younger k (order c') → x ∈ younger k (order c) ∨ x = k').
Proof.
  intros Hinv Hv Hcase c'. subst c'.
  destruct Hinv as (Hn & Hnd & Hk).
  assert (Hko : k ∈ order c) by (apply Hk; eauto).
  destruct (data c !! k') as [w |] eqn:Hk'.
  - (* a hit: only the order changes *)
    rewrite touch_hit by (rewrite Hk'; eauto). cbn.
    assert (Hnd' : NoDup (move_to_end k' (order c))).
    { unfold move_to_end. apply NoDup_app. split_and!.
      - apply NoDup_filter, Hnd.
      - intros x Hx Hx'. apply list_elem_of_filter in Hx.
        apply list_elem_of_singleton in Hx'. tauto.
      - apply NoDup_singleton. }
    split_and!; auto.
    + split_and!; auto. cbn. intros x. rewrite move_to_end_elem, <- Hk.
      split; [intros [-> | Hx]; [apply Hk; rewrite Hk'; eauto | exact Hx] | auto].
    + intros ->. unfold move_to_end.
      rewrite younger_app_notin by (rewrite list_elem_of_filter; tauto).
      cbn. case_decide; [reflexivity | congruence].
    + intros x. unfold move_to_end.
      destruct (decide (k' = k)) as [-> | Hne].
      * rewrite younger_app_notin by (rewrite list_elem_of_filter; tauto).
        cbn. case_decide; [| congruence]. intros Hx. inversion Hx.
      * rewrite younger_app_in by (apply list_elem_of_filter; split; [congruence | exact Hko]).
        rewrite younger_filter by congruence.
        rewrite elem_of_app, list_elem_of_filter, list_elem_of_singleton. tauto.
  - (* a miss: a prefix of the order is evicted, which [k] is not in *)
    destruct Hcase as [-> | [[w Hw] | Hroom]]; [congruence | congruence |].
    destruct (touch_miss k' v' c (conj Hn (conj Hnd Hk)) Hk')
      as (pre & o1 & d1 & Ho & Hlen & Hd & -> & Hnd1 & Hk1 & Hk'o).
    cbn.
    assert (Hne : k ≠ k') by congruence.
    assert (Hpre : k ∉ pre).
    { intros Hin. apply list_elem_of_split in Hin. destruct Hin as (a & b & ->).
      assert (Ha : k ∉ a).
      { rewrite Ho, <- app_assoc in Hnd. apply NoDup_app in Hnd.
        destruct Hnd as (_ & Hdis & _). intros Hka. apply (Hdis k Hka).
        apply elem_of_app. left. apply elem_of_cons. auto. }
      rewrite Ho, <- app_assoc, younger_app_notin in Hroom by exact Ha.
      cbn in Hroom. case_decide; [| congruence].
      rewrite Ho, !length_app in Hlen. cbn in Hlen.
      rewrite !length_app in *. cbn in *. lia. }
    assert (Hk1o : k ∈ o1).
    { rewrite Ho in Hko. apply elem_of_app in Hko. tauto. }
    split_and!.
    + split_and!; auto; cbn.
      * apply NoDup_app. split_and!; auto using NoDup_singleton.
        intros x Hx Hx'. apply list_elem_of_singleton in Hx'. congruence.
      * intros x. rewrite elem_of_app, list_elem_of_singleton, lookup_insert_is_Some, Hk1.
        destruct (decide (k' = x)); intuition congruence.
    + reflexivity.
    + rewrite lookup_insert_ne by congruence. rewrite Hd.
      case_decide; [contradiction | exact Hv].
    + intros ->. congruence.
    + intros x. rewrite younger_app_in by exact Hk1o.
      rewrite elem_of_app, list_elem_of_singleton.
      rewrite Ho, younger_app_notin by exact Hpre. tauto.
Qed.

Lemma touch_inv (k : K) (v : V) c : lru_inv c → lru_inv (lru_touch k v c).
Proof.
  intros Hinv. destruct (data c !! k) as [w |] eqn:Hk.
  - destruct (touch_step k k w v c Hinv Hk (or_introl eq_refl)) as (H' & _). exact H'.
  - destruct (touch_miss k v c Hinv Hk)
      as (pre & o1 & d1 & Ho & Hlen & Hd & -> & Hnd1 & Hk1 & Hko).
    destruct Hinv as (Hn & _ & _). split_and!; auto; cbn.
    + apply NoDup_app. split_and!; auto using NoDup_singleton.
      intros x Hx Hx'. apply list_elem_of_singleton in Hx'. congruence.
    + intros x. rewrite elem_of_app, list_elem_of_singleton, lookup_insert_is_Some, Hk1.
      destruct (decide (k = x)); intuition congruence.
Qed.

Lemma touch_maxsize (k : K) (v : V) c : maxsize (lru_touch k v c) = maxsize c.
Proof.
  unfold lru_touch, lru_setitem. destruct (data c !! k); [reflexivity |].
  case_bool_decide; [reflexivity |].
  destruct (if lru_contains k c then _ else _) as [[d o] | e]; reflexivity.
Qed.

(** after a lookup the key is the most recently used: nothing is younger *)
Lemma touch_youngest (k : K) (v : V) c :
  lru_inv c → is_Some (data (lru_touch k v c) !! k) →
  younger k (order (lru_touch k v c)) = [].
Proof.
  intros Hinv Hs. destruct (data c !! k) as [w |] eqn:Hk.
  - destruct (touch_step k k w v c Hinv Hk (or_introl eq_refl)) as (_ & _ & _ & Hy & _).
    auto.
  - destruct (touch_miss k v c Hinv Hk)
      as (pre & o1 & d1 & Ho & Hlen & Hd & -> & Hnd1 & Hk1 & Hko).
    cbn. rewrite younger_app_notin by exact Hko. cbn.
    case_decide; [reflexivity | congruence].
Qed.

Lemma window_keeps (k : K) (v : V) ks c c' (seen : gset K) :
  touched_by ks c c' →
  lru_inv c → data c !! k = Some v →
  (∀ x, x ∈ younger k (order c) → x ∈ seen) → k ∉ seen →
  (size (seen ∪ (list_to_set ks ∖ {[k]})) < maxsize c)%nat →
  data c' !! k = Some v.
Proof.
  intros Ht. revert seen. induction Ht as [c | k' v' ks c c' Ht IH | k' ks c c' Ht IH];
    intros seen Hinv Hv Hy Hk Hsz; auto.
  - assert (Hcase : k' = k ∨ is_Some (data c !! k') ∨
                    (length (younger k (order c)) + 2 ≤ maxsize c)%nat).
    { destruct (decide (k' = k)) as [-> | Hne]; [auto | right].
      destruct (data c !! k') as [w |] eqn:Hk'; [eauto | right].
      destruct Hinv as (_ & Hnd & Hko).
      assert (Hsub : list_to_set (younger k (order c)) ⊆ seen ∖ {[k']}).
      { intros x Hx. apply elem_of_list_to_set in Hx. apply elem_of_difference.
        split; [auto |]. intros Hx'. apply elem_of_singleton in Hx'. subst x.
        apply younger_elem, Hko in Hx. rewrite Hk' in Hx. destruct Hx; discriminate. }
      apply subseteq_size in Hsub.
      rewrite size_list_to_set in Hsub by (apply younger_NoDup, Hnd).
      assert (Hsz' : (size (seen ∖ {[k']}) + 1 ≤ size (seen ∪ (list_to_set (k' :: ks) ∖ {[k]})))%nat).
      { rewrite <- (size_singleton (C := gset K) k'), <- size_union by set_solver.
        apply subseteq_size. cbn. set_solver. }
      lia. }
    destruct (touch_step k k' v v' c Hinv Hv Hcase) as (Hinv' & Hm & Hv' & Hlast & Hy').
    apply (IH (seen ∪ (if decide (k' = k) then ∅ else {[k']}))); auto.
    + intros x Hx. case_decide as Hd.
      * rewrite (Hlast Hd) in Hx. inversion Hx.
      * apply Hy' in Hx. set_solver.
    + case_decide; set_solver.
    + rewrite Hm. eapply Nat.le_lt_trans; [| exact Hsz].
      apply subseteq_size. cbn. case_decide; set_solver.
  - apply (IH seen); auto.
    eapply Nat.le_lt_trans; [| exact Hsz]. apply subseteq_size. cbn. set_solver.
Qed.
End Window.

Lemma lru_inv_wf {K} `{Countable K} {V} (c : LRUCache K V) : lru_inv c → lru_wf c.
Proof. intros (Hn & _ & Hk). split; [exact Hn |]. intros k Hs. apply Hk, Hs. Qed.

Lemma caches_inv_wf (s : state) : caches_inv s → caches_wf s.
Proof. intros (Hc & Hs & Hi). split_and!; apply lru_inv_wf; assumption. Qed.

Lemma lru_new_inv {K} `{Countable K} {V} (n : nat) :
  (1 ≤ n)%nat → lru_inv (lru_new n : LRUCache K V).
Proof.
  intros Hn. split_and!; [exact Hn | constructor |]. cbn. intros x.
  rewrite lookup_empty. split; [intros Hx; inversion Hx | intros [? ?]; discriminate].
Qed.

Lemma cache_fetch_touch {K} `{Countable K} (repr : K → pyval)
    (getc : state → LRUCache K ref) (setc : LRUCache K ref → state → state)
    (fresh : pyobj) (k : K) (s : state) :
  (∀ c s, getc (setc c s) = c) →
  (∀ h n s, getc (set_heap h n s) = getc s) →
  getc (snd (cache_fetch repr getc setc fresh k s)) = lru_touch k (next_ref s) (getc s).
Proof.
  intros Hgs Hgh. unfold cache_fetch, lru_touch. mstep.
  destruct (lru_contains k (getc s)) eqn:Ec.
  - apply lru_contains_true in Ec. destruct Ec as [v Hv]. rewrite Hv.
    unfold lru_getitem. rewrite Hv. cbn. apply Hgs.
  - apply lru_contains_false in Ec. rewrite Ec. cbn.
    destruct (lru_setitem k (next_ref s) (getc s)) as [c1 | e] eqn:Es; cbn.
    + destruct (lru_setitem_fresh k _ _ c1 Ec Es) as (_ & Hk1 & _).
      rewrite Hgs. unfold lru_getitem. rewrite Hk1. cbn. apply Hgs.
    + apply Hgh.
Qed.

Lemma lookup_touch_sw (op : lookup_key) (s : state) :
  sw_cache (snd (lookup op s))
  = match sw_key op with
    | Some p => lru_touch p (next_ref s) (sw_cache s)
    | None => sw_cache s
    end.
Proof.
  destruct op as [p | p i | p]; cbn [lookup sw_key].
  - rewrite Client_switch_fetch. apply cache_fetch_touch; reflexivity.
  - rewrite Client_interface_fetch, Client_switch_fetch. unfold bind.
    pose proof (cache_fetch_touch path_repr sw_cache set_sw_cache
                  (OSwitch (Switch_init p false)) p s
                  ltac:(reflexivity) ltac:(reflexivity)) as Ht.
    destruct (cache_fetch _ _ _ _ p s) as [[r | e] s1]; cbn [fst snd] in *; [| exact Ht].
    rewrite (cache_fetch_frame intf_key_repr intf_cache set_intf_cache sw_cache)
      by reflexivity.
    exact Ht.
  - rewrite Client_container_fetch.
    apply (cache_fetch_frame path_repr cont_cache set_cont_cache sw_cache); reflexivity.
Qed.

Lemma lookup_touch_cont (op : lookup_key) (s : state) :
  cont_cache (snd (lookup op s))
  = match cont_key op with
    | Some p => lru_touch p (next_ref s) (cont_cache s)
    | None => cont_cache s
    end.
Proof.
  destruct op as [p | p i | p]; cbn [lookup cont_key].
  - rewrite Client_switch_fetch.
    apply (cache_fetch_frame path_repr sw_cache set_sw_cache cont_cache); reflexivity.
  - rewrite Client_interface_fetch, Client_switch_fetch. unfold bind.
    pose proof (cache_fetch_frame path_repr sw_cache set_sw_cache cont_cache
                  (OSwitch (Switch_init p false)) p s
                  ltac:(reflexivity) ltac:(reflexivity)) as Ht.
    destruct (cache_fetch _ _ _ _ p s) as [[r | e] s1]; cbn [fst snd] in *; [| exact Ht].
    rewrite (cache_fetch_frame intf_key_repr intf_cache set_intf_cache cont_cache)
      by reflexivity.
    exact Ht.
  - rewrite Client_container_fetch. apply cache_fetch_touch; reflexivity.
Qed.

Lemma lookup_touch_intf (op : lookup_key) (s : state) :
  match intf_key op with
  | Some k =>
      (∃ v, intf_cache (snd (lookup op s)) = lru_touch k v (intf_cache s)) ∨
      (intf_cache (snd (lookup op s)) = intf_cache s ∧ ∀ r, fst (lookup op s) ≠ Ok r)
  | None => intf_cache (snd (lookup op s)) = intf_cache s
  end.
Proof.
  destruct op as [p | p i | p]; cbn [lookup intf_key].
  - rewrite Client_switch_fetch.
    apply (cache_fetch_frame path_repr sw_cache set_sw_cache intf_cache); reflexivity.
  - rewrite Client_interface_fetch, Client_switch_fetch. unfold bind.
    pose proof (cache_fetch_frame path_repr sw_cache set_sw_cache intf_cache
                  (OSwitch (Switch_init p false)) p s
                  ltac:(reflexivity) ltac:(reflexivity)) as Ht.
    destruct (cache_fetch _ _ _ _ p s) as [[r | e] s1]; cbn [fst snd] in *.
    + left. exists (next_ref s1). rewrite <- Ht.
      apply cache_fetch_touch; reflexivity.
    + right. split; [exact Ht | discriminate].
  - rewrite Client_container_fetch.
    apply (cache_fetch_frame path_repr cont_cache set_cont_cache intf_cache); reflexivity.
Qed.

Lemma run_touched_sw (ops : list lookup_key) (s : state) :
  touched_by (omap sw_key ops) (sw_cache s) (sw_cache (run_lookups ops s)).
Proof.
  revert s. induction ops as [| op ops IH]; intros s; cbn; [constructor |].
  specialize (IH (snd (lookup op s))). rewrite lookup_touch_sw in IH.
  destruct (sw_key op); [eapply tb_touch; exact IH | exact IH].
Qed.

Lemma run_touched_cont (ops : list lookup_key) (s : state) :
  touched_by (omap cont_key ops) (cont_cache s) (cont_cache (run_lookups ops s)).
Proof.
  revert s. induction ops as [| op ops IH]; intros s; cbn; [constructor |].
  specialize (IH (snd (lookup op s))). rewrite lookup_touch_cont in IH.
  destruct (cont_key op); [eapply tb_touch; exact IH | exact IH].
Qed.

Lemma run_touched_intf (ops : list lookup_key) (s : state) :
  touched_by (omap intf_key ops) (intf_cache s) (intf_cache (run_lookups ops s)).
Proof.
  revert s. induction ops as [| op ops IH]; intros s; cbn; [constructor |].
  specialize (IH (snd (lookup op s))).
  pose proof (lookup_touch_intf op s) as Ht.
  destruct (intf_key op).
  - destruct Ht as [[v Hv] | [He _]].
    + rewrite Hv in IH. eapply tb_touch; exact IH.
    + rewrite He in IH. apply tb_skip. exact IH.
  - rewrite Ht in IH. exact IH.
Qed.

(** the entry of a key just looked up outlasts lookups that stay within
    the room of its cache *)
Lemma window_keeps_cached (k : lookup_key) (ops : list lookup_key) (s : state) (r : ref) :
  caches_inv s →
  fst (lookup k s) = Ok r →
  within_window k ops s →
  cached k (run_lookups ops (snd (lookup k s))) = Some r.
Proof.
  intros Hinv Hr Hwin.
  pose proof (lookup_ok_cached k s r Hr) as Hc.
  destruct Hinv as (Hic & His & Hii).
    destruct k as [p | p i | p]; cbn [cached within_window] in *.
    - pose proof (lookup_touch_sw (KSwitch p) s) as Ht. cbn [sw_key] in Ht.
      eapply (window_keeps p r _ _ _ ∅ (run_touched_sw ops _)).
      + rewrite Ht. apply touch_inv, His.
      + exact Hc.
      + rewrite Ht. rewrite touch_youngest; [intros x Hx; inversion Hx | exact His |].
        rewrite <- Ht, Hc. eauto.
      + set_solver.
      + rewrite Ht, touch_maxsize, union_empty_l_L. exact Hwin.
    - pose proof (lookup_touch_intf (KInterface p i) s) as Ht. cbn [intf_key] in Ht.
      destruct Ht as [[v Ht] | [_ Hn]]; [| exfalso; exact (Hn r Hr)].
      eapply (window_keeps (p, i) r _ _ _ ∅ (run_touched_intf ops _)).
      + rewrite Ht. apply touch_inv, Hii.
      + exact Hc.
      + rewrite Ht. rewrite touch_youngest; [intros x Hx; inversion Hx | exact Hii |].
        rewrite <- Ht, Hc. eauto.
      + set_solver.
      + rewrite Ht, touch_maxsize, union_empty_l_L. exact Hwin.
    - pose proof (lookup_touch_cont (KContainer p) s) as Ht. cbn [cont_key] in Ht.
      eapply (window_keeps p r _ _ _ ∅ (run_touched_cont ops _)).
      + rewrite Ht. apply touch_inv, Hic.
      + exact Hc.
      + rewrite Ht. rewrite touch_youngest; [intros x Hx; inversion Hx | exact Hic |].
        rewrite <- Ht, Hc. eauto.
      + set_solver.
      + rewrite Ht, touch_maxsize, union_empty_l_L. exact Hwin.
Qed.

(** X26: within the capacity window the entry is not evicted: after a lookup
    of [k], any lookups that bring fewer distinct other keys into the
    cache of [k] than it has room for leave the entry of [k] where it is,
    and the lookup repeated returns the identical object. *)
Lemma lookup_within_window (k : lookup_key) (ops : list lookup_key) (s : state) (r : ref) :
  caches_inv s →
  fst (lookup k s) = Ok r →
  within_window k ops s →
  cached k (run_lookups ops (snd (lookup k s))) = Some r ∧
  fst (lookup k (run_lookups ops (snd (lookup k s)))) = Ok r.
Proof.
  intros Hinv Hr Hwin.
  pose proof (window_keeps_cached k ops s r Hinv Hr Hwin) as Hkeep.
  split; [exact Hkeep |].
  apply lookup_hit; [| exact Hkeep].
  apply run_lookups_wf, lookup_wf, caches_inv_wf, Hinv.
Qed.

Lemma caches_inv_signed_in : caches_inv signed_in.
Proof. split_and!; apply lru_new_inv; cbn; lia. Qed.

(** The window is tight for the switch cache of capacity 20: nineteen
    other switches leave the first one cached, the twentieth evicts it
    (see [evicted_is_another_object]). *)
Example nineteen_others_keep :
  let s1 := snd (lookup (KSwitch "sw0") signed_in) in
  within_window (KSwitch "sw0") (take 19 (tail many_switches)) signed_in ∧
  fst (lookup (KSwitch "sw0") (run_lookups (take 19 (tail many_switches)) s1)) = Ok 0%nat.
Proof.
  split; [| vm_compute; reflexivity].
  cbn [within_window]. vm_compute. lia.
Qed.

(** [Client.__init__] leaves caches that satisfy the invariant, and every
    lookup keeps it. *)
Lemma Client_init_inv (tok : MachAuthToken) (ep : string) (s : state) :
  fst (Client_init tok ep s) = Ok tt → caches_inv (snd (Client_init tok ep s)).
Proof.
  unfold Client_init. mstep.
  destruct (get_cookie _) as [[c | e] s1]; [| discriminate].
  destruct c; try discriminate.
  intros _. split_and!; apply lru_new_inv; cbn; lia.
Qed.

Lemma lookup_inv (op : lookup_key) (s : state) :
  caches_inv s → caches_inv (snd (lookup op s)).
Proof.
  intros (Hc & Hs & Hi). split_and!.
  - rewrite lookup_touch_cont. destruct (cont_key op); [apply touch_inv |]; exact Hc.
  - rewrite lookup_touch_sw. destruct (sw_key op); [apply touch_inv |]; exact Hs.
  - pose proof (lookup_touch_intf op s) as Ht. destruct (intf_key op).
    + destruct Ht as [[v ->] | [-> _]]; [apply touch_inv |]; exact Hi.
    + rewrite Ht. exact Hi.
Qed.

Lemma omap_take_subseteq {A B} `{Countable B} (f : A → option B) (n : nat) (l : list A) :
  (list_to_set (omap f (take n l)) : gset B) ⊆ list_to_set (omap f l).
Proof.
  intros x. rewrite !elem_of_list_to_set, !list_elem_of_omap.
  intros (y & Hy & Hf). exists y. split; [| exact Hf].
  rewrite <- (take_drop n l). apply elem_of_app. left. exact Hy.
Qed.

Lemma within_window_take (k : lookup_key) (n : nat) (ops : list lookup_key) (s : state) :
  within_window k ops s → within_window k (take n ops) s.
Proof.
  destruct k as [p | p i | p]; cbn [within_window]; intros Hw;
    (eapply Nat.le_lt_trans; [| exact Hw]); apply subseteq_size;
    apply difference_mono_r, omap_take_subseteq.
Qed.

(** C1: a lookup (container, switch or interface) in a client whose
    caches are in order returns an object and keeps it: the entry of the
    key is that object, the same call made again at once returns the
    identical object, and so does the same call made after any sequence
    of other lookups, provided the entry has not been evicted meanwhile.
    It has not been evicted when it is there after each of the lookups
    in between, and that is so whenever those lookups bring fewer
    distinct other keys into the cache of the key than the cache has
    room for (50 containers, 20 switches, 100 interfaces). *)
Theorem lookup_identity (k : lookup_key) (ops : list lookup_key) (s : state) :
  caches_wf s →
  ∃ r, fst (lookup k s) = Ok r ∧
       let s1 := snd (lookup k s) in
       cached k s1 = Some r ∧
       fst (lookup k s1) = Ok r ∧
       ((∀ n, (1 ≤ n ≤ length ops)%nat →
              is_Some (cached k (run_lookups (take n ops) s1))) →
        fst (lookup k (run_lookups ops s1)) = Ok r) ∧
       (caches_inv s → within_window k ops s →
        (∀ n, (n ≤ length ops)%nat →
              cached k (run_lookups (take n ops) s1) = Some r) ∧
        fst (lookup k (run_lookups ops s1)) = Ok r).
Proof.
  intros Hwf. destruct (lookup_total k s Hwf) as (r & Hr). exists r.
  split; [exact Hr |]. intros s1.
  pose proof (lookup_ok_cached k s r Hr) as Hc. fold s1 in Hc.
  pose proof (lookup_wf k s Hwf) as Hwf1. fold s1 in Hwf1.
  split_and!.
  - exact Hc.
  - apply lookup_hit; assumption.
  - intros Hstay. apply lookup_hit.
    + apply run_lookups_wf, Hwf1.
    + apply run_lookups_keeps; [exact Hc |].
      intros [| n] Hn; [change (is_Some (cached k s1)); rewrite Hc; eauto |].
      apply Hstay. lia.
  - intros Hinv Hwin. split.
    + intros n Hn. apply (window_keeps_cached k (take n ops) s r Hinv Hr).
      apply within_window_take, Hwin.
    + apply lookup_hit; [apply run_lookups_wf, Hwf1 |].
      exact (window_keeps_cached k ops s r Hinv Hr Hwin).
Qed.

Lemma lookup_identity_witness :
  let k := KInterface "a.sw1" 3 in
  let s1 := snd (lookup k signed_in) in
  fst (lookup k signed_in) = Ok 1%nat ∧
  cached k s1 = Some 1%nat ∧
  fst (lookup k s1) = Ok 1%nat ∧
  cached k (run_lookups sample_ops s1) = Some 1%nat ∧
  fst (lookup k (run_lookups sample_ops s1)) = Ok 1%nat.
Proof.
  intros k s1.
  assert (Hwin : within_window k sample_ops signed_in).
  { cbn [within_window k]. vm_compute. lia. }
  destruct (lookup_identity k sample_ops signed_in caches_wf_signed_in)
    as (r & Hr & Hc & Hagain & _ & Hwindow).
  assert (E : r = 1%nat) by (vm_compute in Hr; congruence). subst r.
  destruct (Hwindow caches_inv_signed_in Hwin) as (Hall & Hlast).
  split_and!; [exact Hr | exact Hc | exact Hagain | exact (Hall 3%nat (le_n 3)) | exact Hlast].
Defined.

(* ===================================================================== *)
(** * Further properties of the package                                   *)
(* ===================================================================== *)

(** ** swarm/utils.py: TimedValue *)

(** X1: a [TimedValue] built from a source dictionary reads back
    [src['value']] and [int(src['time'])], whatever [value] and [time]
    were passed beside it, [None] included; without a source (a falsy
    one) it keeps the [value] passed and [int(time)]; and without either
    a source or a time the constructor raises [TypeError]. *)
Theorem TimedValue_roundtrip (value time : pyval) :
  (∀ d v tm t,
     dict_get d "value" = Some v → dict_get d "time" = Some tm → py_int tm = Ok t →
     TimedValue_init value time (PDict d) = Ok (mkTimed v t)) ∧
  (∀ src t,
     truthy src = false → py_int time = Ok t →
     TimedValue_init value time src = Ok (mkTimed value t)) ∧
  (∀ src,
     truthy src = false →
     TimedValue_init value PNone src
     = Raise (TypeError "int() argument must be a string or a number")).
Proof.
  split_and!.
  - intros d v tm t Hv Htm Ht.
    apply (TimedValue_of_src value time (PDict d) v tm t); [| | exact Ht];
      cbn [getitem]; [rewrite Hv | rewrite Htm]; reflexivity.
  - intros src t Hs Ht. unfold TimedValue_init. rewrite Hs, Ht. reflexivity.
  - intros src Hs. unfold TimedValue_init. rewrite Hs. reflexivity.
Qed.

Lemma TimedValue_roundtrip_witness :
  TimedValue_init PNone PNone
    (PDict [("value", PStr "up"); ("time", PStr "1600000000")])
  = Ok (mkTimed (PStr "up") 1600000000) ∧
  TimedValue_init (PInt 5) (PInt 0) PNone = Ok (mkTimed (PInt 5) 0) ∧
  TimedValue_init (PInt 5) PNone (PDict [])
  = Raise (TypeError "int() argument must be a string or a number").
Proof.
  destruct (TimedValue_roundtrip PNone PNone) as (H1 & _).
  destruct (TimedValue_roundtrip (PInt 5) (PInt 0)) as (_ & H2 & H3).
  split_and!.
  - exact (H1 [("value", PStr "up"); ("time", PStr "1600000000")] (PStr "up")
             (PStr "1600000000") 1600000000 eq_refl eq_refl eq_refl).
  - exact (H2 PNone 0 eq_refl eq_refl).
  - exact (H3 (PDict []) eq_refl).
Defined.

(** ** swarm/client.py: the correlation ids of streamed requests *)

Lemma sorted_snoc (l : list Z) (c : Z) :
  StronglySorted Z.lt l → Forall (λ x, x < c) l → StronglySorted Z.lt (l ++ [c]).
Proof.
  induction 1 as [| x l Hs IH Hx]; intros Hc; cbn.
  - repeat constructor.
  - apply Forall_cons in Hc. destruct Hc as [Hxc Hc].
    constructor; [auto |]. apply Forall_app. split; [exact Hx |].
    constructor; [exact Hxc | constructor].
Qed.

Lemma sorted_NoDup (l : list Z) : StronglySorted Z.lt l → NoDup l.
Proof.
  induction 1 as [| x l Hs IH Hx]; constructor; [| exact IH].
  intros Hin. rewrite Forall_forall in Hx. specialize (Hx x Hin). lia.
Qed.

(** what one step of a [_ws_request] generator sends *)
Lemma ws_next_sent (g : ws_gen) (s : state) :
  let s' := snd (ws_next g s) in
  match g with
  | WsFresh m a =>
      ws_out s' = ws_out s ++ [request_frame (ws_cookie s) m a] ∧
      ws_cookie s' = ws_cookie s + 1
  | _ => ws_out s' = ws_out s ∧ ws_cookie s' = ws_cookie s
  end.
Proof.
  destruct g; cbn; try (split; reflexivity);
    destruct (recv_loop _ _) as [[r g'] rest]; split; reflexivity.
Qed.

Lemma cookies_fresh_step (s s' : state) :
  cookies_fresh s →
  (ws_out s' = ws_out s ∧ ws_cookie s' = ws_cookie s) ∨
  (∃ m a, ws_out s' = ws_out s ++ [request_frame (ws_cookie s) m a] ∧
          ws_cookie s' = ws_cookie s + 1) →
  cookies_fresh s'.
Proof.
  unfold cookies_fresh, sent_cookies.
  intros (Hl & Hs & Hb) [[-> ->] | (m & a & -> & ->)]; [auto |].
  rewrite omap_app. cbn. rewrite !length_app, Hl. split_and!; [reflexivity | |].
  - apply sorted_snoc; assumption.
  - apply Forall_app. split.
    + eapply Forall_impl; [exact Hb |]. cbn. intros; lia.
    + constructor; [lia | constructor].
Qed.

Lemma ws_next_fresh (g : ws_gen) (s : state) :
  cookies_fresh s → cookies_fresh (snd (ws_next g s)).
Proof.
  intros Hf. apply (cookies_fresh_step s _ Hf).
  pose proof (ws_next_sent g s) as H. destruct g; eauto.
Qed.

Lemma write_on_frame_socket (x : pyval) (s : state) :
  ws_out (snd (write_on_frame x s)) = ws_out s ∧
  ws_cookie (snd (write_on_frame x s)) = ws_cookie s ∧
  http_log (snd (write_on_frame x s)) = http_log s ∧
  heap (snd (write_on_frame x s)) = heap s.
Proof.
  unfold write_on_frame. mstep.
  destruct (getitem x "type") as [t |]; cbn; [| auto].
  destruct (eq_str t "reply"); cbn; [| auto].
  destruct (getitem x "status") as [st |]; cbn; [| auto].
  destruct (eq_str st "ok"); cbn; auto.
Qed.

(** what one step of a [write] generator sends: nothing, or one request *)
Lemma write_next_sent (w : write_gen) (s : state) :
  let s' := snd (write_next w s) in
  (ws_out s' = ws_out s ∧ ws_cookie s' = ws_cookie s) ∨
  (∃ m a, ws_out s' = ws_out s ++ [request_frame (ws_cookie s) m a] ∧
          ws_cookie s' = ws_cookie s + 1).
Proof.
  assert (Hloop : ∀ g,
    let s' := snd (write_loop g s) in
    (ws_out s' = ws_out s ∧ ws_cookie s' = ws_cookie s) ∨
    (∃ m a, ws_out s' = ws_out s ++ [request_frame (ws_cookie s) m a] ∧
            ws_cookie s' = ws_cookie s + 1)).
  { intros g. pose proof (ws_next_sent g s) as H. unfold write_loop.
    destruct (ws_next g s) as [[r g'] s0]. cbn in H.
    assert (H0 : (ws_out s0 = ws_out s ∧ ws_cookie s0 = ws_cookie s) ∨
                 (∃ m a, ws_out s0 = ws_out s ++ [request_frame (ws_cookie s) m a] ∧
                         ws_cookie s0 = ws_cookie s + 1))
      by (destruct g; eauto).
    destruct r as [x | | e |]; try exact H0.
    pose proof (write_on_frame_socket x s0) as (Ho & Hc & _).
    destruct (write_on_frame x s0) as [[p | e] s1]; cbn in *; rewrite Ho, Hc; exact H0. }
  destruct w as [commit | | g |]; cbn; auto.
  destruct (length (writespecs s) =? 0)%nat; [auto | apply Hloop].
Qed.

(** X2: correlation ids are never reused.  Whatever has been sent so far
    under increasing ids below the counter, a step of a [_ws_request]
    generator, a step of a [write] generator and a reading of [stats]
    keep it so; a new request is sent under the current value of the
    counter, which no earlier request carries. *)
Theorem correlation_ids_never_reused (s : state) :
  cookies_fresh s →
  (∀ g, cookies_fresh (snd (ws_next g s))) ∧
  (∀ w, cookies_fresh (snd (write_next w s))) ∧
  cookies_fresh (snd (Client_stats s)) ∧
  (∀ m a, sent_cookies (snd (ws_next (WsFresh m a) s)) = sent_cookies s ++ [ws_cookie s]) ∧
  (ws_cookie s ∉ sent_cookies s) ∧
  NoDup (sent_cookies s).
Proof.
  intros Hf. split_and!.
  - intros g. apply ws_next_fresh, Hf.
  - intros w. apply (cookies_fresh_step s _ Hf), write_next_sent.
  - pose proof (ws_next_fresh (WsFresh "get_stats" (PList [])) s Hf) as H.
    unfold Client_stats. destruct (ws_next _ s) as [[r g'] s0]. cbn in H.
    destruct r; exact H.
  - intros m a. pose proof (ws_next_sent (WsFresh m a) s) as [Ho _].
    unfold sent_cookies. rewrite Ho, omap_app. reflexivity.
  - destruct Hf as (_ & _ & Hb). intros Hin.
    rewrite Forall_forall in Hb. specialize (Hb _ Hin). lia.
  - destruct Hf as (_ & Hs & _). apply sorted_NoDup, Hs.
Qed.

Lemma cookies_fresh_signed_in : cookies_fresh signed_in.
Proof. split_and!; [reflexivity | constructor | constructor]. Qed.

Lemma correlation_ids_never_reused_witness :
  cookies_fresh signed_in ∧
  cookies_fresh (snd (write_next (Client_write (PBool true)) two_queued)) ∧
  sent_cookies (snd (ws_next (WsFresh "get_stats" (PList [])) signed_in)) = [1].
Proof.
  split; [exact cookies_fresh_signed_in |].
  assert (Hq : cookies_fresh two_queued) by exact cookies_fresh_signed_in.
  destruct (correlation_ids_never_reused two_queued Hq) as (_ & Hw & _).
  destruct (correlation_ids_never_reused signed_in cookies_fresh_signed_in)
    as (_ & _ & _ & Hs & _).
  split; [apply Hw | apply Hs].
Defined.

(** ** swarm/client.py: protocol violations and the first request *)

Lemma on_frame_mismatch (cookie : Z) (x c : pyval) :
  getitem x "cookie" = Ok c → eq_int c cookie = false →
  on_frame cookie (WsJson x) = FRaise (Exception_ (PStr "Cookie mismatch")).
Proof. intros Hc Hm. unfold on_frame. rewrite Hc, Hm. reflexivity. Qed.

(** X3: a frame that carries another correlation id than the pending
    request is a protocol violation: [write] raises
    Exception('Cookie mismatch') and is finished, the frame is consumed,
    and the queue stays as it was. *)
Theorem cookie_mismatch_is_fatal
  (w : write_gen) (s : state) (cookie : Z) (pre rest : list ws_data) (x c : pyval) :
  awaiting s w cookie →
  writespecs s ≠ [] →
  ws_in s = pre ++ WsJson x :: rest →
  Forall (ignored cookie) pre →
  getitem x "cookie" = Ok c →
  eq_int c cookie = false →
  let '(r, w', s') := write_next w s in
  r = Throw (Exception_ (PStr "Cookie mismatch")) ∧
  w' = WrDone ∧
  write_next w' s' = (Stop, WrDone, s') ∧
  writespecs s' = writespecs s ∧
  ws_in s' = rest.
Proof.
  intros Ha Hq Hin Hpre Hc Hm.
  destruct (write_next_frame w s cookie pre rest x Ha Hq Hin Hpre) as (s0 & Hq0 & Hrun).
  rewrite Hrun, (on_frame_mismatch cookie x c Hc Hm).
  split_and!; auto.
Qed.

Lemma cookie_mismatch_is_fatal_witness :
  let s := deliver [WsEmpty; WsJson stray_frame; WsJson ok_frame] two_queued in
  (awaiting s (Client_write (PBool true)) 1 ∧ writespecs s ≠ [] ∧
   getitem stray_frame "cookie" = Ok (PInt 7) ∧ eq_int (PInt 7) 1 = false) ∧
  let '(r, w', s') := write_next (Client_write (PBool true)) s in
  r = Throw (Exception_ (PStr "Cookie mismatch")) ∧
  w' = WrDone ∧
  write_next w' s' = (Stop, WrDone, s') ∧
  writespecs s' = writespecs s ∧
  ws_in s' = [WsJson ok_frame].
Proof.
  intros s.
  assert (Ha : awaiting s (Client_write (PBool true)) 1) by exact (aw_fresh s (PBool true)).
  assert (Hq : writespecs s ≠ []) by discriminate.
  assert (Hpre : Forall (ignored 1) [WsEmpty]) by (constructor; [reflexivity | constructor]).
  split; [split_and!; auto |].
  exact (cookie_mismatch_is_fatal (Client_write (PBool true)) s 1 [WsEmpty]
           [WsJson ok_frame] stray_frame (PInt 7) Ha Hq eq_refl Hpre eq_refl eq_refl).
Defined.

(** X4: [stats] sends one [get_stats] request without arguments under
    the current id and no HTTP request; when the next frame of that
    request (after ignored ones) is the ok reply, it returns the [data]
    entry of the reply, and when it is an error reply it raises the
    reason. *)
Theorem stats_returns_data (s : state) (pre rest : list ws_data) (x : pyval) :
  ws_in s = pre ++ WsJson x :: rest →
  Forall (ignored (ws_cookie s)) pre →
  frame_cookie x (ws_cookie s) →
  frame_type x "reply" →
  frame_status x "ok" ∨ frame_status x "error" →
  let '(r, s') := Client_stats s in
  ws_out s' = ws_out s ++ [request_frame (ws_cookie s) "get_stats" (PList [])] ∧
  http_log s' = http_log s ∧
  ws_in s' = rest ∧
  (frame_status x "ok" →
   r = match getitem x "data" with Ok d => Yield d | Raise e => Throw e end) ∧
  (frame_status x "error" → r = Throw (error_of x)).
Proof.
  intros Hin Hpre Hc Ht Hst. unfold Client_stats. cbn [ws_next].
  change (ws_in (set_ws_out _ (set_ws_cookie _ s))) with (ws_in s).
  rewrite Hin, (recv_loop_ignored _ pre _ Hpre). cbn [recv_loop].
  destruct Hst as [Hs | Hs].
  - rewrite (on_frame_ok _ _ Hc Ht Hs). split_and!; auto.
    intros (st & Hst & He). destruct Hs as (st' & Hst' & Ho).
    apply eq_str_eq in He, Ho. congruence.
  - rewrite (on_frame_error _ _ Hc Ht Hs). split_and!; auto.
    intros (st & Hst & Ho). destruct Hs as (st' & Hst' & He).
    apply eq_str_eq in He, Ho. congruence.
Qed.

Lemma stats_returns_data_witness :
  let s := deliver [WsEmpty; WsJson stats_frame] signed_in in
  (frame_cookie stats_frame (ws_cookie s) ∧ frame_type stats_frame "reply" ∧
   frame_status stats_frame "ok") ∧
  let '(r, s') := Client_stats s in
  ws_out s' = [request_frame 1 "get_stats" (PList [])] ∧
  http_log s' = http_log s ∧
  r = Yield (PDict [("uptime", PStr "3 days"); ("switches", PInt 12);
                    ("interfaces", PInt 480)]).
Proof.
  intros s.
  assert (Hc : frame_cookie stats_frame (ws_cookie s))
    by (exists (PInt 1); split; reflexivity).
  assert (Ht : frame_type stats_frame "reply")
    by (exists (PStr "reply"); split; reflexivity).
  assert (Hs : frame_status stats_frame "ok")
    by (exists (PStr "ok"); split; reflexivity).
  assert (Hpre : Forall (ignored (ws_cookie s)) [WsEmpty])
    by (constructor; [reflexivity | constructor]).
  split; [split_and!; assumption |].
  pose proof (stats_returns_data s [WsEmpty] [] stats_frame eq_refl Hpre Hc Ht
                (or_introl Hs)) as H.
  destruct (Client_stats s) as [r s'].
  destruct H as (Ho & Hl & _ & Hok & _). split_and!; [exact Ho | exact Hl |].
  exact (Hok Hs).
Defined.

(** ** swarm/client.py: what write() sends, and retrying *)

Lemma ws_next_quiet (g : ws_gen) (s : state) :
  http_log (snd (ws_next g s)) = http_log s ∧
  heap (snd (ws_next g s)) = heap s ∧
  writespecs (snd (ws_next g s)) = writespecs s.
Proof.
  destruct g; cbn; auto; destruct (recv_loop _ _) as [[r g'] rest]; auto.
Qed.

Lemma write_next_quiet (w : write_gen) (s : state) :
  http_log (snd (write_next w s)) = http_log s ∧
  heap (snd (write_next w s)) = heap s.
Proof.
  assert (Hloop : ∀ g, http_log (snd (write_loop g s)) = http_log s ∧
                       heap (snd (write_loop g s)) = heap s).
  { intros g. pose proof (ws_next_quiet g s) as (Hl & Hh & _). unfold write_loop.
    destruct (ws_next g s) as [[r g'] s0]. cbn in Hl, Hh.
    destruct r as [x | | e |]; auto.
    pose proof (write_on_frame_socket x s0) as (_ & _ & Hl' & Hh').
    destruct (write_on_frame x s0) as [[p | e] s1]; cbn in *; split; congruence. }
  destruct w as [commit | | g |]; cbn; auto.
  destruct (length (writespecs s) =? 0)%nat; [auto | apply Hloop].
Qed.

Lemma write_first_frame (commit : pyval) (s : state) :
  writespecs s ≠ [] →
  ws_out (snd (write_next (Client_write commit) s))
  = ws_out s ++
    [request_frame (ws_cookie s) "write" (PList [PList (writespecs s); commit])].
Proof.
  intros Hq. unfold Client_write. cbn [write_next].
  destruct (writespecs s) as [| q qs] eqn:Eq; [contradiction |]. cbn [length Nat.eqb].
  cbv beta iota. unfold write_loop.
  pose proof (ws_next_sent (WsFresh "write" (PList [PList (q :: qs); commit])) s) as [Ho _].
  destruct (ws_next _ s) as [[r g'] s0]. cbn [snd] in Ho.
  destruct r as [x | | e |]; try exact Ho.
  pose proof (write_on_frame_socket x s0) as (Ho' & _).
  destruct (write_on_frame x s0) as [[p | e] s1]; cbn in *; congruence.
Qed.

(** X5: on a non-empty queue the first step of [write] sends exactly one
    frame: the method "write" with the whole queue, in order, and the
    commit flag, under the current correlation id; a generator that is
    already running sends nothing more; and no step of [write] issues an
    HTTP request or touches an object. *)
Theorem write_sends_whole_queue (commit : pyval) (s : state) :
  writespecs s ≠ [] →
  ws_out (snd (write_next (Client_write commit) s))
  = ws_out s ++
    [request_frame (ws_cookie s) "write" (PList [PList (writespecs s); commit])] ∧
  (∀ g st, (∀ m a, g ≠ WsFresh m a) →
           ws_out (snd (write_next (WrLoop g) st)) = ws_out st) ∧
  (∀ w st, http_log (snd (write_next w st)) = http_log st ∧
           heap (snd (write_next w st)) = heap st).
Proof.
  intros Hq. split_and!.
  - apply write_first_frame, Hq.
  - intros g st Hg. cbn [write_next]. unfold write_loop.
    pose proof (ws_next_sent g st) as H.
    destruct (ws_next g st) as [[r g'] s0]. cbn [snd] in H.
    assert (Ho : ws_out s0 = ws_out st).
    { destruct g; try (destruct H as [H _]; exact H). exfalso. eapply Hg. reflexivity. }
    destruct r as [x | | e |]; try exact Ho.
    pose proof (write_on_frame_socket x s0) as (Ho' & _).
    destruct (write_on_frame x s0) as [[p | e] s1]; cbn in *; congruence.
  - intros w st. apply write_next_quiet.
Qed.

Lemma write_sends_whole_queue_witness :
  writespecs two_queued ≠ [] ∧
  ws_out (snd (write_next (Client_write (PBool false)) two_queued))
  = [request_frame 1 "write"
       (PList [PList [writespec "a.sw1" "vlan" 3 (PInt 20);
                      writespec "a.sw1" "alias" 4 (PStr "uplink")];
               PBool false])].
Proof.
  assert (Hq : writespecs two_queued ≠ []) by discriminate.
  split; [exact Hq |].
  destruct (write_sends_whole_queue (PBool false) two_queued Hq) as (H & _).
  exact H.
Defined.

(** X6: after an error reply the caller may retry: a second [write]
    sends the same queue again, under the next correlation id. *)
Theorem write_retry_after_error
  (commit commit' : pyval) (s : state) (pre rest : list ws_data) (x : pyval) :
  writespecs s ≠ [] →
  ws_in s = pre ++ WsJson x :: rest →
  Forall (ignored (ws_cookie s)) pre →
  frame_cookie x (ws_cookie s) →
  frame_type x "reply" →
  frame_status x "error" →
  let '(r1, w1, s1) := write_next (Client_write commit) s in
  let s2 := snd (write_next (Client_write commit') s1) in
  r1 = Throw (error_of x) ∧
  writespecs s1 = writespecs s ∧
  ws_out s2
  = ws_out s ++
    [request_frame (ws_cookie s) "write" (PList [PList (writespecs s); commit]);
     request_frame (ws_cookie s + 1) "write" (PList [PList (writespecs s); commit'])].
Proof.
  intros Hq Hin Hpre Hc Ht Hs.
  destruct (write_next_error (Client_write commit) s (ws_cookie s) pre rest x
              (aw_fresh s commit) Hq Hin Hpre Hc Ht Hs) as (s0 & Hq0 & Hrun).
  pose proof (write_first_frame commit s Hq) as Hsent.
  pose proof (write_next_sent (Client_write commit) s) as Hcnt.
  rewrite Hrun in *. cbn [snd] in *.
  assert (Hq1 : writespecs (set_ws_in rest s0) ≠ []) by (cbn; congruence).
  pose proof (write_first_frame commit' _ Hq1) as Hsent'.
  split_and!; [reflexivity | exact Hq0 |].
  rewrite Hsent', Hsent. cbn [writespecs set_ws_in]. rewrite Hq0, <- app_assoc. cbn.
  do 3 f_equal.
  destruct Hcnt as [[Ho _] | (m & a & _ & Hk)].
  - rewrite Hsent in Ho. apply (f_equal length) in Ho. rewrite length_app in Ho.
    cbn in Ho. lia.
  - cbn in Hk. rewrite Hk. reflexivity.
Qed.

Lemma write_retry_after_error_witness :
  let s := deliver [WsJson error_frame] two_queued in
  (writespecs s ≠ [] ∧ frame_cookie error_frame (ws_cookie s) ∧
   frame_type error_frame "reply" ∧ frame_status error_frame "error") ∧
  let '(r1, w1, s1) := write_next (Client_write (PBool true)) s in
  let s2 := snd (write_next (Client_write (PBool true)) s1) in
  r1 = Throw (Exception_ (PStr "switch unreachable")) ∧
  writespecs s1 = writespecs s ∧
  ws_out s2
  = [request_frame 1 "write" (PList [PList (writespecs s); PBool true]);
     request_frame 2 "write" (PList [PList (writespecs s); PBool true])].
Proof.
  intros s.
  assert (Hq : writespecs s ≠ []) by discriminate.
  assert (Hc : frame_cookie error_frame (ws_cookie s))
    by (exists (PInt 1); split; reflexivity).
  assert (Ht : frame_type error_frame "reply")
    by (exists (PStr "reply"); split; reflexivity).
  assert (Hs : frame_status error_frame "error")
    by (exists (PStr "error"); split; reflexivity).
  split; [split_and!; assumption |].
  exact (write_retry_after_error (PBool true) (PBool true) s [] [] error_frame
           Hq eq_refl (Forall_nil_2 _) Hc Ht Hs).
Defined.

(** ** swarm/client.py and swarm/objects.py: the queue of changes *)

Lemma Interface_set_queues (s : state) (x : intf_attr * ref * pyval) (w : pyval) :
  intf_attr_writable x.1.1 = true →
  spec_of s x = Some w →
  Interface_set x.1.1 x.1.2 x.2 s = (Ok x.2, set_writespecs (writespecs s ++ [w]) s).
Proof.
  intros Hw Hs. unfold spec_of in Hs. unfold Interface_set, Interface_setprop.
  rewrite Hw. mstep.
  destruct (heap s !! x.1.2) as [[] |] eqn:Eh; try discriminate.
  injection Hs as <-. reflexivity.
Qed.

(** X7: [dirty] follows the queue from an assignment to the end of the
    write.  After an assignment to a writable attribute the client is
    dirty; a partial reply of the write leaves it dirty; the ok reply
    leaves it clean. *)
Theorem dirty_until_written
  (a : intf_attr) (self : ref) (i : Interface) (val commit : pyval) (s : state)
  (pre rest : list ws_data) (x : pyval) :
  heap s !! self = Some (OInterface i) →
  intf_attr_writable a = true →
  let s1 := snd (Interface_set a self val s) in
  ws_in s1 = pre ++ WsJson x :: rest →
  Forall (ignored (ws_cookie s1)) pre →
  frame_cookie x (ws_cookie s1) →
  dirty s1 = true ∧
  (frame_type x "partial_reply" →
   dirty (snd (write_next (Client_write commit) s1)) = true) ∧
  (frame_type x "reply" → frame_status x "ok" →
   dirty (snd (write_next (Client_write commit) s1)) = false).
Proof.
  intros Hi Hw s1 Hin Hpre Hc.
  assert (Hs1 : writespecs s1
                = writespecs s ++ [writespec (if_path i) (intf_attr_key a) (if_index i) val]).
  { assert (Hsp : spec_of s (a, self, val)
                  = Some (writespec (if_path i) (intf_attr_key a) (if_index i) val)).
    { unfold spec_of. cbn [fst snd]. rewrite Hi. reflexivity. }
    pose proof (Interface_set_queues s (a, self, val) _ Hw Hsp) as Hset.
    cbn [fst snd] in Hset. unfold s1. rewrite Hset. reflexivity. }
  assert (Hq : writespecs s1 ≠ []).
  { rewrite Hs1. intros E. apply app_eq_nil in E as [_ E]. discriminate. }
  split_and!.
  - unfold dirty. destruct (writespecs s1); [contradiction | reflexivity].
  - intros Ht.
    destruct (write_next_partial (Client_write commit) s1 (ws_cookie s1) pre rest x
                (aw_fresh s1 commit) Hq Hin Hpre Hc Ht) as (s0 & Hq0 & ->).
    unfold dirty. cbn [snd writespecs set_ws_in]. rewrite Hq0.
    destruct (writespecs s1); [contradiction | reflexivity].
  - intros Ht Hs.
    destruct (write_next_ok (Client_write commit) s1 (ws_cookie s1) pre rest x
                (aw_fresh s1 commit) Hq Hin Hpre Hc Ht Hs) as (s0 & ->).
    reflexivity.
Qed.

Lemma dirty_until_written_witness :
  let s := deliver [WsEmpty; WsJson ok_frame] with_vlan10 in
  let s1 := snd (Interface_set vlan 0%nat (PInt 20) s) in
  dirty s = false ∧ dirty s1 = true ∧
  dirty (snd (write_next (Client_write (PBool true)) s1)) = false.
Proof.
  intros s s1.
  assert (Hpre : Forall (ignored (ws_cookie s1)) [WsEmpty])
    by (constructor; [reflexivity | constructor]).
  assert (Hc : frame_cookie ok_frame (ws_cookie s1))
    by (exists (PInt 1); split; reflexivity).
  assert (Ht : frame_type ok_frame "reply")
    by (exists (PStr "reply"); split; reflexivity).
  assert (Hs : frame_status ok_frame "ok")
    by (exists (PStr "ok"); split; reflexivity).
  destruct (dirty_until_written vlan 0%nat (mkInterface "a.sw1" 3 vlan10_blob)
              (PInt 20) (PBool true) s [WsEmpty] [] ok_frame
              eq_refl eq_refl eq_refl Hpre Hc) as (H1 & _ & H2).
  split_and!; [reflexivity | exact H1 | exact (H2 Ht Hs)].
Defined.




(** ** swarm/client.py: the HTTP helpers *)

Lemma http_exchange_after (rq : http_request) (s : state) :
  http_exchange rq s = (next_response s, after_request rq s).
Proof.
  unfold http_exchange, next_response, after_request.
  destruct (http_in s); reflexivity.
Qed.

Lemma Client_get_signed (path : string) (s : state) :
  has_cookie s →
  Client_get path s
  = (next_response s, after_request (api_request GET path NoBody None s) s).
Proof.
  intros Ht. unfold Client_get, api_url, bind at 1.
  rewrite (get_cookie_memoized s Ht). apply http_exchange_after.
Qed.

Lemma Client_delete_signed (path : string) (s : state) :
  has_cookie s →
  Client_delete path s
  = (next_response s, after_request (api_request DELETE path NoBody None s) s).
Proof.
  intros Ht. unfold Client_delete, api_url, bind at 1.
  rewrite (get_cookie_memoized s Ht). apply http_exchange_after.
Qed.

Lemma Client_post_after (path : string) (data : http_body) (ctype : option string)
    (s : state) :
  has_cookie s →
  Client_post path data ctype s
  = (next_response s,
     after_request (api_request POST path data (ctype_header ctype) s) s).
Proof.
  intros Ht. unfold Client_post, api_url, bind at 1.
  rewrite (get_cookie_memoized s Ht). apply http_exchange_after.
Qed.

(** X9: once the token holds a cookie, each of [_get], [_post] and
    [_delete] sends exactly one request, to "https://<endpoint>/api<path>"
    with that cookie, and hands back what the transport answers; none of
    them contacts the authentication service, changes the token or
    touches an object.  [_post] sets a Content-Type only for a non-empty
    [ctype]. *)
Theorem helpers_send_one_request
  (path : string) (data : http_body) (ctype : option string) (s : state) :
  has_cookie s →
  let sent (m : http_method) (body : http_body) (h : option string)
           (run : result http_response * state) :=
    fst run = next_response s ∧
    http_log (snd run)
    = http_log s ++
      [mkRequest m ("https://" +:+ endpoint s +:+ "/api" +:+ path)
         (Some (tok_cookie (auth s))) body h] ∧
    http_in (snd run) = tail (http_in s) ∧
    auth (snd run) = auth s ∧ heap (snd run) = heap s ∧
    ws_out (snd run) = ws_out s in
  sent GET NoBody None (Client_get path s) ∧
  sent DELETE NoBody None (Client_delete path s) ∧
  sent POST data (ctype_header ctype) (Client_post path data ctype s) ∧
  ctype_header (Some "") = None ∧ ctype_header None = None.
Proof.
  intros Ht sent. unfold sent.
  rewrite (Client_get_signed path s Ht), (Client_delete_signed path s Ht),
    (Client_post_after path data ctype s Ht).
  cbn [fst snd]. unfold after_request, api_request. cbn.
  split_and!; reflexivity.
Qed.

Lemma helpers_send_one_request_witness :
  let s := respond [ok_json (PDict [])] signed_in in
  let run := Client_post "/switches/a.sw1" (FormData [("acl", PStr "x")]) (Some "") s in
  has_cookie s ∧
  fst run = Ok (ok_json (PDict [])) ∧
  http_log (snd run)
  = [mkRequest POST "https://swarm.example.org/api/switches/a.sw1"
       (Some (PStr "abc123")) (FormData [("acl", PStr "x")]) None] ∧
  http_in (snd run) = [] ∧ auth (snd run) = auth s ∧ heap (snd run) = heap s ∧
  ws_out (snd run) = ws_out s.
Proof.
  intros s run.
  assert (Ht : has_cookie s) by reflexivity.
  split; [exact Ht |].
  destruct (helpers_send_one_request "/switches/a.sw1"
              (FormData [("acl", PStr "x")]) (Some "") s Ht) as (_ & _ & H & _).
  exact H.
Defined.

(** ** swarm/objects.py: the blob of an interface *)

(** X10: the blob of an interface is fetched on first use with one GET
    of "/interfaces/<path>/<index>".  A 200 answer is kept and returned,
    and unless it is [None] the next call returns it without a request;
    a body that is not JSON raises from [json()]; and on any other
    status the [raise APIException(...)] of the code raises [NameError],
    the name not being imported in objects.py.  Both failures leave the
    interface without a blob, so that the next call asks again. *)
Theorem getblob_fetches_once
  (self : ref) (i : Interface) (s : state) (r : http_response)
  (rest : list http_response) :
  heap s !! self = Some (OInterface i) →
  if_blob i = PNone →
  has_cookie s →
  http_in s = r :: rest →
  let run := Interface_getblob self s in
  http_log (snd run) = http_log s ++ [api_request GET (intf_url i) NoBody None s] ∧
  http_in (snd run) = rest ∧
  (∀ b, status_code r = 200 → json r = Some b →
        fst run = Ok b ∧
        heap (snd run)
        = <[self := OInterface (mkInterface (if_path i) (if_index i) b)]> (heap s) ∧
        (b ≠ PNone → Interface_getblob self (snd run) = (Ok b, snd run))) ∧
  (status_code r = 200 → json r = None →
   fst run = Raise JSONDecodeError ∧ heap (snd run) = heap s) ∧
  (status_code r ≠ 200 →
   fst run = Raise (NameError "APIException") ∧ heap (snd run) = heap s).
Proof.
  intros Hi Hb Ht Hin run.
  assert (Hrun : run
    = let s1 := after_request (api_request GET (intf_url i) NoBody None s) s in
      if status_code r =? 200 then
        match json r with
        | Some b => (Ok b, set_heap (<[self := OInterface (mkInterface (if_path i)
                                          (if_index i) b)]> (heap s1)) (next_ref s1) s1)
        | None => (Raise JSONDecodeError, s1)
        end
      else (Raise (NameError "APIException"), s1)).
  { unfold run, Interface_getblob. unfold bind at 1. unfold load_interface at 1.
    rewrite Hi, Hb. unfold bind at 1. rewrite (Client_get_signed _ s Ht).
    unfold next_response. rewrite Hin. cbv beta iota zeta.
    destruct (status_code r =? 200); [| reflexivity].
    unfold response_json. destruct (json r); reflexivity. }
  rewrite Hrun. cbv zeta.
  split_and!.
  - destruct (status_code r =? 200); [destruct (json r) |]; reflexivity.
  - destruct (status_code r =? 200); [destruct (json r) |]; cbn; rewrite Hin;
      reflexivity.
  - intros b H200 Hj. rewrite H200, Hj. cbn [fst snd Z.eqb Pos.eqb].
    split_and!; [reflexivity | reflexivity |].
    intros Hne. unfold Interface_getblob. unfold bind at 1. unfold load_interface.
    cbn [heap set_heap]. rewrite lookup_insert_eq. cbn [if_blob].
    destruct b; try reflexivity. contradiction.
  - intros H200 Hj. rewrite H200, Hj. split; reflexivity.
  - intros Hn. apply Z.eqb_neq in Hn. rewrite Hn. split; reflexivity.
Qed.

Lemma getblob_fetches_once_witness :
  let run := Interface_getblob 1%nat first_read in
  fst run = Ok vlan10_blob ∧
  http_log (snd run)
  = [mkRequest GET "https://swarm.example.org/api/interfaces/a.sw1/3"
       (Some (PStr "abc123")) NoBody None] ∧
  Interface_getblob 1%nat (snd run) = (Ok vlan10_blob, snd run).
Proof.
  intros run.
  assert (Ht : has_cookie first_read) by reflexivity.
  assert (Hne : vlan10_blob ≠ PNone) by discriminate.
  destruct (getblob_fetches_once 1%nat (mkInterface "a.sw1" 3 PNone) first_read
              (ok_json vlan10_blob) [] eq_refl eq_refl Ht eq_refl)
    as (Hlog & _ & Hok & _).
  destruct (Hok vlan10_blob eq_refl eq_refl) as (Hr & _ & Hmemo).
  split_and!; [exact Hr | exact Hlog | exact (Hmemo Hne)].
Defined.

(** ** swarm/objects.py: neighbours *)

Lemma for_each_Forall2 {A B} (R : A → B → Prop) (f : A → M B) (s : state)
    (l : list A) (l' : list B) :
  (∀ x y, R x y → f x s = (Ok y, s)) →
  Forall2 R l l' → for_each f l s = (Ok l', s).
Proof.
  intros Hf H. induction H as [| x y l l' Hxy _ IH]; [reflexivity |].
  cbn [for_each]. unfold bind at 1. rewrite (Hf x y Hxy).
  unfold bind at 1. rewrite IH. reflexivity.
Qed.

(** X11: the neighbours of an interface that has its blob are the MAC
    neighbours, one per entry of [macs] in the answer to one GET of
    ".../macs" and in that order, followed by the CDP neighbours, one per
    entry of [neighbours] in the blob and in that order.  Each carries
    the client, the path and the index of the interface, and its own
    time stamp.  No object is changed. *)
Theorem neighbours_in_order
  (self : ref) (i : Interface) (s : state) (r : http_response)
  (rest : list http_response) (j : pyval) (ms ns : list pyval)
  (macs cdps : list neighbour) :
  heap s !! self = Some (OInterface i) →
  if_blob i ≠ PNone →
  has_cookie s →
  http_in s = r :: rest →
  status_code r = 200 →
  json r = Some j →
  getitem j "macs" = Ok (PList ms) →
  getitem (if_blob i) "neighbours" = Ok (PList ns) →
  Forall2 (mac_of i) ms macs →
  Forall2 (cdp_of i) ns cdps →
  Interface_neighbours self s
  = (Ok (macs ++ cdps),
     after_request (api_request GET (intf_url i +:+ "/macs") NoBody None s) s).
Proof.
  intros Hi Hb Ht Hin H200 Hj Hms Hns Hmacs Hcdps.
  set (s1 := after_request (api_request GET (intf_url i +:+ "/macs") NoBody None s) s).
  assert (Hi1 : heap s1 !! self = Some (OInterface i)) by exact Hi.
  assert (Hblob : Interface_getblob self s = (Ok (if_blob i), s)).
  { unfold Interface_getblob. unfold bind at 1. unfold load_interface. rewrite Hi.
    destruct (if_blob i); try reflexivity. contradiction. }
  assert (Hmac : for_each (λ m,
                   t <- lift (getitem m "time") ;;
                   a <- lift (getitem m "mac") ;;
                   n <- MACNeighbour_new [DClient; DObj self; DVal t; DVal a] ;;
                   ret (NMac n)) ms s1 = (Ok macs, s1)).
  { apply (for_each_Forall2 (mac_of i)); [| exact Hmacs].
    intros m n (t & a & Ht1 & Ha & ->). unfold MACNeighbour_new, dyn_path, dyn_index.
    mstep. rewrite Ht1, Ha. cbv beta iota. rewrite Hi1. cbv beta iota.
    rewrite Hi1. reflexivity. }
  assert (Hcdp : for_each (λ n,
                   t <- lift (getitem n "time") ;;
                   rn <- lift (getitem n "remote_name") ;;
                   ri <- lift (getitem n "remote_intf") ;;
                   c <- CDPNeighbour_new [DClient; DObj self; DVal t; DVal rn; DVal ri] ;;
                   ret (NCdp c)) ns s1 = (Ok cdps, s1)).
  { apply (for_each_Forall2 (cdp_of i)); [| exact Hcdps].
    intros m n (t & rn & ri & Ht1 & Hrn & Hri & ->).
    unfold CDPNeighbour_new, dyn_path, dyn_index.
    mstep. rewrite Ht1, Hrn, Hri. cbv beta iota. rewrite Hi1. cbv beta iota.
    rewrite Hi1. reflexivity. }
  unfold Interface_neighbours.
  unfold bind at 1. rewrite Hblob. cbv beta iota.
  unfold bind at 1. unfold load_interface at 1. rewrite Hi. cbv beta iota.
  unfold bind at 1. rewrite (Client_get_signed _ s Ht).
  unfold next_response. rewrite Hin. cbv beta iota. fold s1.
  unfold bind at 1. rewrite H200. cbn [Z.eqb Pos.eqb].
  unfold bind at 1. unfold response_json. rewrite Hj.
  unfold ret at 1. cbv beta iota.
  unfold bind at 1. unfold lift at 1. rewrite Hms. cbv beta iota.
  unfold bind at 1. unfold lift at 1. cbn [py_iter]. cbv beta iota.
  rewrite Hmac. cbv beta iota.
  unfold bind at 1. unfold load_interface at 1. rewrite Hi1. cbv beta iota.
  unfold bind at 1. unfold lift at 1. rewrite Hns. cbv beta iota.
  unfold bind at 1. unfold lift at 1. cbn [py_iter]. cbv beta iota.
  unfold bind at 1. rewrite Hcdp. reflexivity.
Qed.

Lemma neighbours_in_order_witness :
  let i := mkInterface "a.sw1" 3 uplink_blob in
  Interface_neighbours 0%nat with_uplink
  = (Ok [NMac (mkMACNeighbour (base_of i (PInt 1600000100)) (DVal (PStr "00:11:22:33:44:55")));
         NMac (mkMACNeighbour (base_of i (PInt 1600000200)) (DVal (PStr "66:77:88:99:aa:bb")));
         NCdp (mkCDPNeighbour (base_of i (PInt 1600000300)) (DVal (PStr "core1"))
                 (DVal (PStr "Te1/1")))],
     after_request (api_request GET "/interfaces/a.sw1/3/macs" NoBody None with_uplink)
       with_uplink).
Proof.
  intros i.
  assert (Hb : if_blob i ≠ PNone) by discriminate.
  assert (Ht : has_cookie with_uplink) by reflexivity.
  refine (neighbours_in_order 0%nat i with_uplink macs_reply [] _ _ _ [_; _] [_]
            eq_refl Hb Ht eq_refl eq_refl eq_refl eq_refl eq_refl _ _).
  - repeat constructor; eexists _, _; split_and!; reflexivity.
  - repeat constructor; eexists _, _, _; split_and!; reflexivity.
Defined.

(** X12: a neighbour that carries the client resolves through the
    caches of the client: while the interface it was listed on is
    cached, [interface] gives that very object, and [switch] the cached
    switch; a neighbour constructed with a plain value in the place of
    the client has neither. *)
Theorem neighbour_resolves (n : Neighbour) (p : string) (ix : Z) (s : state) :
  caches_wf s →
  nb_path n = PStr p →
  nb_index n = PInt ix →
  (nb_client n = DClient →
   (∀ self, cached (KInterface p ix) s = Some self →
            fst (Neighbour_interface n s) = Ok self) ∧
   (∀ sw, cached (KSwitch p) s = Some sw → fst (Neighbour_switch n s) = Ok sw)) ∧
  (∀ v, nb_client n = DVal v →
        Neighbour_interface n s = (Raise (AttributeError "interface"), s) ∧
        Neighbour_switch n s = (Raise (AttributeError "switch"), s)).
Proof.
  intros Hwf Hp Hix. split.
  - intros Hc. unfold Neighbour_interface, Neighbour_switch. rewrite Hc, Hp, Hix.
    split.
    + intros self Hself. exact (lookup_hit (KInterface p ix) s self Hwf Hself).
    + intros sw Hsw. exact (lookup_hit (KSwitch p) s sw Hwf Hsw).
  - intros v Hc. unfold Neighbour_interface, Neighbour_switch. rewrite Hc.
    split; reflexivity.
Qed.

Lemma neighbour_resolves_witness :
  let s := snd (Client_interface "a.sw1" 3 signed_in) in
  let n := base_of (mkInterface "a.sw1" 3 PNone) (PInt 1600000100) in
  fst (Neighbour_interface n s) = Ok 1%nat ∧ fst (Neighbour_switch n s) = Ok 0%nat.
Proof.
  intros s n.
  assert (Hwf : caches_wf s)
    by exact (lookup_wf (KInterface "a.sw1" 3) signed_in caches_wf_signed_in).
  destruct (neighbour_resolves n "a.sw1" 3 s Hwf eq_refl eq_refl) as (H & _).
  destruct (H eq_refl) as (Hi & Hs).
  split; [exact (Hi 1%nat eq_refl) | exact (Hs 0%nat eq_refl)].
Defined.

(** ** swarm/objects.py: changes and histories *)

Lemma Change_init_fields (path : string) (blob : pyval) (b : ChangeBase) :
  Change_init path blob = Ok b →
  ch_path b = path ∧ getitem blob "time" = Ok (ch_stamp b) ∧
  getitem blob "type" = Ok (ch_type b) ∧ getitem blob "changes" = Ok (ch_changes b).
Proof.
  unfold Change_init.
  destruct (getitem blob "time"); [| discriminate].
  destruct (getitem blob "type"); [| discriminate].
  destruct (getitem blob "changes"); [| discriminate].
  intros [= <-]. auto.
Qed.

(** X13: [Change.from_blob] picks the class by [blob['type']] alone.
    The object it returns has the kind of the blob among the four known
    ones, the path it was called with, the time stamp and the changes of
    the blob; the interface classes keep [blob['index']] and the write
    classes [blob['user']], the others keep neither.  A kind that is a
    string but none of the four raises an exception that names it. *)
Theorem from_blob_dispatch (path : string) (blob : pyval) :
  (∀ c, Change_from_blob path blob = Ok c →
        getitem blob "type" = Ok (PStr (change_kind c)) ∧
        ch_type (change_base c) = PStr (change_kind c) ∧
        ch_path (change_base c) = path ∧
        getitem blob "time" = Ok (ch_stamp (change_base c)) ∧
        getitem blob "changes" = Ok (ch_changes (change_base c)) ∧
        field_if (bool_decide (change_kind c ∈ ["interface"; "interface_write"]))
          blob "index" = Ok (change_index c) ∧
        field_if (bool_decide (change_kind c ∈ ["interface_write"; "switch_write"]))
          blob "user" = Ok (change_user c)) ∧
  (∀ t, getitem blob "type" = Ok (PStr t) → t ∉ change_kinds →
        Change_from_blob path blob
        = Raise (Exception_ (PStr ("Unsupported change type: " +:+ t)))).
Proof.
  split.
  - intros c. unfold Change_from_blob.
    destruct (getitem blob "type") as [ty |] eqn:Ety; [| discriminate].
    destruct (eq_str ty "interface") eqn:E1;
      [| destruct (eq_str ty "switch") eqn:E2;
         [| destruct (eq_str ty "interface_write") eqn:E3;
            [| destruct (eq_str ty "switch_write") eqn:E4]]].
    + apply eq_str_eq in E1 as ->.
      destruct (Change_init path blob) as [b |] eqn:Eb; [| discriminate].
      destruct (getitem blob "index") as [i |] eqn:Ei; [| discriminate].
      intros [= <-]. destruct (Change_init_fields _ _ _ Eb) as (H1 & H2 & H3 & H4).
      cbn [change_base change_kind change_index change_user].
      rewrite bool_decide_eq_true_2 by set_solver.
      rewrite bool_decide_eq_false_2 by (rewrite !elem_of_cons, elem_of_nil; naive_solver).
      cbn [field_if]. rewrite Ei. split_and!; auto. congruence.
    + apply eq_str_eq in E2 as ->.
      destruct (Change_init path blob) as [b |] eqn:Eb; [| discriminate].
      intros [= <-]. destruct (Change_init_fields _ _ _ Eb) as (H1 & H2 & H3 & H4).
      cbn [change_base change_kind change_index change_user].
      rewrite !bool_decide_eq_false_2
        by (rewrite !elem_of_cons, elem_of_nil; naive_solver).
      cbn [field_if]. split_and!; auto. congruence.
    + apply eq_str_eq in E3 as ->.
      destruct (Change_init path blob) as [b |] eqn:Eb; [| discriminate].
      destruct (getitem blob "index") as [i |] eqn:Ei; [| discriminate].
      destruct (getitem blob "user") as [u |] eqn:Eu; [| discriminate].
      intros [= <-]. destruct (Change_init_fields _ _ _ Eb) as (H1 & H2 & H3 & H4).
      cbn [change_base change_kind change_index change_user].
      rewrite !bool_decide_eq_true_2 by set_solver.
      cbn [field_if]. rewrite Ei, Eu. split_and!; auto. congruence.
    + apply eq_str_eq in E4 as ->.
      destruct (Change_init path blob) as [b |] eqn:Eb; [| discriminate].
      destruct (getitem blob "user") as [u |] eqn:Eu; [| discriminate].
      intros [= <-]. destruct (Change_init_fields _ _ _ Eb) as (H1 & H2 & H3 & H4).
      cbn [change_base change_kind change_index change_user].
      rewrite bool_decide_eq_false_2
        by (rewrite !elem_of_cons, elem_of_nil; naive_solver).
      rewrite bool_decide_eq_true_2 by set_solver.
      cbn [field_if]. rewrite Eu. split_and!; auto. congruence.
    + destruct (str_concat _ ty); discriminate.
  - intros t Hty Hnot. unfold Change_from_blob. rewrite Hty.
    unfold change_kinds in Hnot. rewrite !elem_of_cons, elem_of_nil in Hnot.
    cbn [eq_str].
    destruct (String.eqb_spec t "interface"); [naive_solver |].
    destruct (String.eqb_spec t "switch"); [naive_solver |].
    destruct (String.eqb_spec t "interface_write"); [naive_solver |].
    destruct (String.eqb_spec t "switch_write"); [naive_solver |].
    reflexivity.
Qed.

(** the two entries of the sample log, decoded *)
Example from_blob_sample :
  Forall2 (λ m c, Change_from_blob "a.sw1" m = Ok c) vlan_log vlan_changes.
Proof. repeat constructor. Qed.

Lemma from_blob_dispatch_witness :
  let blob := PDict [("time", PInt 1600000500); ("type", PStr "interface_write");
                     ("changes", PDict [("vlan", PInt 20)]); ("index", PInt 3);
                     ("user", PStr "alice")] in
  let odd := PDict [("time", PInt 1600000001); ("type", PStr "reboot");
                    ("changes", PDict [])] in
  (∃ c, Change_from_blob "a.sw1" blob = Ok c ∧ change_kind c = "interface_write" ∧
        ch_path (change_base c) = "a.sw1" ∧ change_user c = Some (PStr "alice")) ∧
  Change_from_blob "a.sw1" odd
  = Raise (Exception_ (PStr "Unsupported change type: reboot")).
Proof.
  intros blob odd.
  destruct (from_blob_dispatch "a.sw1" blob) as (H & _).
  destruct (from_blob_dispatch "a.sw1" odd) as (_ & H').
  split.
  - eexists. split; [reflexivity |].
    destruct (H _ eq_refl) as (_ & _ & Hp & _). split_and!; [reflexivity | exact Hp | reflexivity].
  - apply (H' "reboot" eq_refl). unfold change_kinds. intros Hin.
    repeat (apply elem_of_cons in Hin as [Hin | Hin]; [discriminate |]).
    inversion Hin.
Defined.

Lemma changes_of_ok (path : string) (r : http_response) (j : pyval)
    (logs : list pyval) (cs : list Change) (s : state) :
  status_code r = 200 →
  json r = Some j →
  getitem j "logs" = Ok (PList logs) →
  Forall2 (λ m c, Change_from_blob path m = Ok c) logs cs →
  changes_of path r s = (Ok cs, s).
Proof.
  intros H200 Hj Hl Hcs. unfold changes_of. rewrite H200. cbn [Z.eqb Pos.eqb].
  unfold bind at 1. unfold response_json. rewrite Hj. unfold ret at 1. cbv beta iota.
  unfold bind at 1. unfold lift at 1. rewrite Hl. cbv beta iota.
  unfold bind at 1. unfold lift at 1. cbn [py_iter]. cbv beta iota.
  apply (for_each_Forall2 (λ m c, Change_from_blob path m = Ok c)); [| exact Hcs].
  intros m c Hm. unfold lift. rewrite Hm. reflexivity.
Qed.

Lemma append_assoc (a b c : string) : (a +:+ b) +:+ c = a +:+ b +:+ c.
Proof.
  induction a as [| x a IH]; [reflexivity |].
  change (String x ((a +:+ b) +:+ c) = String x (a +:+ b +:+ c)).
  rewrite IH. reflexivity.
Qed.

(** X14: [history] and [history_since] of an interface each send one
    GET, to ".../history?interface_only=true", the second with
    "&since=<seconds>" appended, and decode the entries of [logs] with
    [Change.from_blob] and the path of the interface, in order; no
    object is changed. *)
Theorem interface_history_decodes
  (self : ref) (i : Interface) (since : Z) (s : state) (r : http_response)
  (rest : list http_response) (j : pyval) (logs : list pyval) (cs : list Change) :
  heap s !! self = Some (OInterface i) →
  has_cookie s →
  http_in s = r :: rest →
  status_code r = 200 →
  json r = Some j →
  getitem j "logs" = Ok (PList logs) →
  Forall2 (λ m c, Change_from_blob (if_path i) m = Ok c) logs cs →
  let url := "/interfaces/" +:+ if_path i +:+ "/" +:+ py_str_int (if_index i)
             +:+ "/history?interface_only=true" in
  Interface_history self s
  = (Ok cs, after_request (api_request GET url NoBody None s) s) ∧
  Interface_history_since self since s
  = (Ok cs,
     after_request
       (api_request GET (url +:+ "&since=" +:+ py_str_int since) NoBody None s) s).
Proof.
  intros Hi Ht Hin H200 Hj Hl Hcs url.
  assert (Eurl : intf_url i +:+ "/history?interface_only=true" = url).
  { unfold url, intf_url. rewrite !append_assoc. reflexivity. }
  assert (Eurl' : intf_url i +:+ "/history?interface_only=true" +:+ "&since="
                    +:+ py_str_int since
                  = url +:+ "&since=" +:+ py_str_int since).
  { rewrite <- Eurl, !append_assoc. reflexivity. }
  split.
  - unfold Interface_history. unfold bind at 1. unfold load_interface. rewrite Hi.
    unfold bind at 1. rewrite (Client_get_signed _ s Ht), Eurl.
    unfold next_response. rewrite Hin. cbv beta iota.
    apply (changes_of_ok _ _ j logs); assumption.
  - unfold Interface_history_since. unfold bind at 1. unfold load_interface.
    rewrite Hi. unfold bind at 1. rewrite (Client_get_signed _ s Ht), Eurl'.
    unfold next_response. rewrite Hin. cbv beta iota.
    rewrite H200. cbn [Z.eqb Pos.eqb].
    unfold bind at 1. unfold response_json. rewrite Hj. unfold ret at 1.
    cbv beta iota. unfold bind at 1. unfold lift at 1. rewrite Hl. cbv beta iota.
    apply (changes_of_ok _ _ j logs); assumption.
Qed.

Lemma interface_history_decodes_witness :
  fst (Interface_history 0%nat with_history) = Ok vlan_changes ∧
  http_log (snd (Interface_history_since 0%nat 1600000400 with_history))
  = [mkRequest GET
       "https://swarm.example.org/api/interfaces/a.sw1/3/history?interface_only=true&since=1600000400"
       (Some (PStr "abc123")) NoBody None].
Proof.
  assert (Ht : has_cookie with_history) by reflexivity.
  assert (Hcs : Forall2 (λ m c, Change_from_blob "a.sw1" m = Ok c) vlan_log vlan_changes)
    by (repeat constructor).
  destruct (interface_history_decodes 0%nat (mkInterface "a.sw1" 3 vlan10_blob)
              1600000400 with_history _ [] _ vlan_log vlan_changes
              eq_refl Ht eq_refl eq_refl eq_refl eq_refl Hcs) as (H1 & H2).
  split; [rewrite H1; reflexivity | rewrite H2; vm_compute; reflexivity].
Defined.

Lemma for_each_raise {A B} (R : A → B → Prop) (f : A → M B) (s : state)
    (pre post : list A) (ys : list B) (m : A) (e : exn) :
  (∀ x y, R x y → f x s = (Ok y, s)) →
  Forall2 R pre ys →
  f m s = (Raise e, s) →
  for_each f (pre ++ m :: post) s = (Raise e, s).
Proof.
  intros Hf H Hm. induction H as [| x y l l' Hxy _ IH]; cbn [app for_each].
  - unfold bind at 1. rewrite Hm. reflexivity.
  - unfold bind at 1. rewrite (Hf x y Hxy). unfold bind at 1. rewrite IH.
    reflexivity.
Qed.

(** X15: the history of a switch is all or nothing.  One GET of
    "/switches/<path>/history" is sent; with every entry of [logs]
    decoded the list of changes is returned in order; an entry that
    [Change.from_blob] rejects makes [history] raise its exception, the
    changes decoded before it being dropped; on any status but 200 the
    [raise APIException(...)] of the code raises [NameError], the name
    not being imported in objects.py. *)
Theorem switch_history_all_or_nothing
  (self : ref) (w : Switch) (s : state) (r : http_response)
  (rest : list http_response) :
  heap s !! self = Some (OSwitch w) →
  has_cookie s →
  http_in s = r :: rest →
  let s1 := after_request
              (api_request GET ("/switches/" +:+ sw_path w +:+ "/history") NoBody None s)
              s in
  (∀ j logs cs,
     status_code r = 200 → json r = Some j → getitem j "logs" = Ok (PList logs) →
     Forall2 (λ m c, Change_from_blob (sw_path w) m = Ok c) logs cs →
     Switch_history self s = (Ok cs, s1)) ∧
  (∀ j pre m post cs e,
     status_code r = 200 → json r = Some j →
     getitem j "logs" = Ok (PList (pre ++ m :: post)) →
     Forall2 (λ m c, Change_from_blob (sw_path w) m = Ok c) pre cs →
     Change_from_blob (sw_path w) m = Raise e →
     Switch_history self s = (Raise e, s1)) ∧
  (status_code r ≠ 200 →
   Switch_history self s = (Raise (NameError "APIException"), s1)).
Proof.
  intros Hw Ht Hin s1.
  assert (Hrun : Switch_history self s = changes_of (sw_path w) r s1).
  { unfold Switch_history. unfold bind at 1. unfold load_switch. rewrite Hw.
    unfold bind at 1. rewrite (Client_get_signed _ s Ht).
    unfold next_response. rewrite Hin. reflexivity. }
  rewrite Hrun. split_and!.
  - intros j logs cs H200 Hj Hl Hcs. apply (changes_of_ok _ _ j logs); assumption.
  - intros j pre m post cs e H200 Hj Hl Hcs Hm.
    unfold changes_of. rewrite H200. cbn [Z.eqb Pos.eqb].
    unfold bind at 1. unfold response_json. rewrite Hj. unfold ret at 1.
    cbv beta iota. unfold bind at 1. unfold lift at 1. rewrite Hl. cbv beta iota.
    unfold bind at 1. unfold lift at 1. cbn [py_iter]. cbv beta iota.
    apply (for_each_raise (λ m c, Change_from_blob (sw_path w) m = Ok c) _ _ _ _ cs);
      [| exact Hcs | unfold lift; rewrite Hm; reflexivity].
    intros x y Hx. unfold lift. rewrite Hx. reflexivity.
  - intros Hn. unfold changes_of. apply Z.eqb_neq in Hn. rewrite Hn. reflexivity.
Qed.

Lemma switch_history_all_or_nothing_witness :
  fst (Switch_history 0%nat odd_log)
  = Raise (Exception_ (PStr "Unsupported change type: reboot")) ∧
  http_log (snd (Switch_history 0%nat odd_log))
  = [mkRequest GET "https://swarm.example.org/api/switches/a.sw1/history"
       (Some (PStr "abc123")) NoBody None].
Proof.
  assert (Ht : has_cookie odd_log) by reflexivity.
  destruct (switch_history_all_or_nothing 0%nat (Switch_init "a.sw1" false) odd_log
              _ [] eq_refl Ht eq_refl) as (_ & H & _).
  rewrite (H _ [_] _ [] [_] _ eq_refl eq_refl eq_refl
             ltac:(repeat constructor) eq_refl).
  split; reflexivity.
Defined.

(** ** swarm/objects.py: Switch *)

(** X16: [save] on a new switch.  Without a pending host name it raises
    and sends nothing.  With one, an ASCII name, it POSTs the pending
    changes to "/switches/<parent path>.<slug of the host name>"; on 201
    or 303 the switch takes that path, stops being new, and has neither
    pending changes nor a blob; on 200 it keeps the decoded body as its
    blob; on any other status the [raise APIException(...)] of the code
    raises [NameError], the name not being imported in objects.py, and
    the switch is left as it was, new and with its changes. *)
Theorem switch_save_new
  (self : ref) (w : Switch) (s : state) (r : http_response)
  (rest : list http_response) :
  heap s !! self = Some (OSwitch w) →
  sw_new w = true →
  has_cookie s →
  http_in s = r :: rest →
  (dict_get (sw_changes w) "hostname" = None →
   Switch_save self s
   = (Raise (Exception_ (PStr "New switches require at least a hostname")), s)) ∧
  (∀ name slug,
     dict_get (sw_changes w) "hostname" = Some (PStr name) →
     ascii_text name →
     slugify (PStr name) = Ok slug →
     let path := sw_path w +:+ "." +:+ slug in
     let s1 := after_request
                 (api_request POST ("/switches/" +:+ path) (FormData (sw_changes w))
                    None s) s in
     let saved b := set_heap (<[self := OSwitch (mkSwitch path (sw_intfs w) b false [])]>
                                (heap s1)) (next_ref s1) s1 in
     (status_code r = 201 ∨ status_code r = 303 →
      Switch_save self s = (Ok true, saved PNone)) ∧
     (∀ b, status_code r = 200 → json r = Some b →
           Switch_save self s = (Ok true, saved b)) ∧
     (status_code r ∉ [200; 201; 303] →
      Switch_save self s = (Raise (NameError "APIException"), s1) ∧
      heap s1 !! self = Some (OSwitch w))).
Proof.
  intros Hw Hn Ht Hin. split.
  - intros Hd. unfold Switch_save. unfold bind at 1. unfold load_switch. rewrite Hw.
    unfold bind at 1. rewrite Hn. unfold dict_mem. rewrite Hd. reflexivity.
  - intros name slug Hd _ Hslug path s1 saved.
    assert (Hrun : Switch_save self s
      = (if (status_code r =? 201) || (status_code r =? 303) then (Ok true, saved PNone)
         else if status_code r =? 200 then
           match json r with
           | Some b => (Ok true, saved b)
           | None => (Raise JSONDecodeError, s1)
           end
         else (Raise (NameError "APIException"), s1))).
    { unfold Switch_save. unfold bind at 1. unfold load_switch. rewrite Hw.
      unfold bind at 1. rewrite Hn. unfold dict_mem. rewrite Hd.
      unfold bind at 1. unfold lift at 1. cbn [getitem]. rewrite Hd.
      unfold bind at 1. unfold lift at 1. rewrite Hslug. unfold ret at 1.
      cbv beta iota. unfold bind at 1. rewrite (Client_post_after _ _ None s Ht).
      unfold next_response. rewrite Hin. cbn [ctype_header]. cbv beta iota.
      fold path. fold s1.
      destruct ((status_code r =? 201) || (status_code r =? 303)); [reflexivity |].
      destruct (status_code r =? 200); [| reflexivity].
      unfold bind at 1. unfold response_json. destruct (json r); reflexivity. }
    rewrite Hrun. split_and!.
    + intros [E | E]; rewrite E; reflexivity.
    + intros b E Hj. rewrite E, Hj. reflexivity.
    + intros Hnot. rewrite !elem_of_cons, elem_of_nil in Hnot.
      destruct (Z.eqb_spec (status_code r) 201); [tauto |].
      destruct (Z.eqb_spec (status_code r) 303); [tauto |].
      destruct (Z.eqb_spec (status_code r) 200); [tauto |].
      split; [reflexivity | exact Hw].
Qed.

Lemma switch_save_new_witness :
  let w := mkSwitch "a" [] PNone true [("hostname", PStr "Core-1.example.org")] in
  heap switch_named !! 1%nat = Some (OSwitch w) ∧
  fst (Switch_save 1%nat switch_named) = Ok true ∧
  heap (snd (Switch_save 1%nat switch_named)) !! 1%nat
  = Some (OSwitch (mkSwitch "a.core-1" [] PNone false [])) ∧
  http_log (snd (Switch_save 1%nat switch_named))
  = [mkRequest POST "https://swarm.example.org/api/switches/a.core-1"
       (Some (PStr "abc123")) (FormData [("hostname", PStr "Core-1.example.org")]) None].
Proof.
  intros w.
  assert (Hw : heap switch_named !! 1%nat = Some (OSwitch w)) by reflexivity.
  assert (Ht : has_cookie switch_named) by reflexivity.
  destruct (switch_save_new 1%nat w switch_named _ [] Hw eq_refl Ht eq_refl)
    as (_ & H).
  assert (Ha : ascii_text "Core-1.example.org")
    by (unfold ascii_text; cbn; repeat constructor).
  destruct (H "Core-1.example.org" "core-1" eq_refl Ha eq_refl) as (H201 & _).
  rewrite (H201 (or_introl eq_refl)).
  split_and!; [exact Hw | reflexivity | reflexivity | reflexivity].
Defined.

(** X17: the status of a switch is never kept.  On a switch that is not
    new every read of [status] sends one GET of
    "/switches/<path>/status"; a 200 answer whose ['status']['status']
    holds the value [v] and the time [t] is returned as that value at
    that time; on any other status the [raise APIException(...)] of the
    code raises [NameError], the name not being imported in objects.py.
    The switch and the caches are as before, so the next read asks
    again and returns what the next answer says. *)
Theorem status_is_never_kept
  (self : ref) (w : Switch) (s : state) (r : http_response)
  (rest : list http_response) :
  heap s !! self = Some (OSwitch w) →
  sw_new w = false →
  has_cookie s →
  http_in s = r :: rest →
  let rq (st : state) :=
    api_request GET ("/switches/" +:+ sw_path w +:+ "/status") NoBody None st in
  let s1 := after_request (rq s) s in
  (∀ v t, status_reply r v t →
          Switch_status self s = (Ok (Some (mkTimed v t)), s1)) ∧
  (status_code r ≠ 200 →
   Switch_status self s = (Raise (NameError "APIException"), s1)) ∧
  heap s1 = heap s ∧ has_cookie s1 ∧ http_in s1 = rest ∧
  (∀ r2 rest2 v2 t2, rest = r2 :: rest2 → status_reply r2 v2 t2 →
     Switch_status self s1 = (Ok (Some (mkTimed v2 t2)), after_request (rq s1) s1)).
Proof.
  intros Hw Hn Ht Hin rq s1.
  assert (Hget : ∀ s0 r0 rest0,
            heap s0 !! self = Some (OSwitch w) → has_cookie s0 →
            http_in s0 = r0 :: rest0 →
            Switch_status self s0
            = (if status_code r0 =? 200 then
                 j <- response_json r0 ;;
                 st <- lift (getitem j "status") ;;
                 src <- lift (getitem st "status") ;;
                 tv <- lift (TimedValue_init PNone PNone src) ;;
                 ret (Some tv)
               else raise (NameError "APIException")) (after_request (rq s0) s0)).
  { intros s0 r0 rest0 Hw0 Ht0 Hin0. unfold Switch_status.
    unfold bind at 1. unfold load_switch. rewrite Hw0, Hn.
    unfold bind at 1. rewrite (Client_get_signed _ s0 Ht0).
    unfold next_response. rewrite Hin0. reflexivity. }
  assert (Hone : ∀ s0 r0 rest0 v t,
            heap s0 !! self = Some (OSwitch w) → has_cookie s0 →
            http_in s0 = r0 :: rest0 → status_reply r0 v t →
            Switch_status self s0 = (Ok (Some (mkTimed v t)), after_request (rq s0) s0)).
  { intros s0 r0 rest0 v t Hw0 Ht0 Hin0 (H200 & j & st & src & tm & Hj & Hst & Hsrc & Hv & Htm & Hti).
    rewrite (Hget s0 r0 rest0 Hw0 Ht0 Hin0), H200. cbn [Z.eqb Pos.eqb].
    unfold response_json. mstep. rewrite Hj, Hst, Hsrc.
    rewrite (TimedValue_of_src PNone PNone src v tm t Hv Htm Hti). reflexivity. }
  split_and!.
  - intros v t Hr. exact (Hone s r rest v t Hw Ht Hin Hr).
  - intros Hne. rewrite (Hget s r rest Hw Ht Hin).
    apply Z.eqb_neq in Hne. rewrite Hne. reflexivity.
  - reflexivity.
  - exact Ht.
  - cbn. rewrite Hin. reflexivity.
  - intros r2 rest2 v2 t2 -> Hr2. apply (Hone s1 r2 rest2 v2 t2); [exact Hw | exact Ht | | exact Hr2].
    cbn. rewrite Hin. reflexivity.
Qed.

Lemma status_is_never_kept_witness :
  let s1 := snd (Switch_status 0%nat poller_recovers) in
  fst (Switch_status 0%nat poller_recovers) = Ok (Some (mkTimed (PStr "error") 1600000000)) ∧
  fst (Switch_status 0%nat s1) = Ok (Some (mkTimed (PStr "ok") 1600000060)) ∧
  length (http_log (snd (Switch_status 0%nat s1))) = 2%nat.
Proof.
  intros s1.
  assert (Ht : has_cookie poller_recovers) by reflexivity.
  destruct (status_is_never_kept 0%nat (Switch_init "a.sw1" false) poller_recovers
              _ _ eq_refl eq_refl Ht eq_refl) as (H1 & _ & _ & _ & _ & H2).
  assert (Hr1 : status_reply
                  (ok_json (PDict [("status", PDict [("status",
                     PDict [("value", PStr "error"); ("time", PInt 1600000000)])])]))
                  (PStr "error") 1600000000).
  { split; [reflexivity |]. eexists _, _, _, _. split_and!; reflexivity. }
  assert (Hr2 : status_reply
                  (ok_json (PDict [("status", PDict [("status",
                     PDict [("value", PStr "ok"); ("time", PInt 1600000060)])])]))
                  (PStr "ok") 1600000060).
  { split; [reflexivity |]. eexists _, _, _, _. split_and!; reflexivity. }
  unfold s1. rewrite (H1 _ _ Hr1). cbn [fst snd].
  rewrite (H2 _ _ _ _ eq_refl Hr2).
  split_and!; reflexivity.
Defined.

(** X18: [delete] on a switch.  A new switch cannot be deleted: the call
    raises and sends nothing.  Otherwise one DELETE of
    "/switches/<path>" is sent; 410 and 204 give [True]; on any other
    status the [raise APIException(...)] of the code raises [NameError],
    the name not being imported in objects.py.  In no case is the object
    or a cache changed:
    a deleted switch that was cached is still what the client returns
    for its path. *)
Theorem switch_delete_keeps_object
  (self : ref) (w : Switch) (s : state) (r : http_response)
  (rest : list http_response) :
  heap s !! self = Some (OSwitch w) →
  has_cookie s →
  http_in s = r :: rest →
  (sw_new w = true →
   Switch_delete self s
   = (Raise (Exception_ (PStr "Cannot delete a switch that hasn't been created yet")),
      s)) ∧
  (sw_new w = false →
   let s1 := after_request
               (api_request DELETE ("/switches/" +:+ sw_path w) NoBody None s) s in
   Switch_delete self s
   = (if bool_decide (status_code r ∈ [410; 204]) then Ok true
      else Raise (NameError "APIException"), s1) ∧
   heap s1 = heap s ∧ sw_cache s1 = sw_cache s ∧
   (caches_wf s → cached (KSwitch (sw_path w)) s = Some self →
    fst (Client_switch (sw_path w) s1) = Ok self)).
Proof.
  intros Hw Ht Hin. split.
  - intros Hn. unfold Switch_delete. unfold bind at 1. unfold load_switch.
    rewrite Hw, Hn. reflexivity.
  - intros Hn s1. split_and!; try reflexivity.
    + unfold Switch_delete. unfold bind at 1. unfold load_switch. rewrite Hw, Hn.
      unfold bind at 1. rewrite (Client_delete_signed _ s Ht).
      unfold next_response. rewrite Hin. cbv beta iota. fold s1.
      destruct (Z.eqb_spec (status_code r) 410) as [E | N1].
      { rewrite bool_decide_eq_true_2 by (rewrite E; set_solver). reflexivity. }
      destruct (Z.eqb_spec (status_code r) 204) as [E | N2].
      { rewrite bool_decide_eq_true_2 by (rewrite E; set_solver). reflexivity. }
      rewrite bool_decide_eq_false_2
        by (rewrite !elem_of_cons, elem_of_nil; tauto).
      reflexivity.
    + intros Hwf Hc. exact (lookup_hit (KSwitch (sw_path w)) s1 self Hwf Hc).
Qed.

Lemma switch_delete_keeps_object_witness :
  let s1 := snd (Switch_delete 0%nat switch_gone) in
  fst (Switch_delete 0%nat switch_gone) = Ok true ∧
  http_log s1
  = [mkRequest DELETE "https://swarm.example.org/api/switches/a.sw1"
       (Some (PStr "abc123")) NoBody None] ∧
  fst (Client_switch "a.sw1" s1) = Ok 0%nat.
Proof.
  intros s1.
  assert (Ht : has_cookie switch_gone) by reflexivity.
  assert (Hwf : caches_wf switch_gone)
    by exact (lookup_wf (KSwitch "a.sw1") signed_in caches_wf_signed_in).
  destruct (switch_delete_keeps_object 0%nat (Switch_init "a.sw1" false) switch_gone
              _ [] eq_refl Ht eq_refl) as (_ & H).
  destruct (H eq_refl) as (Hrun & _ & _ & Hkeep).
  unfold s1. rewrite Hrun. cbn [fst snd].
  split_and!; [reflexivity | reflexivity | exact (Hkeep Hwf eq_refl)].
Defined.

Lemma dict_get_set (d : dict) (k : string) (v : pyval) :
  dict_get (dict_set d k v) k = Some v.
Proof.
  induction d as [| [k' v'] d IH]; cbn [dict_set dict_get].
  - rewrite String.eqb_refl. reflexivity.
  - destruct (String.eqb k' k) eqn:E; cbn [dict_get]; rewrite E; [reflexivity | exact IH].
Qed.

(** X19: reading a property of a switch.  A pending change is answered
    first, as a [TimedValue] of time 0, for configuration and data
    properties alike and without a request; a new switch without one
    answers [None].  Otherwise the blob answers as soon as it is truthy,
    whichever request brought it: a configuration property reads
    [blob['config']] and a data property [blob['data']].  With no blob
    one GET is sent, to "/switches/<path>" for a configuration property
    and to "/switches/<path>/data" for a data property, and on 200 the
    decoded body becomes the one blob of the switch, which from then on
    answers both kinds.  Only configuration properties can be assigned;
    an assigned value is what the property reads afterwards, and no
    request is sent for either. *)
Theorem switch_property_read
  (a : switch_attr) (self : ref) (w : Switch) (s : state) :
  heap s !! self = Some (OSwitch w) →
  let key := switch_attr_key a in
  (∀ v, dict_get (sw_changes w) key = Some v →
        Switch_get a self s = (Ok (PTimed (mkTimed v 0)), s)) ∧
  (dict_get (sw_changes w) key = None → sw_new w = true →
   Switch_get a self s = (Ok PNothing, s)) ∧
  (dict_get (sw_changes w) key = None → sw_new w = false →
   truthy (sw_blob w) = true →
   Switch_get a self s = (read_switch a (sw_blob w), s)) ∧
  (∀ r rest b,
     dict_get (sw_changes w) key = None → sw_new w = false →
     truthy (sw_blob w) = false → has_cookie s → http_in s = r :: rest →
     status_code r = 200 → json r = Some b →
     let s1 := after_request (api_request GET (switch_url a w) NoBody None s) s in
     let w' := mkSwitch (sw_path w) (sw_intfs w) b false (sw_changes w) in
     let s2 := set_heap (<[self := OSwitch w']> (heap s1)) (next_ref s1) s1 in
     Switch_get a self s = (read_switch a b, s2) ∧
     (∀ a', dict_get (sw_changes w) (switch_attr_key a') = None →
            truthy b = true →
            Switch_get a' self s2 = (read_switch a' b, s2))) ∧
  (∀ v, let run := Switch_set a self v s in
        if switch_attr_config a then
          fst run = Ok v ∧ http_log (snd run) = http_log s ∧
          Switch_get a self (snd run) = (Ok (PTimed (mkTimed v 0)), snd run)
        else run = (Raise (AttributeError "can't set attribute"), s)).
Proof.
  intros Hw key.
  assert (Hpend : ∀ w0 s0 v,
            heap s0 !! self = Some (OSwitch w0) →
            dict_get (sw_changes w0) key = Some v →
            Switch_get a self s0 = (Ok (PTimed (mkTimed v 0)), s0)).
  { intros w0 s0 v Hw0 Hd. unfold Switch_get, Switch_getprop, Switch_getdataprop.
    destruct (switch_attr_config a); unfold bind at 1; unfold load_switch;
      rewrite Hw0; unfold dict_mem; fold key; rewrite Hd; mstep; cbn [getitem];
      rewrite Hd; reflexivity. }
  assert (Hmemo : ∀ a0 w0 s0,
            heap s0 !! self = Some (OSwitch w0) →
            dict_get (sw_changes w0) (switch_attr_key a0) = None →
            sw_new w0 = false → truthy (sw_blob w0) = true →
            Switch_get a0 self s0 = (read_switch a0 (sw_blob w0), s0)).
  { intros a0 w0 s0 Hw0 Hd Hn Hb.
    unfold Switch_get, read_switch, Switch_getprop, Switch_getdataprop,
      read_config, read_data.
    destruct (switch_attr_config a0); unfold bind at 1; unfold load_switch;
      rewrite Hw0; unfold dict_mem; rewrite Hd, Hn, Hb; mstep.
    - destruct (getitem (sw_blob w0) "config"); [| reflexivity].
      destruct (getitem _ (switch_attr_key a0)); reflexivity.
    - destruct (getitem (sw_blob w0) "data"); [| reflexivity].
      destruct (getitem _ (switch_attr_key a0)); [| reflexivity].
      destruct (TimedValue_init PNone PNone _); reflexivity. }
  split_and!.
  - intros v Hd. exact (Hpend w s v Hw Hd).
  - intros Hd Hn. unfold Switch_get, Switch_getprop, Switch_getdataprop.
    destruct (switch_attr_config a); unfold bind at 1; unfold load_switch;
      rewrite Hw; unfold dict_mem; fold key; rewrite Hd, Hn; reflexivity.
  - intros Hd Hn Hb. apply Hmemo; assumption.
  - intros r rest b Hd Hn Hb Ht Hin H200 Hj s1 w' s2. split.
    + unfold Switch_get, read_switch, Switch_getprop, Switch_getdataprop,
        read_config, read_data, switch_url in *.
      destruct (switch_attr_config a); unfold bind at 1; unfold load_switch;
        rewrite Hw; unfold dict_mem; fold key; rewrite Hd, Hn, Hb;
        unfold bind at 1; rewrite (Client_get_signed _ s Ht);
        unfold next_response; rewrite Hin; cbv beta iota;
        rewrite H200; cbn [Z.eqb Pos.eqb];
        unfold bind at 1; unfold response_json; rewrite Hj; unfold ret at 1;
        cbv beta iota; unfold put_switch, store; mstep; fold s1; fold w';
        fold s2.
      * destruct (getitem b "config"); [| reflexivity].
        destruct (getitem _ key); reflexivity.
      * destruct (getitem b "data"); [| reflexivity].
        destruct (getitem _ key); [| reflexivity].
        destruct (TimedValue_init PNone PNone _); reflexivity.
    + intros a' Hd' Hb'.
      apply (Hmemo a' w' s2); [| exact Hd' | reflexivity | exact Hb'].
      unfold s2. cbn [heap set_heap]. apply lookup_insert_eq.
  - intros v run. unfold run, Switch_set.
    destruct (switch_attr_config a) eqn:Ecfg; [| reflexivity].
    assert (Hrun : Switch_setprop key self v s
                   = (Ok v,
                      set_heap (<[self := OSwitch (mkSwitch (sw_path w) (sw_intfs w)
                                             (sw_blob w) (sw_new w)
                                             (dict_set (sw_changes w) key v))]> (heap s))
                        (next_ref s) s)).
    { unfold Switch_setprop, put_switch. mstep. rewrite Hw. reflexivity. }
    fold key. rewrite Hrun. cbn [fst snd]. split_and!; [reflexivity | reflexivity |].
    eapply Hpend.
    + cbn [heap set_heap]. apply lookup_insert_eq.
    + cbn [sw_changes]. apply dict_get_set.
Qed.

Lemma switch_property_read_witness :
  let s2 := snd (Switch_get sw_uptime 0%nat data_first) in
  fst (Switch_get sw_uptime 0%nat data_first) = Ok (PTimed (mkTimed (PInt 86400) 1600000000)) ∧
  http_log s2
  = [mkRequest GET "https://swarm.example.org/api/switches/a.sw1/data"
       (Some (PStr "abc123")) NoBody None] ∧
  Switch_get sw_hostname 0%nat s2 = (Raise (KeyError (PStr "config")), s2).
Proof.
  intros s2.
  assert (Ht : has_cookie data_first) by reflexivity.
  destruct (switch_property_read sw_uptime 0%nat (Switch_init "a.sw1" false) data_first
              eq_refl) as (_ & _ & _ & H & _).
  destruct (H _ [] _ eq_refl eq_refl eq_refl Ht eq_refl eq_refl eq_refl) as (H1 & H2).
  unfold s2. rewrite H1. cbn [fst snd].
  split_and!; [reflexivity | reflexivity |].
  rewrite (H2 sw_hostname eq_refl eq_refl). reflexivity.
Defined.

(** ** swarm/objects.py: Container *)

(** X20: [save] never clears the [new] flag of a container.  After a new
    container with an ASCII display name is saved with 201 or 303 it has
    the path "<parent path>.<slug>", no pending changes and no blob, and
    is still new: a second [save] raises for want of a display name, and
    sends nothing. *)
Theorem container_save_stays_new
  (self : ref) (c : Container) (s : state) (r : http_response)
  (rest : list http_response) (name : string) (slug : string) :
  heap s !! self = Some (OContainer c) →
  ct_new c = true →
  has_cookie s →
  http_in s = r :: rest →
  dict_get (ct_changes c) "display_name" = Some (PStr name) →
  ascii_text name →
  slugify (PStr name) = Ok slug →
  status_code r = 201 ∨ status_code r = 303 →
  let path := ct_path c +:+ "." +:+ slug in
  let s1 := after_request
              (api_request POST ("/containers/" +:+ path) (FormData (ct_changes c))
                 None s) s in
  let s2 := set_heap (<[self := OContainer (mkContainer path PNone [] true)]> (heap s1))
              (next_ref s1) s1 in
  Container_save self s = (Ok true, s2) ∧
  Container_save self s2
  = (Raise (Exception_ (PStr "New containers require at least a display_name")), s2).
Proof.
  intros Hc Hn Ht Hin Hd _ Hslug Hst path s1 s2. split.
  - unfold Container_save. unfold bind at 1. unfold load_container. rewrite Hc.
    unfold bind at 1. rewrite Hn. unfold dict_mem. rewrite Hd.
    unfold bind at 1. unfold lift at 1. cbn [getitem]. rewrite Hd.
    unfold bind at 1. unfold lift at 1. rewrite Hslug. unfold ret at 1.
    cbv beta iota. unfold bind at 1. rewrite (Client_post_after _ _ None s Ht).
    unfold next_response. rewrite Hin. cbn [ctype_header]. cbv beta iota.
    fold path. fold s1.
    assert (E : (status_code r =? 201) || (status_code r =? 303) = true).
    { destruct Hst as [-> | ->]; reflexivity. }
    rewrite E. reflexivity.
  - unfold Container_save. unfold bind at 1. unfold load_container.
    unfold s2 at 1. cbn [heap set_heap]. rewrite lookup_insert_eq. reflexivity.
Qed.

Lemma container_save_stays_new_witness :
  let s2 := snd (Container_save 1%nat lab_named) in
  fst (Container_save 1%nat lab_named) = Ok true ∧
  heap s2 !! 1%nat = Some (OContainer (mkContainer "a.b.my-lab-" PNone [] true)) ∧
  Container_save 1%nat s2
  = (Raise (Exception_ (PStr "New containers require at least a display_name")), s2).
Proof.
  intros s2.
  assert (Ht : has_cookie lab_named) by reflexivity.
  assert (Ha : ascii_text "My Lab!!") by (unfold ascii_text; cbn; repeat constructor).
  destruct (container_save_stays_new 1%nat
              (mkContainer "a.b" PNone [("display_name", PStr "My Lab!!")] true)
              lab_named _ [] "My Lab!!" "my-lab-"
              eq_refl eq_refl Ht eq_refl eq_refl Ha eq_refl (or_introl eq_refl))
    as (H1 & H2).
  unfold s2. rewrite H1. cbn [fst snd].
  split_and!; [reflexivity | reflexivity | exact H2].
Defined.

(** X21: a new container has the path of its parent until it is saved,
    and [_getprop] does not look at the [new] flag: reading a property
    of a container just made by [new_container], nothing pending, sends
    one GET of "/containers/<parent path>" and answers with the
    configuration of the parent, which the child then keeps as its
    blob; a pending change is answered as it is, without a request. *)
Theorem new_container_reads_parent
  (key : string) (parent : ref) (c : Container) (s : state) (r : http_response)
  (rest : list http_response) (b : pyval) :
  heap s !! parent = Some (OContainer c) →
  has_cookie s →
  http_in s = r :: rest →
  status_code r = 200 →
  json r = Some b →
  let child := next_ref s in
  let s0 := snd (Container_new_container parent s) in
  let run := Container_getprop key child s0 in
  fst (Container_new_container parent s) = Ok child ∧
  fst run = read_config key b ∧
  http_log (snd run)
  = http_log s ++ [api_request GET ("/containers/" +:+ ct_path c) NoBody None s] ∧
  heap (snd run) !! child = Some (OContainer (mkContainer (ct_path c) b [] true)) ∧
  (∀ v, let s' := snd (Container_setprop key child v s0) in
        Container_getprop key child s' = (Ok (PPlain v), s')).
Proof.
  intros Hc Ht Hin H200 Hj child s0 run.
  assert (Hnew : Container_new_container parent s
                 = (Ok child,
                    set_heap (<[child := OContainer (Container_init (ct_path c) true)]>
                                (heap s)) (S (next_ref s)) s)).
  { unfold Container_new_container. mstep. rewrite Hc. reflexivity. }
  assert (Hs0 : s0 = set_heap (<[child := OContainer (Container_init (ct_path c) true)]>
                                 (heap s)) (S (next_ref s)) s).
  { unfold s0. rewrite Hnew. reflexivity. }
  assert (Hchild : heap s0 !! child = Some (OContainer (Container_init (ct_path c) true))).
  { rewrite Hs0. cbn [heap set_heap]. apply lookup_insert_eq. }
  assert (Ht0 : has_cookie s0) by (rewrite Hs0; exact Ht).
  assert (Hin0 : http_in s0 = r :: rest) by (rewrite Hs0; exact Hin).
  assert (Hrun : run
    = (read_config key b,
       let s1 := after_request
                   (api_request GET ("/containers/" +:+ ct_path c) NoBody None s0) s0 in
       set_heap (<[child := OContainer (mkContainer (ct_path c) b [] true)]> (heap s1))
         (next_ref s1) s1)).
  { unfold run, Container_getprop. unfold bind at 1. unfold load_container.
    rewrite Hchild. cbn [Container_init ct_changes ct_blob ct_path ct_new dict_mem
                         dict_get truthy].
    unfold bind at 1. rewrite (Client_get_signed _ s0 Ht0).
    unfold next_response. rewrite Hin0. cbv beta iota. rewrite H200.
    cbn [Z.eqb Pos.eqb]. unfold bind at 1. unfold response_json. rewrite Hj.
    unfold ret at 1. cbv beta iota. unfold put_container, store, read_config. mstep.
    destruct (getitem b "config"); [| reflexivity].
    destruct (getitem _ key); reflexivity. }
  split_and!.
  - rewrite Hnew. reflexivity.
  - rewrite Hrun. reflexivity.
  - rewrite Hrun, Hs0. reflexivity.
  - rewrite Hrun. cbn [snd heap set_heap]. apply lookup_insert_eq.
  - intros v s'.
    assert (Hs' : heap s' !! child
                  = Some (OContainer (mkContainer (ct_path c) PNone
                                        (dict_set [] key v) true))).
    { unfold s', Container_setprop, put_container. mstep. rewrite Hchild.
      cbn [snd heap set_heap]. apply lookup_insert_eq. }
    unfold Container_getprop. unfold bind at 1. unfold load_container. rewrite Hs'.
    cbn [ct_changes]. unfold dict_mem, dict_set. cbn [dict_get].
    rewrite String.eqb_refl. mstep. cbn [getitem dict_get].
    rewrite String.eqb_refl. reflexivity.
Qed.

Lemma new_container_reads_parent_witness :
  let s1 := respond [ok_json (PDict [("config",
                       PDict [("display_name", PStr "Building B")])])]
              (snd (Client_container "a.b" signed_in)) in
  let s0 := snd (Container_new_container 0%nat s1) in
  fst (Container_getprop "display_name" 1%nat s0) = Ok (PPlain (PStr "Building B")) ∧
  http_log (snd (Container_getprop "display_name" 1%nat s0))
  = [mkRequest GET "https://swarm.example.org/api/containers/a.b"
       (Some (PStr "abc123")) NoBody None].
Proof.
  intros s1 s0.
  assert (Ht : has_cookie s1) by reflexivity.
  destruct (new_container_reads_parent "display_name" 0%nat (Container_init "a.b" false)
              s1 _ [] _ eq_refl Ht eq_refl eq_refl eq_refl) as (_ & H1 & H2 & _).
  split; [exact H1 | exact H2].
Defined.

Lemma children_loop (ch : list pyval) (ks : list (option lookup_key)) (s : state) :
  Forall2 child_of ch ks →
  (objs <- for_each (fun jsobj =>
                       t <- lift (getitem jsobj "type") ;;
                       if eq_str t "container" then
                         p <- lift (getitem jsobj "path") ;;
                         p <- lift (as_path p) ;;
                         o <- Client_container p ;;
                         ret [o]
                       else
                         t <- lift (getitem jsobj "type") ;;
                         if eq_str t "switch" then
                           p <- lift (getitem jsobj "path") ;;
                           p <- lift (as_path p) ;;
                           o <- Client_switch p ;;
                           ret [o]
                         else ret []) ch ;;
   ret (concat objs)) s
  = lookup_each (omap id ks) s.
Proof.
  set (f := fun jsobj : pyval => _).
  intros H. revert s. induction H as [| x k ch ks Hx _ IH]; intros s; [reflexivity |].
  assert (Hf : f x s
               = match k with
                 | Some key =>
                     match lookup key s with
                     | (Ok o, s1) => (Ok [o], s1)
                     | (Raise e, s1) => (Raise e, s1)
                     end
                 | None => (Ok [], s)
                 end).
  { destruct Hx as (t & Ht & [(E1 & p & Hp & ->) | [(E1 & E2 & p & Hp & ->) | (E1 & E2 & ->)]]);
      unfold f; mstep; rewrite Ht; cbv beta iota; rewrite E1;
      rewrite ?Ht; cbv beta iota; rewrite ?E2; rewrite ?Hp; reflexivity. }
  unfold lookup_each in *. cbn [for_each]. unfold bind, ret in IH |- *.
  rewrite Hf. destruct k as [key |].
  - change (omap id (Some key :: ks)) with (key :: omap id ks). cbn [for_each].
    unfold bind, ret. destruct (lookup key s) as [[o | e] s1]; [| reflexivity].
    specialize (IH s1).
    destruct (for_each f ch s1) as [[objs | e] s2];
      destruct (for_each lookup (omap id ks) s1) as [[os | e'] s3];
      cbn [concat app]; congruence.
  - change (omap id (None :: ks)) with (omap id ks). rewrite <- IH.
    destruct (for_each f ch s) as [[objs | e] s2]; reflexivity.
Qed.

Lemma lookup_each_total (ks : list lookup_key) (s : state) :
  caches_wf s →
  ∃ refs, fst (lookup_each ks s) = Ok refs ∧ length refs = length ks.
Proof.
  revert s. induction ks as [| k ks IH]; intros s Hwf.
  - exists []. split; reflexivity.
  - destruct (lookup_total k s Hwf) as (r & Hr).
    pose proof (lookup_wf k s Hwf) as Hwf1.
    unfold lookup_each in *. cbn [for_each]. unfold bind, ret.
    destruct (lookup k s) as [[r' | e] s1]; cbn [fst snd] in *; [| discriminate].
    destruct (IH s1 Hwf1) as (refs & Hrefs & Hlen).
    destruct (for_each lookup ks s1) as [[rs | e] s2]; cbn [fst] in *; [| discriminate].
    exists (r' :: rs). split; [reflexivity |]. cbn. congruence.
Qed.

(** X22: the children of a container are found through the client.  One
    GET of "/containers/<path>/children" is sent; then, in the order of
    the answer, every entry of type "container" is looked up with
    [client.container] and every entry of type "switch" with
    [client.switch], entries of any other type being passed over, and
    the objects are returned in that order: cached objects are reused
    and new ones enter the caches.  With caches in order every lookup
    succeeds, so there are as many objects as entries of the two
    types. *)
Theorem children_through_caches
  (self : ref) (c : Container) (s : state) (r : http_response)
  (rest : list http_response) (j : pyval) (ch : list pyval)
  (ks : list (option lookup_key)) :
  heap s !! self = Some (OContainer c) →
  has_cookie s →
  http_in s = r :: rest →
  status_code r = 200 →
  json r = Some j →
  getitem j "children" = Ok (PList ch) →
  Forall2 child_of ch ks →
  let s1 := after_request
              (api_request GET ("/containers/" +:+ ct_path c +:+ "/children") NoBody
                 None s) s in
  Container_children self s = lookup_each (omap id ks) s1 ∧
  (caches_wf s →
   ∃ refs, fst (Container_children self s) = Ok refs ∧
           length refs = length (omap id ks)).
Proof.
  intros Hc Ht Hin H200 Hj Hch Hks s1.
  assert (Hrun : Container_children self s = lookup_each (omap id ks) s1).
  { unfold Container_children. unfold bind at 1. unfold load_container. rewrite Hc.
    unfold bind at 1. rewrite (Client_get_signed _ s Ht).
    unfold next_response. rewrite Hin. cbv beta iota. fold s1. rewrite H200.
    cbn [Z.eqb Pos.eqb]. unfold bind at 1. unfold response_json. rewrite Hj.
    unfold ret at 1. cbv beta iota. unfold bind at 1. unfold lift at 1. rewrite Hch.
    cbv beta iota. unfold bind at 1. unfold lift at 1. cbn [py_iter]. cbv beta iota.
    apply children_loop, Hks. }
  split; [exact Hrun |]. intros Hwf. rewrite Hrun.
  apply lookup_each_total. exact Hwf.
Qed.

Lemma children_through_caches_witness :
  let run := Container_children 0%nat root_listed in
  fst run = Ok [1%nat; 2%nat] ∧
  heap (snd run) !! 1%nat = Some (OContainer (Container_init "a" false)) ∧
  heap (snd run) !! 2%nat = Some (OSwitch (Switch_init "sw9" false)).
Proof.
  intros run.
  assert (Ht : has_cookie root_listed) by reflexivity.
  assert (Hks : Forall2 child_of
                  [PDict [("type", PStr "container"); ("path", PStr "a")];
                   PDict [("type", PStr "rack"); ("path", PStr "r1")];
                   PDict [("type", PStr "switch"); ("path", PStr "sw9")]]
                  [Some (KContainer "a"); None; Some (KSwitch "sw9")]).
  { repeat constructor.
    - exists (PStr "container"). split; [reflexivity |]. left. split; [reflexivity |].
      exists "a". split; reflexivity.
    - exists (PStr "rack"). split; [reflexivity |]. right. right.
      split_and!; reflexivity.
    - exists (PStr "switch"). split; [reflexivity |]. right. left.
      split_and!; [reflexivity | reflexivity |]. exists "sw9". split; reflexivity. }
  destruct (children_through_caches 0%nat (Container_init "" false) root_listed
              _ [] _ _ _ eq_refl Ht eq_refl eq_refl eq_refl eq_refl Hks) as (H & _).
  unfold run. rewrite H. vm_compute. split_and!; reflexivity.
Defined.

(** ** swarm/objects.py: the slug of a new path *)

Lemma slug_char_facts (c : ascii) :
  slug_char c = true → Ascii.eqb c "."%char = false ∧ lower_char c = c.
Proof.
  unfold slug_char, lower_char. intros H.
  assert (Hn : (nat_of_ascii c < 256)%nat) by apply nat_ascii_bounded.
  split.
  - apply Ascii.eqb_neq. intros ->. vm_compute in H. discriminate.
  - destruct ((65 <=? nat_of_ascii c)%nat && (nat_of_ascii c <=? 90)%nat) eqn:E;
      [| reflexivity].
    exfalso. apply andb_true_iff in E as [E1 E2].
    apply Nat.leb_le in E1, E2.
    rewrite !orb_true_iff, !andb_true_iff, !Nat.leb_le, !Nat.eqb_eq in H. lia.
Qed.

Lemma lower_cons_ascii (c : ascii) (s : string) :
  (nat_of_ascii c < 128)%nat → lower (String c s) = String (lower_char c) (lower s).
Proof.
  intros Hc.
  assert (H1 : is_byte 196 c = false) by (apply Nat.eqb_neq; lia).
  assert (H2 : is_byte 226 c = false) by (apply Nat.eqb_neq; lia).
  destruct s as [| c1 [| c2 s2]]; cbn [lower]; rewrite ?H1, ?H2; reflexivity.
Qed.

Lemma slug_char_ascii (c : ascii) : slug_char c = true → (nat_of_ascii c < 128)%nat.
Proof.
  unfold slug_char. intros H.
  rewrite !orb_true_iff, !andb_true_iff, !Nat.leb_le, !Nat.eqb_eq in H. lia.
Qed.

Lemma slug_text_fixed (g : string) :
  slug_text g → first_segment g = g ∧ lower g = g ∧ ∀ b, sub_runs b g = g.
Proof.
  unfold slug_text. induction g as [| c g IH]; [auto |].
  cbn [list_ascii_of_string]. intros H. apply Forall_cons in H as [Hc Hg].
  destruct (IH Hg) as (H1 & H2 & H3).
  destruct (slug_char_facts c Hc) as (Hdot & Hlow).
  rewrite (lower_cons_ascii c g (slug_char_ascii c Hc)).
  cbn [first_segment sub_runs]. rewrite Hdot, Hlow, Hc, H1, H2, H3. auto.
Qed.

Lemma sub_runs_length (b : bool) (s : string) :
  (String.length (sub_runs b s) ≤ String.length s)%nat.
Proof.
  revert b. induction s as [| c s IH]; intros b; cbn [sub_runs String.length]; [lia |].
  destruct (slug_char c); cbn [String.length].
  - specialize (IH false). lia.
  - destruct b; cbn [String.length]; specialize (IH true); lia.
Qed.

Lemma lower_length (s : string) :
  ascii_text s → String.length (lower s) = String.length s.
Proof.
  unfold ascii_text. induction s as [| c s IH]; [reflexivity |].
  cbn [list_ascii_of_string]. intros H. apply Forall_cons in H as [Hc Hs].
  rewrite (lower_cons_ascii c s Hc). cbn [String.length]. rewrite (IH Hs). reflexivity.
Qed.

Lemma first_segment_length (s : string) :
  (String.length (first_segment s) ≤ String.length s)%nat.
Proof.
  induction s as [| c s IH]; cbn [first_segment String.length]; [lia |].
  destruct (Ascii.eqb c "."); cbn [String.length]; lia.
Qed.

Lemma first_segment_ascii (s : string) : ascii_text s → ascii_text (first_segment s).
Proof.
  unfold ascii_text. induction s as [| c s IH]; [auto |].
  cbn [list_ascii_of_string first_segment]. intros H. apply Forall_cons in H as [Hc Hs].
  destruct (Ascii.eqb c "."); cbn [list_ascii_of_string]; [constructor |].
  constructor; auto.
Qed.

(** X23: the slug [save] derives from an ASCII name has only characters
    of the class [[a-z0-9-_]], so no dot, and is not longer than the
    name; it is its own slug; and it is empty exactly when the name is
    empty or starts with a dot, in which case the new path ends in a
    dot. *)
Theorem slug_is_stable (n g : string) :
  ascii_text n →
  slugify (PStr n) = Ok g →
  slug_text g ∧
  (String.length g ≤ String.length n)%nat ∧
  slugify (PStr g) = Ok g ∧
  (g = "" ↔ first_segment n = "").
Proof.
  intros Ha H. unfold slugify in *. injection H as <-.
  pose proof (sub_runs_class false (lower (first_segment n))) as Hcl.
  pose proof (first_segment_ascii n Ha) as Ha1.
  split_and!.
  - exact Hcl.
  - pose proof (sub_runs_length false (lower (first_segment n))).
    pose proof (lower_length (first_segment n) Ha1).
    pose proof (first_segment_length n). lia.
  - destruct (slug_text_fixed _ Hcl) as (H1 & H2 & H3).
    rewrite H1, H2, H3. reflexivity.
  - destruct (first_segment n) as [| c t]; [split; reflexivity |].
    unfold ascii_text in Ha1. cbn [list_ascii_of_string] in Ha1.
    apply Forall_cons in Ha1 as [Hc _].
    rewrite (lower_cons_ascii c t Hc). cbn [sub_runs].
    destruct (slug_char (lower_char c)); split; discriminate.
Qed.

Lemma slug_is_stable_witness :
  ascii_text "Core-1.example.org" ∧
  slugify (PStr "core-1") = Ok "core-1" ∧
  ("core-1" = "" ↔ first_segment "Core-1.example.org" = "").
Proof.
  assert (Ha : ascii_text "Core-1.example.org")
    by (unfold ascii_text; cbn; repeat constructor).
  destruct (slug_is_stable "Core-1.example.org" "core-1" Ha eq_refl)
    as (_ & _ & H & H').
  split_and!; [exact Ha | exact H | exact H'].
Defined.

(** ** swarm/auth.py: handshakes that fail *)

Lemma encode_ascii_spec (s : string) :
  (ascii_text s → ∃ bs, encode_ascii s = Ok bs) ∧
  (¬ ascii_text s → encode_ascii s = Raise UnicodeEncodeError).
Proof.
  unfold ascii_text. induction s as [| c s [IH1 IH2]]; cbn [encode_ascii list_ascii_of_string].
  - split; [eauto |]. intros H. exfalso. apply H. constructor.
  - assert (Hc : (N_of_ascii c <? 128)%N = true ↔ (nat_of_ascii c < 128)%nat).
    { rewrite N.ltb_lt. unfold nat_of_ascii. lia. }
    destruct (N_of_ascii c <? 128)%N.
    + split.
      * intros H. apply Forall_cons in H as [_ H]. destruct (IH1 H) as [bs ->]. eauto.
      * intros H. rewrite IH2; [reflexivity |]. intros Hs. apply H.
        constructor; [apply Hc; reflexivity | exact Hs].
    + split; [| reflexivity].
      intros H. apply Forall_cons in H as [H _]. apply Hc in H. discriminate.
Qed.

(** X24: a handshake that fails leaves the token without a cookie, so
    that the next call tries again.  An endpoint that is not ASCII
    raises from [encode] before anything is sent.  Otherwise one POST is
    sent, and a transport failure, a 200 answer that is not JSON and a
    200 answer without a [cookie] field each raise with the token
    unchanged. *)
Theorem handshake_failures_keep_no_cookie (s : state) :
  truthy (tok_cookie (auth s)) = false →
  0 ≤ clock s < 2 ^ 64 →
  (¬ ascii_text (tok_endpoint (auth s)) →
   get_cookie s = (Raise UnicodeEncodeError, s)) ∧
  (ascii_text (tok_endpoint (auth s)) →
   let run := get_cookie s in
   length (http_log (snd run)) = S (length (http_log s)) ∧
   (http_in s = [] → fst run = Raise ConnectionError ∧ auth (snd run) = auth s) ∧
   (∀ r rest, http_in s = r :: rest → status_code r = 200 →
      (json r = None → fst run = Raise JSONDecodeError ∧ auth (snd run) = auth s) ∧
      (∀ reply e, json r = Some reply → getitem reply "cookie" = Raise e →
                  fst run = Raise e ∧ auth (snd run) = auth s))).
Proof.
  intros Ht Hclock.
  assert (Hp : ∃ packed, struct_pack_Q (clock s) = Ok packed).
  { unfold struct_pack_Q.
    assert (E : (0 <=? clock s) && (clock s <? 2 ^ 64) = true).
    { apply andb_true_iff. split; [apply Z.leb_le | apply Z.ltb_lt]; lia. }
    rewrite E. eauto. }
  destruct Hp as (packed & Hp).
  destruct (encode_ascii_spec (tok_endpoint (auth s))) as (Hok & Hbad).
  split.
  - intros Hn. unfold get_cookie. mstep. rewrite Ht, Hp, (Hbad Hn). reflexivity.
  - intros Ha run. destruct (Hok Ha) as (ep & He).
    set (rq := mkRequest POST machauth_url None
                 (JsonText (machauth_blob (auth s) (clock s)
                              (hmac_sha256 (tok_key (auth s)) (packed ++ ep))))
                 (Some "application/json")).
    assert (Hrun : run
      = match http_in s with
        | r :: rest =>
            (if status_code r =? 200 then
               reply <- response_json r ;;
               c <- lift (getitem reply "cookie") ;;
               modify (set_cookie c) ;;;
               gets (λ st, tok_cookie (auth st))
             else raise (MachAuthError (status_code r) (text r)))
              (set_http rest (http_log s ++ [rq]) s)
        | [] => (Raise ConnectionError, set_http [] (http_log s ++ [rq]) s)
        end).
    { unfold run, get_cookie. mstep. rewrite Ht, Hp, He. unfold http_exchange.
      destruct (http_in s); reflexivity. }
    rewrite Hrun. split_and!.
    + destruct (http_in s) as [| r rest]; cbn [snd].
      * cbn [http_log set_http]. rewrite length_app. cbn. lia.
      * destruct (status_code r =? 200).
        -- unfold response_json. mstep.
           destruct (json r) as [reply |]; cbv beta iota.
           ++ destruct (getitem reply "cookie"); cbn [snd http_log set_http set_cookie
                                                       set_auth];
                rewrite length_app; cbn; lia.
           ++ cbn [snd http_log set_http]. rewrite length_app. cbn. lia.
        -- unfold raise. cbn [snd http_log set_http]. rewrite length_app. cbn. lia.
    + intros ->. split; reflexivity.
    + intros r rest -> H200. rewrite H200. cbn [Z.eqb Pos.eqb].
      unfold response_json. mstep. split.
      * intros ->. split; reflexivity.
      * intros reply e -> ->. split; reflexivity.
Qed.

Lemma handshake_failures_keep_no_cookie_witness :
  get_cookie umlaut_token = (Raise UnicodeEncodeError, umlaut_token) ∧
  fst (get_cookie no_cookie_field) = Raise (KeyError (PStr "cookie")) ∧
  auth (snd (get_cookie no_cookie_field)) = auth no_cookie_field ∧
  length (http_log (snd (get_cookie no_cookie_field))) = 1%nat.
Proof.
  assert (Hc : 0 ≤ 1700000000 < 2 ^ 64) by lia.
  assert (Hn : ¬ ascii_text (tok_endpoint (auth umlaut_token))).
  { unfold ascii_text. intros H. cbn in H.
    apply Forall_cons in H as [_ H]. apply Forall_cons in H as [_ H].
    apply Forall_cons in H as [H _]. vm_compute in H. lia. }
  assert (Ha : ascii_text (tok_endpoint (auth no_cookie_field))).
  { unfold ascii_text. cbn. repeat constructor. }
  destruct (handshake_failures_keep_no_cookie umlaut_token eq_refl Hc) as (H1 & _).
  destruct (handshake_failures_keep_no_cookie no_cookie_field eq_refl Hc) as (_ & H2).
  destruct (H2 Ha) as (Hlen & _ & H3).
  destruct (H3 _ [] eq_refl eq_refl) as (_ & H4).
  destruct (H4 _ (KeyError (PStr "cookie")) eq_refl eq_refl) as (H5 & H6).
  split_and!; [exact (H1 Hn) | exact H5 | exact H6 | exact Hlen].
Defined.

(** ** swarm/client.py: a new client *)





(** ** swarm/client.py: the identity caches *)

Lemma lookup_within_window_witness :
  let s1 := snd (lookup (KSwitch "sw0") signed_in) in
  let ops := take 19 (tail many_switches) in
  cached (KSwitch "sw0") (run_lookups ops s1) = Some 0%nat ∧
  fst (lookup (KSwitch "sw0") (run_lookups ops s1)) = Ok 0%nat.
Proof.
  intros s1 ops.
  assert (Hwin : within_window (KSwitch "sw0") ops signed_in).
  { cbn [within_window]. vm_compute. lia. }
  exact (lookup_within_window (KSwitch "sw0") ops signed_in 0%nat
           caches_inv_signed_in eq_refl Hwin).
Defined.

(** ** swarm/client.py: mac_search *)

Lemma for_each_never {A B} (f : A → M B) (l : list A) (s : state) (ys : list B) :
  (∀ x st y, fst (f x st) ≠ Ok y) →
  fst (for_each f l s) = Ok ys → l = [] ∧ ys = [].
Proof.
  intros Hf. destruct l as [| x l]; cbn [for_each].
  - unfold ret. cbn. intros [= <-]. auto.
  - unfold bind. specialize (Hf x s).
    destruct (f x s) as [[y | e] s1]; cbn [fst] in *; [| discriminate].
    exfalso. exact (Hf y eq_refl).
Qed.

(** X27: [mac_search] never returns a neighbour.  It constructs each
    [MACNeighbour] with three arguments where the constructor takes
    four, so the loop over the sorted entries fails at the first one:
    whatever the service answers, a search that returns at all returns
    the empty list, and it does so exactly on an answer that lists no
    interface. *)
Theorem mac_search_never_finds (frag : string) (s : state) (ns : list MACNeighbour) :
  fst (Client_mac_search frag s) = Ok ns →
  ns = [] ∧
  (has_cookie s →
   ∃ r j, next_response s = Ok r ∧ status_code r = 200 ∧ json r = Some j ∧
          getitem j "interfaces" = Ok (PList [])).
Proof.
  intros H.
  assert (Hloop : ∀ intfs st,
            fst (for_each (λ i,
                   p <- lift (getitem i "path") ;;
                   p <- lift (as_path p) ;;
                   ix <- lift (getitem i "index") ;;
                   ix <- lift (as_index ix) ;;
                   intf <- Client_interface p ix ;;
                   t <- lift (getitem i "time") ;;
                   m <- lift (getitem i "mac") ;;
                   MACNeighbour_new [DObj intf; DVal t; DVal m]) intfs st) = Ok ns →
            intfs = [] ∧ ns = []).
  { intros intfs st. apply for_each_never. intros x st0 y. mstep.
    destruct (getitem x "path"); [| discriminate].
    destruct (as_path _); [| discriminate].
    destruct (getitem x "index"); [| discriminate].
    destruct (as_index _); [| discriminate].
    destruct (Client_interface _ _ st0) as [[intf | e] st1]; [| discriminate].
    destruct (getitem x "time"); [| discriminate].
    destruct (getitem x "mac"); discriminate. }
  unfold Client_mac_search in H. unfold bind at 1 in H.
  destruct (Client_get _ s) as [[r | e] s1] eqn:Eget; [| discriminate].
  destruct (status_code r =? 200) eqn:E200; [| discriminate].
  unfold bind at 1 in H. unfold response_json in H.
  destruct (json r) as [j |] eqn:Ej; [| discriminate].
  unfold ret at 1 in H. cbv beta iota in H.
  unfold bind at 1 in H. unfold lift at 1 in H.
  destruct (getitem j "interfaces") as [v |] eqn:Ev; [| discriminate].
  cbv beta iota in H. unfold bind at 1 in H. unfold lift at 1 in H.
  destruct (sort_intfs v) as [sorted |] eqn:Es; [| discriminate].
  cbv beta iota in H. destruct (Hloop sorted s1 H) as (-> & ->).
  split; [reflexivity |]. intros Ht.
  rewrite (Client_get_signed _ s Ht) in Eget. injection Eget as Er _.
  exists r, j. apply Z.eqb_eq in E200. split_and!; auto.
  rewrite Ev. unfold sort_intfs in Es.
  destruct v as [| | | | | l |]; try discriminate.
  destruct (with_keys l) as [ks |] eqn:Ek; [| discriminate].
  injection Es as Es. apply (f_equal (@length _)) in Es.
  rewrite length_map in Es.
  pose proof (Permutation_length (sort_keyed_perm ks)) as Hp. rewrite Hp in Es.
  destruct ks; [| discriminate].
  destruct l as [| x l]; [reflexivity |]. cbn in Ek.
  destruct (sort_key x); [| discriminate].
  destruct (with_keys l); discriminate.
Qed.

Lemma mac_search_never_finds_witness :
  fst (Client_mac_search "00:11" none_found) = Ok [] ∧
  ∃ r j, next_response none_found = Ok r ∧ status_code r = 200 ∧ json r = Some j ∧
         getitem j "interfaces" = Ok (PList []).
Proof.
  assert (H : fst (Client_mac_search "00:11" none_found) = Ok []) by reflexivity.
  split; [exact H |].
  destruct (mac_search_never_finds "00:11" none_found [] H) as (_ & Hr).
  exact (Hr eq_refl).
Defined.

(** ** swarm/objects.py: the interfaces of a switch *)

Lemma for_each_Forall2_ext {A B C} (R : A → B → Prop) (f : A → M C) (g : B → M C)
    (l : list A) (l' : list B) (s : state) :
  (∀ x y st, R x y → f x st = g y st) →
  Forall2 R l l' → for_each f l s = for_each g l' s.
Proof.
  intros Hfg H. revert s. induction H as [| x y l l' Hxy _ IH]; intros s; [reflexivity |].
  cbn [for_each]. unfold bind. rewrite (Hfg x y s Hxy).
  destruct (g y s) as [[c | e] s1]; [| reflexivity]. rewrite IH. reflexivity.
Qed.

(** X28: the interfaces of a switch that is not new are found through
    the client.  One GET of "/switches/<path>/interfaces" is sent; then
    every entry is looked up with [client.interface] under the path of
    the switch and its own index, in the order of the answer.  With
    caches in order there is one object per entry. *)
Theorem interfaces_through_cache
  (self : ref) (w : Switch) (s : state) (r : http_response)
  (rest : list http_response) (j : pyval) (intfs : list pyval) (ixs : list Z) :
  heap s !! self = Some (OSwitch w) →
  sw_new w = false →
  has_cookie s →
  http_in s = r :: rest →
  status_code r = 200 →
  json r = Some j →
  getitem j "interfaces" = Ok (PList intfs) →
  Forall2 index_of intfs ixs →
  let s1 := after_request
              (api_request GET ("/switches/" +:+ sw_path w +:+ "/interfaces") NoBody
                 None s) s in
  Switch_interfaces self s = lookup_each (map (KInterface (sw_path w)) ixs) s1 ∧
  (caches_wf s →
   ∃ refs, fst (Switch_interfaces self s) = Ok refs ∧ length refs = length intfs).
Proof.
  intros Hw Hn Ht Hin H200 Hj Hi Hixs s1.
  assert (Hrun : Switch_interfaces self s
                 = lookup_each (map (KInterface (sw_path w)) ixs) s1).
  { unfold Switch_interfaces. unfold bind at 1. unfold load_switch. rewrite Hw, Hn.
    unfold bind at 1. rewrite (Client_get_signed _ s Ht).
    unfold next_response. rewrite Hin. cbv beta iota. fold s1. rewrite H200.
    cbn [Z.eqb Pos.eqb]. unfold bind at 1. unfold response_json. rewrite Hj.
    unfold ret at 1. cbv beta iota. unfold bind at 1. unfold lift at 1. rewrite Hi.
    cbv beta iota. unfold bind at 1. unfold lift at 1. cbn [py_iter]. cbv beta iota.
    unfold lookup_each.
    apply (for_each_Forall2_ext (λ intf k, ∃ ix, index_of intf ix
                                               ∧ k = KInterface (sw_path w) ix)).
    - intros x k st (ix & (v & Hv & Hix) & ->). mstep. rewrite Hv, Hix. reflexivity.
    - clear -Hixs. induction Hixs; cbn [map]; constructor; eauto. }
  split; [exact Hrun |]. intros Hwf. rewrite Hrun.
  destruct (lookup_each_total (map (KInterface (sw_path w)) ixs) s1 Hwf)
    as (refs & Hr & Hlen).
  exists refs. split; [exact Hr |].
  rewrite Hlen, length_map. symmetry. exact (Forall2_length _ _ _ Hixs).
Qed.

Lemma interfaces_through_cache_witness :
  let run := Switch_interfaces 0%nat two_listed in
  fst run = Ok [1%nat; 2%nat] ∧
  heap (snd run) !! 2%nat = Some (OInterface (Interface_init "a.sw1" 4)).
Proof.
  intros run.
  assert (Ht : has_cookie two_listed) by reflexivity.
  assert (Hixs : Forall2 index_of
                   [PDict [("index", PInt 3); ("name", PStr "Gi0/3")];
                    PDict [("index", PInt 4); ("name", PStr "Gi0/4")]] [3; 4]).
  { repeat constructor; eexists; split; reflexivity. }
  destruct (interfaces_through_cache 0%nat (Switch_init "a.sw1" false) two_listed
              _ [] _ _ _ eq_refl eq_refl Ht eq_refl eq_refl eq_refl eq_refl Hixs)
    as (H & _).
  unfold run. rewrite H. vm_compute. split; reflexivity.
Defined.

(** ** swarm/client.py: the objects behind the caches *)

Section FetchStore.
Context {K : Type} `{Countable K}.
Variables (repr : K → pyval)
          (getc : state → LRUCache K ref)
          (setc : LRUCache K ref → state → state).
Hypothesis get_set : ∀ c s, getc (setc c s) = c.
Hypothesis get_heap : ∀ h n s, getc (set_heap h n s) = getc s.
Hypothesis heap_set : ∀ c s, heap (setc c s) = heap s.
Hypothesis next_set : ∀ c s, next_ref (setc c s) = next_ref s.

(** a fetch leaves the heap alone on a hit and adds the fresh object
    under the next reference on a miss; a new entry refers to it *)
Lemma cache_fetch_store (fresh : pyobj) (k : K) (s : state) :
  let s' := snd (cache_fetch repr getc setc fresh k s) in
  (heap s' = heap s ∧ next_ref s' = next_ref s ∧
   ∀ k' v', data (getc s') !! k' = Some v' → data (getc s) !! k' = Some v') ∨
  (heap s' = <[next_ref s := fresh]> (heap s) ∧ next_ref s' = S (next_ref s) ∧
   ∀ k' v', data (getc s') !! k' = Some v' →
            data (getc s) !! k' = Some v' ∨ (k' = k ∧ v' = next_ref s)).
Proof.
  unfold cache_fetch. mstep.
  destruct (lru_contains k (getc s)) eqn:Ec.
  - left. apply lru_contains_true in Ec. destruct Ec as [v Hv].
    destruct (lru_getitem_hit repr k v (getc s) Hv) as (c1 & Hg & _ & Hd & _).
    rewrite Hg. cbn [fst snd]. rewrite heap_set, next_set, get_set, Hd. auto.
  - right. apply lru_contains_false in Ec. cbn [fst snd].
    destruct (lru_setitem k (next_ref s) (getc s)) as [c1 | e] eqn:Es; cbn [fst snd].
    + destruct (lru_setitem_fresh k _ _ c1 Ec Es) as (_ & Hk1 & Hold & _).
      rewrite get_set.
      destruct (lru_getitem_hit repr k _ c1 Hk1) as (c2 & Hg & _ & Hd & _).
      rewrite Hg. cbn [fst snd]. rewrite heap_set, next_set, get_set, Hd.
      rewrite heap_set, next_set. cbn [heap next_ref set_heap].
      split_and!; try reflexivity.
      intros k' v' Hk'. destruct (decide (k' = k)) as [-> | Hne].
      * right. split; [reflexivity | congruence].
      * left. eauto.
    + rewrite get_heap. cbn [heap next_ref set_heap]. auto.
Qed.

Lemma fetch_heap_bound (fresh : pyobj) (k : K) (s : state) :
  let s' := snd (cache_fetch repr getc setc fresh k s) in
  heap_bound (heap s) (next_ref s) →
  heap_bound (heap s') (next_ref s') ∧
  (∀ r o, heap s !! r = Some o → heap s' !! r = Some o).
Proof.
  intros s' Hb. subst s'.
  destruct (cache_fetch_store fresh k s) as [(Hh & Hn & _) | (Hh & Hn & _)];
    rewrite Hh, Hn.
  - auto.
  - split.
    + intros r [o Hr]. destruct (decide (r = next_ref s)) as [-> | Hne]; [lia |].
      rewrite lookup_insert_ne in Hr by congruence.
      specialize (Hb r (mk_is_Some _ _ Hr)). lia.
    + intros r o Hr. rewrite lookup_insert_ne; [exact Hr |].
      intros <-. specialize (Hb _ (mk_is_Some _ _ Hr)). lia.
Qed.

Lemma fetch_cache_ok (fits : K → pyobj → Prop) (fresh : pyobj) (k : K) (s : state) :
  let s' := snd (cache_fetch repr getc setc fresh k s) in
  fits k fresh →
  heap_bound (heap s) (next_ref s) →
  cache_ok fits (getc s) (heap s) →
  cache_ok fits (getc s') (heap s').
Proof.
  intros s' Hf Hb Hc. subst s'.
  destruct (fetch_heap_bound fresh k s Hb) as (_ & Hkeep).
  destruct (cache_fetch_store fresh k s) as [(Hh & Hn & Hd) | (Hh & Hn & Hd)].
  - intros k' r Hk'. rewrite Hh. apply Hc, Hd, Hk'.
  - intros k' r Hk'. destruct (Hd k' r Hk') as [Hold | [-> ->]].
    + destruct (Hc k' r Hold) as (o & Ho & Hfit). exists o. split; [| exact Hfit].
      apply Hkeep, Ho.
    + exists fresh. split; [| exact Hf]. rewrite Hh. apply lookup_insert_eq.
Qed.

(** a cache the fetch does not use still refers to the same objects *)
Lemma fetch_other_ok {K2} `{Countable K2} (fits : K2 → pyobj → Prop)
    (g : state → LRUCache K2 ref) (fresh : pyobj) (k : K) (s : state) :
  let s' := snd (cache_fetch repr getc setc fresh k s) in
  (∀ c s, g (setc c s) = g s) →
  (∀ h n s, g (set_heap h n s) = g s) →
  heap_bound (heap s) (next_ref s) →
  cache_ok fits (g s) (heap s) →
  cache_ok fits (g s') (heap s').
Proof.
  intros s' Hg1 Hg2 Hb Hc. subst s'.
  rewrite (cache_fetch_frame repr getc setc g fresh k s Hg1 Hg2).
  destruct (fetch_heap_bound fresh k s Hb) as (_ & Hkeep).
  intros k' r Hk'. destruct (Hc k' r Hk') as (o & Ho & Hfit).
  exists o. split; [apply Hkeep, Ho | exact Hfit].
Qed.
End FetchStore.

Lemma fits_key (k1 k2 : lookup_key) (o : pyobj) : fits k1 o → fits k2 o → k1 = k2.
Proof.
  destruct k1 as [p1 | p1 i1 | p1], k2 as [p2 | p2 i2 | p2]; cbn [fits];
    intros (x & -> & H1) (y & Hy & H2); try discriminate; injection Hy as <-.
  - congruence.
  - cbn [fst snd] in *. destruct H1, H2. congruence.
  - congruence.
Qed.

Lemma cached_fits (k : lookup_key) (s : state) (r : ref) :
  store_ok s → cached k s = Some r → ∃ o, heap s !! r = Some o ∧ fits k o.
Proof.
  intros (_ & Hc & Hs & Hi). destruct k as [p | p i | p]; cbn [cached fits].
  - apply Hs.
  - apply (Hi (p, i)).
  - apply Hc.
Qed.

Lemma switch_fetch_ok (p : string) (s : state) :
  let s' := snd (Client_switch p s) in
  store_ok s →
  store_ok s' ∧ (∀ r o, heap s !! r = Some o → heap s' !! r = Some o).
Proof.
  intros s' (Hb & Hc & Hs & Hi). subst s'. rewrite Client_switch_fetch.
  destruct (fetch_heap_bound path_repr sw_cache set_sw_cache
              ltac:(reflexivity) ltac:(reflexivity) ltac:(reflexivity)
              ltac:(reflexivity) (OSwitch (Switch_init p false)) p s Hb) as (Hb' & Hkeep).
  split; [| exact Hkeep]. split_and!.
  - exact Hb'.
  - apply (fetch_other_ok path_repr sw_cache set_sw_cache
             ltac:(reflexivity) ltac:(reflexivity) ltac:(reflexivity)
             ltac:(reflexivity) is_container_at cont_cache); auto.
  - apply (fetch_cache_ok path_repr sw_cache set_sw_cache
             ltac:(reflexivity) ltac:(reflexivity) ltac:(reflexivity)
             ltac:(reflexivity) is_switch_at); auto.
    eexists. split; reflexivity.
  - apply (fetch_other_ok path_repr sw_cache set_sw_cache
             ltac:(reflexivity) ltac:(reflexivity) ltac:(reflexivity)
             ltac:(reflexivity) is_interface_at intf_cache); auto.
Qed.

Lemma container_fetch_ok (p : string) (s : state) :
  let s' := snd (Client_container p s) in
  store_ok s →
  store_ok s' ∧ (∀ r o, heap s !! r = Some o → heap s' !! r = Some o).
Proof.
  intros s' (Hb & Hc & Hs & Hi). subst s'. rewrite Client_container_fetch.
  destruct (fetch_heap_bound path_repr cont_cache set_cont_cache
              ltac:(reflexivity) ltac:(reflexivity) ltac:(reflexivity)
              ltac:(reflexivity) (OContainer (Container_init p false)) p s Hb)
    as (Hb' & Hkeep).
  split; [| exact Hkeep]. split_and!.
  - exact Hb'.
  - apply (fetch_cache_ok path_repr cont_cache set_cont_cache
             ltac:(reflexivity) ltac:(reflexivity) ltac:(reflexivity)
             ltac:(reflexivity) is_container_at); auto.
    eexists. split; reflexivity.
  - apply (fetch_other_ok path_repr cont_cache set_cont_cache
             ltac:(reflexivity) ltac:(reflexivity) ltac:(reflexivity)
             ltac:(reflexivity) is_switch_at sw_cache); auto.
  - apply (fetch_other_ok path_repr cont_cache set_cont_cache
             ltac:(reflexivity) ltac:(reflexivity) ltac:(reflexivity)
             ltac:(reflexivity) is_interface_at intf_cache); auto.
Qed.

Lemma interface_fetch_ok (p : string) (i : Z) (s : state) :
  let s' := snd (cache_fetch intf_key_repr intf_cache set_intf_cache
                   (OInterface (Interface_init p i)) (p, i) s) in
  store_ok s →
  store_ok s' ∧ (∀ r o, heap s !! r = Some o → heap s' !! r = Some o).
Proof.
  intros s' (Hb & Hc & Hs & Hi). subst s'.
  destruct (fetch_heap_bound intf_key_repr intf_cache set_intf_cache
              ltac:(reflexivity) ltac:(reflexivity) ltac:(reflexivity)
              ltac:(reflexivity) (OInterface (Interface_init p i)) (p, i) s Hb)
    as (Hb' & Hkeep).
  split; [| exact Hkeep]. split_and!.
  - exact Hb'.
  - apply (fetch_other_ok intf_key_repr intf_cache set_intf_cache
             ltac:(reflexivity) ltac:(reflexivity) ltac:(reflexivity)
             ltac:(reflexivity) is_container_at cont_cache); auto.
  - apply (fetch_other_ok intf_key_repr intf_cache set_intf_cache
             ltac:(reflexivity) ltac:(reflexivity) ltac:(reflexivity)
             ltac:(reflexivity) is_switch_at sw_cache); auto.
  - apply (fetch_cache_ok intf_key_repr intf_cache set_intf_cache
             ltac:(reflexivity) ltac:(reflexivity) ltac:(reflexivity)
             ltac:(reflexivity) is_interface_at); auto.
    eexists. split_and!; reflexivity.
Qed.

Lemma lookup_store_ok (k : lookup_key) (s : state) :
  let s' := snd (lookup k s) in
  store_ok s →
  store_ok s' ∧ (∀ r o, heap s !! r = Some o → heap s' !! r = Some o).
Proof.
  intros s' Hok. subst s'. destruct k as [p | p i | p]; cbn [lookup].
  - apply switch_fetch_ok, Hok.
  - rewrite Client_interface_fetch. unfold bind.
    destruct (switch_fetch_ok p s Hok) as (Hok1 & Hkeep1).
    destruct (Client_switch p s) as [[sw | e] s1]; cbn [snd] in *; [| auto].
    destruct (interface_fetch_ok p i s1 Hok1) as (Hok2 & Hkeep2). auto.
  - apply container_fetch_ok, Hok.
Qed.

Lemma store_ok_signed_in : store_ok signed_in.
Proof.
  split_and!.
  - intros r [o Ho]. cbn in Ho. rewrite lookup_empty in Ho. discriminate.
  - intros k r Hk. cbn in Hk. rewrite lookup_empty in Hk. discriminate.
  - intros k r Hk. cbn in Hk. rewrite lookup_empty in Hk. discriminate.
  - intros k r Hk. cbn in Hk. rewrite lookup_empty in Hk. discriminate.
Qed.

(** X29: the objects behind the caches fit their keys.  In a store where
    every cached switch, interface and container has the path (and
    index) it is cached under, a lookup through the client keeps it so
    and changes no object that exists; the object it returns is of the
    class asked for and has the path (and index) asked for; and two
    different keys never share an object. *)
Theorem cached_objects_fit_keys (k : lookup_key) (s : state) :
  store_ok s →
  let s' := snd (lookup k s) in
  store_ok s' ∧
  (∀ r o, heap s !! r = Some o → heap s' !! r = Some o) ∧
  (∀ r, fst (lookup k s) = Ok r → ∃ o, heap s' !! r = Some o ∧ fits k o) ∧
  (∀ k1 k2 r1 r2,
     cached k1 s' = Some r1 → cached k2 s' = Some r2 → k1 ≠ k2 → r1 ≠ r2).
Proof.
  intros Hok s'. destruct (lookup_store_ok k s Hok) as (Hok' & Hkeep).
  split_and!; [exact Hok' | exact Hkeep | |].
  - intros r Hr. apply (cached_fits k _ r Hok'). apply lookup_ok_cached, Hr.
  - intros k1 k2 r1 r2 H1 H2 Hne ->.
    destruct (cached_fits k1 _ _ Hok' H1) as (o1 & Ho1 & Hf1).
    destruct (cached_fits k2 _ _ Hok' H2) as (o2 & Ho2 & Hf2).
    fold s' in Ho1, Ho2. rewrite Ho1 in Ho2. injection Ho2 as <-.
    exact (Hne (fits_key _ _ _ Hf1 Hf2)).
Qed.

Lemma cached_objects_fit_keys_witness :
  let s' := snd (lookup (KInterface "a.sw1" 3) signed_in) in
  store_ok s' ∧
  (∃ o, heap s' !! 1%nat = Some o ∧ fits (KInterface "a.sw1" 3) o) ∧
  (0 ≠ 1)%nat.
Proof.
  intros s'.
  destruct (cached_objects_fit_keys (KInterface "a.sw1" 3) signed_in store_ok_signed_in)
    as (Hok & _ & Hfit & Hdiff).
  split_and!; [exact Hok | exact (Hfit 1%nat eq_refl) |].
  apply (Hdiff (KSwitch "a.sw1") (KInterface "a.sw1" 3)); [reflexivity | reflexivity |].
  discriminate.
Defined.

(** ** swarm/client.py: WriteProgress *)

(** X30: [percent] gives the integer 100 or no integer at all.  An
    integer result is the 100 of a finished write; an unfinished one
    that has progress gives a float, the quotient of a true division.
    And a progress made of a frame without an 'empty' entry answers
    neither [finished] nor [percent]: both raise [KeyError]. *)
Theorem percent_int_only_when_finished (w : WriteProgress) :
  (∀ z, percent w = Ok (PInt z) → z = 100 ∧ finished w = Ok true) ∧
  (∀ v, percent w = Ok v → finished w = Ok false → ∃ f, v = PFloat f) ∧
  (∀ d, wp_dic w = PDict d → dict_get d "empty" = None →
        finished w = Raise (KeyError (PStr "empty")) ∧
        percent w = Raise (KeyError (PStr "empty"))).
Proof.
  assert (Hdiv : ∀ x y v, truediv x y = Ok v → ∃ f, v = PFloat f).
  { intros x y v. unfold truediv.
    destruct (as_num x) as [[zx | fx] |]; destruct (as_num y) as [[zy | fy] |];
      try discriminate.
    - destruct (int_truediv zx zy); [| discriminate]. intros [= <-]. eauto.
    - destruct (to_float (NInt zx)); [| discriminate]. cbn [to_float].
      destruct (float_is_zero fy); [discriminate |]. intros [= <-]. eauto.
    - cbn [to_float]. destruct (is_infinite (float_of_Z zy)); [discriminate |].
      destruct (float_is_zero (float_of_Z zy)); [discriminate |]. intros [= <-]. eauto.
    - cbn [to_float]. destruct (float_is_zero fy); [discriminate |].
      intros [= <-]. eauto. }
  assert (Hunf : ∀ v, percent w = Ok v → finished w = Ok false → ∃ f, v = PFloat f).
  { intros v. unfold percent. intros Hp Hf. rewrite Hf in Hp.
    destruct (progress w) as [[done total] |]; [| discriminate].
    destruct (mul (PInt 100) done); [| discriminate].
    exact (Hdiv _ _ _ Hp). }
  split_and!.
  - intros z Hp. destruct (finished w) as [[] |] eqn:Hf.
    + unfold percent in Hp. rewrite Hf in Hp. injection Hp as <-. auto.
    + destruct (Hunf _ Hp eq_refl) as [f Hv]. discriminate.
    + unfold percent in Hp. rewrite Hf in Hp. discriminate.
  - exact Hunf.
  - intros d Hd He.
    assert (Hf : finished w = Raise (KeyError (PStr "empty"))).
    { unfold finished. rewrite Hd. cbn [getitem]. rewrite He. reflexivity. }
    split; [exact Hf |]. unfold percent. rewrite Hf. reflexivity.
Qed.

(** the progress of an empty write is finished at 100; one of a streamed
    frame cannot be asked *)
Example percent_samples :
  percent (mkWriteProgress (PDict [("empty", PBool true)])) = Ok (PInt 100) ∧
  progress (mkWriteProgress (PDict [("empty", PBool true)]))
  = Raise (KeyError (PStr "progress")) ∧
  percent (mkWriteProgress ok_frame) = Raise (KeyError (PStr "empty")).
Proof. split_and!; reflexivity. Qed.

Lemma percent_int_only_when_finished_witness :
  let w := mkWriteProgress (PDict [("empty", PBool true)]) in
  percent w = Ok (PInt 100) ∧ finished w = Ok true ∧
  percent (mkWriteProgress ok_frame) = Raise (KeyError (PStr "empty")).
Proof.
  intros w.
  destruct (percent_int_only_when_finished w) as (H & _).
  destruct (H 100 eq_refl) as (_ & Hf).
  destruct (percent_int_only_when_finished (mkWriteProgress ok_frame)) as (_ & _ & H').
  destruct (H' _ eq_refl eq_refl) as (_ & Hp).
  split_and!; [reflexivity | exact Hf | exact Hp].
Defined.
